(** * Medical robotics data platform: the warehouse ETL, embedded and verified

    Two programs are modelled, each in a module named after its file:

    - [S3Telemetry]: [s3_telemetry_to_redshift.py], which lists telemetry
      objects, flattens every JSON sample into a staging row and merges the
      staged rows into [fact_procedure_telemetry];
    - [RdsEtl]: [rds_to_redshift_etl.py], which loads the surgeon and robot
      dimensions and the procedure facts.

    Python values are the values [json.loads] builds; SQL statements are
    given their relational meaning over tables kept as lists of rows, with
    the three-valued logic of SQL written out. *)

From Stdlib Require Import ZArith String Ascii List Lia.
From stdpp Require Import gmap strings list fin_maps.

Set Warnings "-register-all".

(** ** Python values and exceptions *)

(** What [json.loads] returns: [None], booleans, integers, floats (kept as a
    decimal mantissa and exponent, [m * 10^e]), strings, lists and dicts. *)
Inductive pyval : Type :=
| PNone
| PBool (b : bool)
| PInt (n : Z)
| PFloat (m e : Z)
| PStr (s : string)
| PList (l : list pyval)
| PDict (d : gmap string pyval).

(** The exceptions the modelled code can meet. *)
Inductive exn : Type :=
| AttributeError (what : string)
| ValueError (what : string)
| RuntimeError (what : string).

(** [str(e)] *)
Definition str_exn (e : exn) : string :=
  match e with
  | AttributeError w => w
  | ValueError w => w
  | RuntimeError w => w
  end.

Inductive result (A : Type) : Type :=
| Ok (a : A)
| Raise (e : exn).
Arguments Ok {A} a.
Arguments Raise {A} e.

#[global] Instance result_ret : MRet result := λ A, @Ok A.
#[global] Instance result_bind : MBind result := λ A B k r,
  match r with
  | Ok a => k a
  | Raise e => Raise e
  end.

(** Truth value testing: [None], [False], zero, and empty containers are
    false. *)
Definition truthy (v : pyval) : bool :=
  match v with
  | PNone => false
  | PBool b => b
  | PInt n => negb (n =? 0)%Z
  | PFloat m _ => negb (m =? 0)%Z
  | PStr s => negb (String.eqb s "")
  | PList l => match l with [] => false | _ :: _ => true end
  | PDict d => negb (Nat.eqb (size d) 0)
  end.

(** [v.get(k)] and [v.get(k, default)]: only a dict has [get]. *)
Definition py_get (v : pyval) (k : string) (dflt : pyval) : result pyval :=
  match v with
  | PDict d => Ok (default dflt (d !! k))
  | _ => Raise (AttributeError "object has no attribute 'get'")
  end.

(** [s.replace('Z', '+00:00')] on the characters of a string. *)
Fixpoint replace_Z (s : string) : string :=
  match s with
  | EmptyString => EmptyString
  | String c rest =>
      if Ascii.eqb c "Z"%char then ("+00:00" ++ replace_Z rest)%string
      else String c (replace_Z rest)
  end.

(** [v.replace('Z', '+00:00')]: only a string has [replace]. *)
Definition py_replace_Z (v : pyval) : result string :=
  match v with
  | PStr s => Ok (replace_Z s)
  | _ => Raise (AttributeError "object has no attribute 'replace'")
  end.

(** [s.endswith(suffix)] *)
Definition endswith (s suffix : string) : bool :=
  let n := String.length s in
  let k := String.length suffix in
  (k <=? n)%nat && String.eqb (substring (n - k) k s) suffix.

(** [s.startswith(prefix)], the test an object listing applies to keys. *)
Definition startswith (s pre : string) : bool :=
  String.eqb (substring 0 (String.length pre) s) pre
  && (String.length pre <=? String.length s)%nat.

(** ** Timestamps *)

(** The fields of a [datetime] the code reads, and the rest of the value. *)
Record datetime : Type := {
  year : Z; month : Z; day : Z;
  hour : Z; minute : Z; second : Z;
  utcoffset : option Z
}.

(** A reader for the timestamps the platform writes,
    [YYYY-MM-DD?HH:MM:SS] followed by nothing or by [+HH:MM] / [-HH:MM].
    It stands for [datetime.fromisoformat] wherever a concrete parser is
    needed; the transform itself is stated over any parser. *)
Module Iso.

Definition digit (c : ascii) : option Z :=
  let n := (Z.of_nat (nat_of_ascii c) - 48)%Z in
  if ((0 <=? n) && (n <=? 9))%Z then Some n else None.

Fixpoint digits (acc : Z) (cs : list ascii) : option Z :=
  match cs with
  | [] => Some acc
  | c :: cs' =>
      match digit c with
      | Some d => digits (10 * acc + d)%Z cs'
      | None => None
      end
  end.

Fixpoint chars (s : string) : list ascii :=
  match s with
  | EmptyString => []
  | String c rest => c :: chars rest
  end.

Definition field (cs : list ascii) (from len : nat) : option Z :=
  let f := take len (drop from cs) in
  if Nat.eqb (length f) len then digits 0 f else None.

Definition is_char (cs : list ascii) (i : nat) (c : ascii) : bool :=
  match cs !! i with
  | Some c' => Ascii.eqb c' c
  | None => false
  end.

Definition offset (cs : list ascii) : option (option Z) :=
  match cs with
  | [] => Some None
  | sign :: rest =>
      if Nat.eqb (length rest) 5 && is_char rest 2 ":" then
        match field rest 0 2, field rest 3 2 with
        | Some h, Some m =>
            if ((h <? 24) && (m <? 60))%Z then
              if Ascii.eqb sign "+" then Some (Some (h * 60 + m)%Z)
              else if Ascii.eqb sign "-" then Some (Some (- (h * 60 + m))%Z)
              else None
            else None
        | _, _ => None
        end
      else None
  end.

Definition in_range (lo x hi : Z) : bool := ((lo <=? x) && (x <=? hi))%Z.

Definition parse (s : string) : option datetime :=
  let cs := chars s in
  if (19 <=? length cs)%nat
     && is_char cs 4 "-" && is_char cs 7 "-"
     && is_char cs 13 ":" && is_char cs 16 ":" then
    match field cs 0 4, field cs 5 2, field cs 8 2,
          field cs 11 2, field cs 14 2, field cs 17 2, offset (drop 19 cs) with
    | Some y, Some mo, Some d, Some h, Some mi, Some sec, Some off =>
        if in_range 1 y 9999 && in_range 1 mo 12 && in_range 1 d 31
           && in_range 0 h 23 && in_range 0 mi 59 && in_range 0 sec 59 then
          Some {| year := y; month := mo; day := d;
                  hour := h; minute := mi; second := sec; utcoffset := off |}
        else None
    | _, _, _, _, _, _, _ => None
    end
  else None.

End Iso.

(** ** SQL: three-valued logic and nullable columns *)

Module Sql.

(** A truth value of SQL: [None] is UNKNOWN. *)
Definition tv : Type := option bool.

Definition sql_not (a : tv) : tv := negb <$> a.

Definition sql_and (a b : tv) : tv :=
  match a, b with
  | Some false, _ | _, Some false => Some false
  | Some true, Some true => Some true
  | _, _ => None
  end.

Definition sql_or (a b : tv) : tv :=
  match a, b with
  | Some true, _ | _, Some true => Some true
  | Some false, Some false => Some false
  | _, _ => None
  end.

(** [x = y] on nullable columns: UNKNOWN as soon as one side is NULL. *)
Definition sql_eq {A} `{EqDecision A} (x y : option A) : tv :=
  match x, y with
  | Some a, Some b => Some (bool_decide (a = b))
  | _, _ => None
  end.

(** [(x1, x2) = (y1, y2)] and [(x1, x2) <> (y1, y2)] on rows of two
    columns. *)
Definition sql_eq2 {A B} `{EqDecision A, EqDecision B}
    (x : option A * option B) (y : option A * option B) : tv :=
  sql_and (sql_eq x.1 y.1) (sql_eq x.2 y.2).

Definition sql_ne2 {A B} `{EqDecision A, EqDecision B}
    (x : option A * option B) (y : option A * option B) : tv :=
  sql_not (sql_eq2 x y).

(** [x IN (subquery)]: the disjunction of the comparisons with every row
    of the subquery, FALSE on an empty one. *)
Definition sql_in {A} `{EqDecision A} (x : option A) (sub : list (option A)) : tv :=
  foldr (λ y acc, sql_or (sql_eq x y) acc) (Some false) sub.

Definition sql_in2 {A B} `{EqDecision A, EqDecision B}
    (x : option A * option B) (sub : list (option A * option B)) : tv :=
  foldr (λ y acc, sql_or (sql_eq2 x y) acc) (Some false) sub.

(** A WHERE or ON clause keeps a row only when its condition is TRUE. *)
Definition holds (a : tv) : bool :=
  match a with
  | Some true => true
  | _ => false
  end.

(** [EXISTS (SELECT 1 FROM t WHERE cond)] *)
Definition sql_exists {R} (cond : R → tv) (t : list R) : bool :=
  existsb (λ r, holds (cond r)) t.

(** [a LEFT JOIN t ON cond]: the matching rows of [t], or one NULL row. *)
Definition left_join {R} (cond : R → tv) (t : list R) : list (option R) :=
  match List.filter (λ r, holds (cond r)) t with
  | [] => [None]
  | m => Some <$> m
  end.

(** [a INNER JOIN t ON cond] *)
Definition inner_join {R} (cond : R → tv) (t : list R) : list R :=
  List.filter (λ r, holds (cond r)) t.

(** Modelled from the spec: the table declarations are not part of the
    sources, and the surrogate key is "assigned by the warehouse, opaque".
    It is taken as an IDENTITY column: the rows of one INSERT get the keys
    that follow the largest key of the table. *)
Definition max_key (keys : list Z) : Z := foldr Z.max 0%Z keys.

(** The rows of one INSERT, built from the selected rows and numbered
    from [next]. *)
Fixpoint with_keys {A R} (mk : Z → A → R) (next : Z) (rows : list A) : list R :=
  match rows with
  | [] => []
  | a :: rest => mk next a :: with_keys mk (next + 1)%Z rest
  end.

End Sql.

(** ** The warehouse tables *)

Module Warehouse.

(** A DATE, as a day number. *)
Definition date : Type := Z.

(** A DECIMAL(p,s) value, in units of its last decimal place. *)
Definition decimal : Type := Z.

#[global] Instance datetime_eq_dec : EqDecision datetime.
Proof. solve_decision. Defined.

(** Modelled from the spec: the declarations of the persistent tables
    are not part of the sources.  Each table has the columns the statements
    of the loads name; the surrogate key is assigned by the warehouse and
    is never NULL, [is_current] is a boolean, every other column can be
    NULL.  This is [dim_surgeons]. *)
Record dim_surgeon_row : Type := {
  sg_surgeon_key : Z;
  sg_surgeon_id : option string;
  sg_surgeon_name : option string;
  sg_specialization : option string;
  sg_years_experience : option Z;
  sg_certification_level : option string;
  sg_effective_date : option date;
  sg_expiration_date : option date;
  sg_is_current : bool
}.

(** [dim_facilities]: the columns the loads read. *)
Record dim_facility_row : Type := {
  f_facility_key : Z;
  f_facility_id : option string;
  f_is_current : bool
}.

(** [dim_robots] *)
Record dim_robot_row : Type := {
  r_robot_key : Z;
  r_robot_id : option string;
  r_robot_serial_number : option string;
  r_robot_model : option string;
  r_manufacturer : option string;
  r_facility_key : option Z;
  r_install_date : option date;
  r_software_version : option string;
  r_hardware_revision : option string;
  r_status : option string;
  r_last_maintenance_date : option date;
  r_total_procedures_count : option Z;
  r_total_operating_hours : option decimal;
  r_effective_date : option date;
  r_expiration_date : option date;
  r_is_current : bool
}.

(** [fact_procedures] *)
Record fact_procedure_row : Type := {
  fp_procedure_key : Z;
  fp_procedure_id : option string;
  fp_robot_key : option Z;
  fp_surgeon_key : option Z;
  fp_facility_key : option Z;
  fp_start_date_key : option Z;
  fp_start_time_key : option Z;
  fp_end_date_key : option Z;
  fp_end_time_key : option Z;
  fp_procedure_type : option string;
  fp_procedure_category : option string;
  fp_patient_id : option string;
  fp_patient_age : option Z;
  fp_patient_gender : option string;
  fp_duration_minutes : option Z;
  fp_complexity_score : option decimal;
  fp_success_status : option string;
  fp_blood_loss_ml : option Z;
  fp_complication_level : option string;
  fp_hospital_stay_days : option Z;
  fp_patient_satisfaction_score : option decimal;
  fp_readmission_30day : option bool;
  fp_status : option string
}.

(** [fact_procedure_telemetry]: the columns the load writes. *)
Record fact_telemetry_row : Type := {
  fpt_procedure_key : option Z;
  fpt_timestamp_key : option Z;
  fpt_sample_timestamp : option datetime;
  fpt_arm_position_x : option decimal;
  fpt_arm_position_y : option decimal;
  fpt_arm_position_z : option decimal;
  fpt_arm_rotation_x : option decimal;
  fpt_arm_rotation_y : option decimal;
  fpt_arm_rotation_z : option decimal;
  fpt_force_feedback : option decimal;
  fpt_tool_type : option string;
  fpt_tool_active : option bool;
  fpt_camera_zoom : option decimal;
  fpt_lighting_level : option Z;
  fpt_system_temperature : option decimal;
  fpt_motor_current : option decimal;
  fpt_network_latency_ms : option Z;
  fpt_video_fps : option Z
}.

(** The persistent tables of the warehouse. *)
Record state : Type := {
  dim_surgeons : list dim_surgeon_row;
  dim_robots : list dim_robot_row;
  dim_facilities : list dim_facility_row;
  fact_procedures : list fact_procedure_row;
  fact_procedure_telemetry : list fact_telemetry_row
}.

(** The state after one table has been replaced. *)
Definition with_dim_surgeons (dim : list dim_surgeon_row) (wh : state) : state :=
  {| dim_surgeons := dim;
     dim_robots := dim_robots wh;
     dim_facilities := dim_facilities wh;
     fact_procedures := fact_procedures wh;
     fact_procedure_telemetry := fact_procedure_telemetry wh |}.

Definition with_dim_robots (dim : list dim_robot_row) (wh : state) : state :=
  {| dim_surgeons := dim_surgeons wh;
     dim_robots := dim;
     dim_facilities := dim_facilities wh;
     fact_procedures := fact_procedures wh;
     fact_procedure_telemetry := fact_procedure_telemetry wh |}.

Definition with_fact_procedures (facts : list fact_procedure_row) (wh : state) : state :=
  {| dim_surgeons := dim_surgeons wh;
     dim_robots := dim_robots wh;
     dim_facilities := dim_facilities wh;
     fact_procedures := facts;
     fact_procedure_telemetry := fact_procedure_telemetry wh |}.

Definition with_fact_procedure_telemetry (rows : list fact_telemetry_row)
    (wh : state) : state :=
  {| dim_surgeons := dim_surgeons wh;
     dim_robots := dim_robots wh;
     dim_facilities := dim_facilities wh;
     fact_procedures := fact_procedures wh;
     fact_procedure_telemetry := rows |}.

End Warehouse.

(** ** [s3_telemetry_to_redshift.py] *)

Module S3Telemetry.

(** The flat record [transform_telemetry_record] builds, one field per key
    of the dict, in the order of the source. *)
Record flat_record : Type := {
  procedure_id : pyval;
  timestamp_key : Z;
  sample_timestamp : pyval;
  arm_position_x : pyval;
  arm_position_y : pyval;
  arm_position_z : pyval;
  arm_rotation_x : pyval;
  arm_rotation_y : pyval;
  arm_rotation_z : pyval;
  force_feedback : pyval;
  tool_type : pyval;
  tool_active : string;
  camera_zoom : pyval;
  lighting_level : pyval;
  system_temperature : pyval;
  motor_current : pyval;
  network_latency_ms : pyval;
  video_fps : pyval
}.

Import Sql Warehouse.

Section Program.

(** [datetime.fromisoformat]: [None] stands for its [ValueError]. *)
Variable fromisoformat : string → option datetime.

Definition py_fromisoformat (s : string) : result datetime :=
  match fromisoformat s with
  | Some dt => Ok dt
  | None => Raise (ValueError "Invalid isoformat string")
  end.

(** [ts_obj.hour * 10000 + ts_obj.minute * 100] *)
Definition time_key (ts_obj : datetime) : Z :=
  (hour ts_obj * 10000 + minute ts_obj * 100)%Z.

(** [record.get(group, {}).get(name)] *)
Definition nested (record : pyval) (group name : string) : result pyval :=
  g ← py_get record group (PDict ∅); py_get g name PNone.

(** The body of the [try] block: [Ok None] is the early [return None],
    [Raise] an exception on its way to the handler. *)
Definition transform_body (record : pyval) : result (option flat_record) :=
  timestamp ← py_get record "timestamp" PNone;
  if negb (truthy timestamp) then Ok None
  else
    replaced ← py_replace_Z timestamp;
    ts_obj ← py_fromisoformat replaced;
    let time_key := time_key ts_obj in
    v_procedure_id ← py_get record "procedure_id" PNone;
    v_arm_position_x ← nested record "arm_position" "x";
    v_arm_position_y ← nested record "arm_position" "y";
    v_arm_position_z ← nested record "arm_position" "z";
    v_arm_rotation_x ← nested record "arm_rotation" "x";
    v_arm_rotation_y ← nested record "arm_rotation" "y";
    v_arm_rotation_z ← nested record "arm_rotation" "z";
    v_force_feedback ← py_get record "force_feedback" PNone;
    v_tool_type ← py_get record "tool_type" PNone;
    v_tool_active ← py_get record "tool_active" PNone;
    v_camera_zoom ← py_get record "camera_zoom" PNone;
    v_lighting_level ← py_get record "lighting_level" PNone;
    v_system_temperature ← nested record "system_metrics" "temperature";
    v_motor_current ← nested record "system_metrics" "motor_current";
    v_network_latency_ms ← nested record "system_metrics" "network_latency_ms";
    v_video_fps ← nested record "system_metrics" "video_fps";
    Ok (Some {|
      procedure_id := v_procedure_id;
      timestamp_key := time_key;
      sample_timestamp := timestamp;
      arm_position_x := v_arm_position_x;
      arm_position_y := v_arm_position_y;
      arm_position_z := v_arm_position_z;
      arm_rotation_x := v_arm_rotation_x;
      arm_rotation_y := v_arm_rotation_y;
      arm_rotation_z := v_arm_rotation_z;
      force_feedback := v_force_feedback;
      tool_type := v_tool_type;
      tool_active := if truthy v_tool_active then "true" else "false";
      camera_zoom := v_camera_zoom;
      lighting_level := v_lighting_level;
      system_temperature := v_system_temperature;
      motor_current := v_motor_current;
      network_latency_ms := v_network_latency_ms;
      video_fps := v_video_fps
    |}).

(** [transform_telemetry_record]: the [except Exception] handler turns
    every exception of the body into [None]. *)
Definition transform_telemetry_record (record : pyval) : option flat_record :=
  match transform_body record with
  | Ok r => r
  | Raise _ => None
  end.

(** What the handler prints; the early [return None] prints nothing. *)
Definition transform_log (record : pyval) : list string :=
  match transform_body record with
  | Ok _ => []
  | Raise e => [("Error transforming record: " ++ str_exn e)%string]
  end.

(** *** Object storage, the staging table and the run state *)

(** An object of the raw bucket: its key and what downloading it and
    [json.loads] give. *)
Record s3_object : Type := {
  Key : string;
  Body : result pyval
}.

(** [staging_telemetry], as [CREATE TEMP TABLE] declares it. *)
Record staging_telemetry_row : Type := {
  st_procedure_id : option string;
  st_timestamp_key : option Z;
  st_sample_timestamp : option datetime;
  st_arm_position_x : option decimal;
  st_arm_position_y : option decimal;
  st_arm_position_z : option decimal;
  st_arm_rotation_x : option decimal;
  st_arm_rotation_y : option decimal;
  st_arm_rotation_z : option decimal;
  st_force_feedback : option decimal;
  st_tool_type : option string;
  st_tool_active : option bool;
  st_camera_zoom : option decimal;
  st_lighting_level : option Z;
  st_system_temperature : option decimal;
  st_motor_current : option decimal;
  st_network_latency_ms : option Z;
  st_video_fps : option Z
}.

(** What the program prints. *)
Inductive event : Type :=
| Processing (s3_prefix : string)
| NoFilesFound
| Found (files : nat)
| ErrorProcessingFile (file_key : string) (e : exn)
| ErrorTransforming (line : string)
| Processed (files_processed : nat) (records : nat)
| Exported
| Loading (record_count : nat)
| Loaded (rows_inserted : Z)
| ErrorLoading (e : exn)
| Starting (batch_date : string)
| Failed (e : exn).

(** Everything a run reads and writes: the raw bucket, the objects put
    into the staging bucket, the warehouse, the [get_object] calls made
    and the lines printed. *)
Record world : Type := {
  raw_bucket : list s3_object;
  staging_bucket : list (list flat_record);
  warehouse : Warehouse.state;
  get_calls : list string;
  printed : list event
}.

Definition print (ev : event) (w : world) : world :=
  {| raw_bucket := raw_bucket w; staging_bucket := staging_bucket w;
     warehouse := warehouse w; get_calls := get_calls w;
     printed := printed w ++ [ev] |}.

Definition print_all (evs : list event) (w : world) : world :=
  {| raw_bucket := raw_bucket w; staging_bucket := staging_bucket w;
     warehouse := warehouse w; get_calls := get_calls w;
     printed := printed w ++ evs |}.

(** [s3_client.list_objects_v2(Bucket, Prefix, MaxKeys)]: the first
    [MaxKeys] objects under the prefix, in the order of the bucket. *)
Definition list_objects_v2 (bucket : list s3_object) (Prefix : string)
    (MaxKeys : nat) : list s3_object :=
  take MaxKeys (List.filter (λ obj, startswith (Key obj) Prefix) bucket).

(** [s3_client.get_object(Bucket, Key)] followed by [json.loads]; the call
    is recorded. *)
Definition get_object (file_key : string) (w : world) : result pyval * world :=
  (match List.find (λ obj, String.eqb (Key obj) file_key) (raw_bucket w) with
   | Some obj => Body obj
   | None => Raise (RuntimeError "NoSuchKey")
   end,
   {| raw_bucket := raw_bucket w; staging_bucket := staging_bucket w;
      warehouse := warehouse w; get_calls := get_calls w ++ [file_key];
      printed := printed w |}).

(** [s3_client.put_object] on the staging bucket. *)
Definition put_object (records : list flat_record) (w : world) : world :=
  {| raw_bucket := raw_bucket w;
     staging_bucket := staging_bucket w ++ [records];
     warehouse := warehouse w; get_calls := get_calls w;
     printed := printed w |}.

Definition set_warehouse (wh : Warehouse.state) (w : world) : world :=
  {| raw_bucket := raw_bucket w; staging_bucket := staging_bucket w;
     warehouse := wh; get_calls := get_calls w; printed := printed w |}.

(** *** [load_telemetry_to_redshift] *)

(** The row the SELECT builds from a staged row [st] and the procedure
    fact [fp] it joins. *)
Definition telemetry_row (st : staging_telemetry_row) (fp : fact_procedure_row)
    : fact_telemetry_row :=
  {| fpt_procedure_key := Some (fp_procedure_key fp);
     fpt_timestamp_key := st_timestamp_key st;
     fpt_sample_timestamp := st_sample_timestamp st;
     fpt_arm_position_x := st_arm_position_x st;
     fpt_arm_position_y := st_arm_position_y st;
     fpt_arm_position_z := st_arm_position_z st;
     fpt_arm_rotation_x := st_arm_rotation_x st;
     fpt_arm_rotation_y := st_arm_rotation_y st;
     fpt_arm_rotation_z := st_arm_rotation_z st;
     fpt_force_feedback := st_force_feedback st;
     fpt_tool_type := st_tool_type st;
     fpt_tool_active := st_tool_active st;
     fpt_camera_zoom := st_camera_zoom st;
     fpt_lighting_level := st_lighting_level st;
     fpt_system_temperature := st_system_temperature st;
     fpt_motor_current := st_motor_current st;
     fpt_network_latency_ms := st_network_latency_ms st;
     fpt_video_fps := st_video_fps st |}.

(** [WHERE fpt.procedure_key = fp.procedure_key
          AND fpt.sample_timestamp = st.sample_timestamp] *)
Definition same_sample (st : staging_telemetry_row) (fp : fact_procedure_row)
    (fpt : fact_telemetry_row) : tv :=
  sql_and (sql_eq (fpt_procedure_key fpt) (Some (fp_procedure_key fp)))
          (sql_eq (fpt_sample_timestamp fpt) (st_sample_timestamp st)).

(** The rows of
    [SELECT ... FROM staging_telemetry st
       INNER JOIN fact_procedures fp ON st.procedure_id = fp.procedure_id
       WHERE NOT EXISTS (SELECT 1 FROM fact_procedure_telemetry fpt ...)]. *)
Definition telemetry_select (staging_telemetry : list staging_telemetry_row)
    (wh : Warehouse.state) : list fact_telemetry_row :=
  st ← staging_telemetry;
  fp ← inner_join (λ fp, sql_eq (st_procedure_id st) (fp_procedure_id fp))
                  (fact_procedures wh);
  if negb (sql_exists (same_sample st fp) (fact_procedure_telemetry wh))
  then [telemetry_row st fp] else [].

(** [INSERT INTO fact_procedure_telemetry (...) SELECT ...]: the new table
    and the row count. *)
Definition insert_telemetry (staging_telemetry : list staging_telemetry_row)
    (wh : Warehouse.state) : Warehouse.state * Z :=
  let rows := telemetry_select staging_telemetry wh in
  (with_fact_procedure_telemetry (fact_procedure_telemetry wh ++ rows) wh,
   Z.of_nat (length rows)).

(** [get_redshift_connection()]: the secret lookup and the connection
    either succeed or raise. *)
Variable get_redshift_connection : result unit.

(** The COPY of a staged object into [staging_telemetry]: the rows it
    loads, or the error of the warehouse. *)
Variable copy_staging_telemetry :
  list flat_record → result (list staging_telemetry_row).

(** [load_telemetry_to_redshift(s3_path, record_count)], [records] being
    the content of the object at [s3_path].  The connection is opened
    before the [try]; an error inside it rolls the transaction back. *)
Definition load_telemetry_to_redshift (records : list flat_record) (w : world)
    : result Z * world :=
  let w := print (Loading (length records)) w in
  match get_redshift_connection with
  | Raise e => (Raise e, w)
  | Ok _ =>
      match copy_staging_telemetry records with
      | Raise e => (Raise e, print (ErrorLoading e) w)
      | Ok staging_telemetry =>
          let '(wh, rows_inserted) := insert_telemetry staging_telemetry (warehouse w) in
          (Ok rows_inserted, print (Loaded rows_inserted) (set_warehouse wh w))
      end
  end.

(** *** [process_telemetry_files] *)

(** [records = telemetry_data if isinstance(telemetry_data, list)
              else [telemetry_data]] *)
Definition records_of (telemetry_data : pyval) : list pyval :=
  match telemetry_data with
  | PList l => l
  | _ => [telemetry_data]
  end.

(** The local variables of the loop over the files. *)
Record locals : Type := {
  telemetry_records : list flat_record;
  files_processed : nat
}.

(** One turn of [for record in records]. *)
Definition transform_step (acc : list flat_record * world) (record : pyval)
    : list flat_record * world :=
  let w := print_all (ErrorTransforming <$> transform_log record) acc.2 in
  match transform_telemetry_record record with
  | Some transformed => (acc.1 ++ [transformed], w)
  | None => (acc.1, w)
  end.

(** One turn of [for file_key in files[:100]]: a file that cannot be read
    or parsed is reported and skipped. *)
Definition process_file (acc : locals * world) (file_key : string)
    : locals * world :=
  let '(l, w) := acc in
  match get_object file_key w with
  | (Ok telemetry_data, w) =>
      let '(recs, w) :=
        foldl transform_step (telemetry_records l, w) (records_of telemetry_data) in
      ({| telemetry_records := recs; files_processed := S (files_processed l) |}, w)
  | (Raise e, w) => (l, print (ErrorProcessingFile file_key e) w)
  end.

(** [files = [obj['Key'] for obj in response['Contents']
              if obj['Key'].endswith('.json')]] *)
Definition json_files (contents : list s3_object) : list string :=
  List.filter (λ k, endswith k ".json") (Key <$> contents).

Definition process_telemetry_files (s3_prefix : string) (w : world)
    : result Z * world :=
  let w := print (Processing s3_prefix) w in
  match list_objects_v2 (raw_bucket w) s3_prefix 1000 with
  | [] => (Ok 0%Z, print NoFilesFound w)
  | contents =>
      let files := json_files contents in
      let w := print (Found (length files)) w in
      match files with
      | [] => (Ok 0%Z, w)
      | _ =>
          let '(l, w) :=
            foldl process_file
                  ({| telemetry_records := []; files_processed := 0 |}, w)
                  (take 100 files) in
          let w := print (Processed (files_processed l)
                                    (length (telemetry_records l))) w in
          match telemetry_records l with
          | [] => (Ok 0%Z, w)
          | records =>
              let w := print Exported (put_object records w) in
              match load_telemetry_to_redshift records w with
              | (Raise e, w) => (Raise e, w)
              | (Ok _, w) => (Ok (Z.of_nat (length records)), w)
              end
          end
      end
  end.

(** *** [lambda_handler] *)

(** The clock: [datetime.now().isoformat()] and
    [datetime.now().strftime('%Y%m%d')]. *)
Variable now_isoformat : string.
Variable now_yyyymmdd : string.

(** How an invocation ends: what the caller gets, and the [results] dict
    as the handler leaves it. *)
Record invocation : Type := {
  outcome : result (gmap string pyval);
  results : gmap string pyval
}.

Definition lambda_handler (event : gmap string string) (w : world)
    : invocation * world :=
  let batch_date := default now_yyyymmdd (event !! "batch_date") in
  let s3_prefix := default "telemetry/" (event !! "s3_prefix") in
  let w := print (Starting batch_date) w in
  let results : gmap string pyval :=
    <["status" := PStr "success"]>
    (<["timestamp" := PStr now_isoformat]>
    (<["batch_date" := PStr batch_date]>
    (<["records_loaded" := PInt 0]> ∅))) in
  match process_telemetry_files s3_prefix w with
  | (Ok records_loaded, w) =>
      let results := <["records_loaded" := PInt records_loaded]> results in
      ({| outcome := Ok results; results := results |}, w)
  | (Raise e, w) =>
      let w := print (Failed e) w in
      let results := <["status" := PStr "failed"]> results in
      let results := <["error" := PStr (str_exn e)]> results in
      ({| outcome := Raise e; results := results |}, w)
  end.

End Program.

(** *** Notions used to state properties of the program *)

(** The field [name] of the group [group] is absent from a record: the
    group is missing, or it is a dict without the field. *)
Definition absent (d : gmap string pyval) (group name : string) : Prop :=
  d !! group = None ∨ ∃ g, d !! group = Some (PDict g) ∧ g !! name = None.

(** The flat records one file contributes: those of its records the
    transform accepts, none when the file cannot be read or parsed. *)
Definition accepted_from (fromisoformat : string → option datetime)
    (w : world) (file_key : string) : list flat_record :=
  match (get_object file_key w).1 with
  | Ok telemetry_data =>
      omap (transform_telemetry_record fromisoformat) (records_of telemetry_data)
  | Raise _ => []
  end.

(** The natural key of a telemetry fact, and what a staged row has of
    it before the procedure is looked up. *)
Definition sample_key (row : fact_telemetry_row) : option Z * option datetime :=
  (fpt_procedure_key row, fpt_sample_timestamp row).

Definition staged_sample (st : staging_telemetry_row) : option string * option datetime :=
  (st_procedure_id st, st_sample_timestamp st).

(** The files one run works on: the first hundred [.json] keys of the
    listing. *)
Definition files_of_run (w : world) (s3_prefix : string) : list string :=
  take 100 (json_files (list_objects_v2 (raw_bucket w) s3_prefix 1000)).

End S3Telemetry.

(** ** [rds_to_redshift_etl.py] *)

Module RdsEtl.

Import Sql Warehouse.

(** *** The operational store *)

(** [surgical_procedures] *)
Record surgical_procedure : Type := {
  p_procedure_id : option string;
  p_robot_id : option string;
  p_surgeon_id : option string;
  p_start_time : option datetime;
  p_end_time : option datetime;
  p_procedure_type : option string;
  p_procedure_category : option string;
  p_patient_id : option string;
  p_patient_age : option Z;
  p_patient_gender : option string;
  p_duration_minutes : option Z;
  p_complexity_score : option decimal;
  p_status : option string
}.

(** [surgical_robots]: the columns the procedure query reads. *)
Record surgical_robot : Type := {
  sr_robot_id : option string;
  sr_facility_id : option string
}.

(** [procedure_outcomes] *)
Record procedure_outcome : Type := {
  o_procedure_id : option string;
  o_success_status : option string;
  o_blood_loss_ml : option Z;
  o_complication_level : option string;
  o_hospital_stay_days : option Z;
  o_patient_satisfaction_score : option decimal;
  o_readmission_30day : option bool
}.

(** *** The staging tables, as [CREATE TEMP TABLE] declares them *)

Record staging_surgeon : Type := {
  s_surgeon_id : option string;
  s_surgeon_name : option string;
  s_specialization : option string;
  s_years_experience : option Z;
  s_certification_level : option string;
  s_effective_date : option date
}.

Record staging_robot : Type := {
  s_robot_id : option string;
  s_robot_serial_number : option string;
  s_robot_model : option string;
  s_manufacturer : option string;
  s_facility_id : option string;
  s_install_date : option date;
  s_software_version : option string;
  s_hardware_revision : option string;
  s_status : option string;
  s_last_maintenance_date : option date;
  s_total_procedures_count : option Z;
  s_total_operating_hours : option decimal;
  s_robot_effective_date : option date
}.

Record staging_procedure : Type := {
  sp_procedure_id : option string;
  sp_robot_id : option string;
  sp_surgeon_id : option string;
  sp_facility_id : option string;
  sp_start_date_key : option Z;
  sp_start_time_key : option Z;
  sp_end_date_key : option Z;
  sp_end_time_key : option Z;
  sp_procedure_type : option string;
  sp_procedure_category : option string;
  sp_patient_id : option string;
  sp_patient_age : option Z;
  sp_patient_gender : option string;
  sp_duration_minutes : option Z;
  sp_complexity_score : option decimal;
  sp_success_status : option string;
  sp_blood_loss_ml : option Z;
  sp_complication_level : option string;
  sp_hospital_stay_days : option Z;
  sp_patient_satisfaction_score : option decimal;
  sp_readmission_30day : option bool;
  sp_status : option string
}.

(** The operational store, as the three queries see it: the rows the
    surgeon query and the robot query return, and the tables the procedure
    query reads. *)
Record source : Type := {
  surgeons : list staging_surgeon;
  robots : list staging_robot;
  surgical_procedures : list surgical_procedure;
  surgical_robots : list surgical_robot;
  procedure_outcomes : list procedure_outcome
}.

(** *** The SCD2 merge of [dim_surgeons] *)

(** [SET expiration_date = CURRENT_DATE - 1, is_current = FALSE] *)
Definition expire_surgeon (CURRENT_DATE : date) (d : dim_surgeon_row) : dim_surgeon_row :=
  {| sg_surgeon_key := sg_surgeon_key d;
     sg_surgeon_id := sg_surgeon_id d;
     sg_surgeon_name := sg_surgeon_name d;
     sg_specialization := sg_specialization d;
     sg_years_experience := sg_years_experience d;
     sg_certification_level := sg_certification_level d;
     sg_effective_date := sg_effective_date d;
     sg_expiration_date := Some (CURRENT_DATE - 1)%Z;
     sg_is_current := false |}.

(** [WHERE is_current = TRUE
      AND surgeon_id IN (SELECT surgeon_id FROM staging_surgeons)
      AND (surgeon_name, specialization) NOT IN
          (SELECT surgeon_name, specialization FROM staging_surgeons)] *)
Definition surgeon_changed (staging_surgeons : list staging_surgeon)
    (d : dim_surgeon_row) : tv :=
  sql_and (Some (sg_is_current d))
    (sql_and
       (sql_in (sg_surgeon_id d) (s_surgeon_id <$> staging_surgeons))
       (sql_not
          (sql_in2 (sg_surgeon_name d, sg_specialization d)
                   ((λ s, (s_surgeon_name s, s_specialization s)) <$> staging_surgeons)))).

(** [UPDATE dim_surgeons SET ... WHERE ...] *)
Definition update_surgeons (CURRENT_DATE : date)
    (staging_surgeons : list staging_surgeon) (dim : list dim_surgeon_row)
    : list dim_surgeon_row :=
  (λ d, if holds (surgeon_changed staging_surgeons d)
        then expire_surgeon CURRENT_DATE d else d) <$> dim.

(** [WHERE d.surgeon_key IS NULL
       OR (d.surgeon_name, d.specialization)
          <> (s.surgeon_name, s.specialization)], [d] being the row of the
    LEFT JOIN, all NULL when nothing matched. *)
Definition surgeon_new_or_changed (s : staging_surgeon)
    (d : option dim_surgeon_row) : tv :=
  sql_or (Some (bool_decide (sg_surgeon_key <$> d = None)))
         (sql_ne2 (d ≫= sg_surgeon_name, d ≫= sg_specialization)
                  (s_surgeon_name s, s_specialization s)).

(** The rows of
    [SELECT ... FROM staging_surgeons s
       LEFT JOIN dim_surgeons d
         ON s.surgeon_id = d.surgeon_id AND d.is_current = TRUE
       WHERE ...]. *)
Definition select_surgeons (staging_surgeons : list staging_surgeon)
    (dim : list dim_surgeon_row) : list staging_surgeon :=
  s ← staging_surgeons;
  d ← left_join (λ d, sql_and (sql_eq (s_surgeon_id s) (sg_surgeon_id d))
                              (Some (sg_is_current d))) dim;
  if holds (surgeon_new_or_changed s d) then [s] else [].

(** The inserted row: [expiration_date] NULL, [is_current] TRUE. *)
Definition new_surgeon (key : Z) (s : staging_surgeon) : dim_surgeon_row :=
  {| sg_surgeon_key := key;
     sg_surgeon_id := s_surgeon_id s;
     sg_surgeon_name := s_surgeon_name s;
     sg_specialization := s_specialization s;
     sg_years_experience := s_years_experience s;
     sg_certification_level := s_certification_level s;
     sg_effective_date := s_effective_date s;
     sg_expiration_date := None;
     sg_is_current := true |}.

(** The two statements of the merge, in order: the new table and the row
    count of the INSERT. *)
Definition merge_surgeons (CURRENT_DATE : date)
    (staging_surgeons : list staging_surgeon) (dim : list dim_surgeon_row)
    : list dim_surgeon_row * Z :=
  let dim := update_surgeons CURRENT_DATE staging_surgeons dim in
  let rows := select_surgeons staging_surgeons dim in
  (dim ++ with_keys new_surgeon (max_key (sg_surgeon_key <$> dim) + 1)%Z rows,
   Z.of_nat (length rows)).

(** *** The merge of [dim_robots] *)

Definition expire_robot (CURRENT_DATE : date) (d : dim_robot_row) : dim_robot_row :=
  {| r_robot_key := r_robot_key d;
     r_robot_id := r_robot_id d;
     r_robot_serial_number := r_robot_serial_number d;
     r_robot_model := r_robot_model d;
     r_manufacturer := r_manufacturer d;
     r_facility_key := r_facility_key d;
     r_install_date := r_install_date d;
     r_software_version := r_software_version d;
     r_hardware_revision := r_hardware_revision d;
     r_status := r_status d;
     r_last_maintenance_date := r_last_maintenance_date d;
     r_total_procedures_count := r_total_procedures_count d;
     r_total_operating_hours := r_total_operating_hours d;
     r_effective_date := r_effective_date d;
     r_expiration_date := Some (CURRENT_DATE - 1)%Z;
     r_is_current := false |}.

(** [WHERE is_current = TRUE
      AND robot_id IN (SELECT robot_id FROM staging_robots)] *)
Definition robot_staged (staging_robots : list staging_robot) (d : dim_robot_row) : tv :=
  sql_and (Some (r_is_current d))
          (sql_in (r_robot_id d) (s_robot_id <$> staging_robots)).

Definition update_robots (CURRENT_DATE : date)
    (staging_robots : list staging_robot) (dim : list dim_robot_row)
    : list dim_robot_row :=
  (λ d, if holds (robot_staged staging_robots d)
        then expire_robot CURRENT_DATE d else d) <$> dim.

(** The rows of
    [SELECT ... FROM staging_robots s
       LEFT JOIN dim_facilities f
         ON s.facility_id = f.facility_id AND f.is_current = TRUE]. *)
Definition select_robots (staging_robots : list staging_robot)
    (facilities : list dim_facility_row)
    : list (staging_robot * option dim_facility_row) :=
  s ← staging_robots;
  f ← left_join (λ f, sql_and (sql_eq (s_facility_id s) (f_facility_id f))
                              (Some (f_is_current f))) facilities;
  [(s, f)].

Definition new_robot (key : Z) (sf : staging_robot * option dim_facility_row)
    : dim_robot_row :=
  let '(s, f) := sf in
  {| r_robot_key := key;
     r_robot_id := s_robot_id s;
     r_robot_serial_number := s_robot_serial_number s;
     r_robot_model := s_robot_model s;
     r_manufacturer := s_manufacturer s;
     r_facility_key := f_facility_key <$> f;
     r_install_date := s_install_date s;
     r_software_version := s_software_version s;
     r_hardware_revision := s_hardware_revision s;
     r_status := s_status s;
     r_last_maintenance_date := s_last_maintenance_date s;
     r_total_procedures_count := s_total_procedures_count s;
     r_total_operating_hours := s_total_operating_hours s;
     r_effective_date := s_robot_effective_date s;
     r_expiration_date := None;
     r_is_current := true |}.

Definition merge_robots (CURRENT_DATE : date)
    (staging_robots : list staging_robot)
    (facilities : list dim_facility_row) (dim : list dim_robot_row)
    : list dim_robot_row * Z :=
  let dim := update_robots CURRENT_DATE staging_robots dim in
  let rows := select_robots staging_robots facilities in
  (dim ++ with_keys new_robot (max_key (r_robot_key <$> dim) + 1)%Z rows,
   Z.of_nat (length rows)).

(** *** The procedure facts *)

(** The order of timestamps, through one number per timestamp. *)
Definition ts_ord (t : datetime) : Z :=
  (((((year t * 13 + month t) * 32 + day t) * 24 + hour t) * 60 + minute t) * 60
   + second t)%Z.

(** [t >= bound] and [t < bound] on a nullable timestamp column. *)
Definition ts_ge (t : option datetime) (bound : datetime) : tv :=
  (λ t, (ts_ord bound <=? ts_ord t)%Z) <$> t.

Definition ts_lt (t : option datetime) (bound : datetime) : tv :=
  (λ t, (ts_ord t <? ts_ord bound)%Z) <$> t.

(** [TO_CHAR(t, 'YYYYMMDD')::INTEGER] *)
Definition date_key (t : datetime) : Z :=
  (year t * 10000 + month t * 100 + day t)%Z.

(** [EXTRACT(HOUR FROM t)::INTEGER * 10000
     + EXTRACT(MINUTE FROM t)::INTEGER * 100] *)
Definition time_key (t : datetime) : Z :=
  (hour t * 10000 + minute t * 100)%Z.

(** One row of the procedure query, from a procedure [p] and the rows [r]
    and [o] of its two LEFT JOINs. *)
Definition procedure_row (p : surgical_procedure) (r : option surgical_robot)
    (o : option procedure_outcome) : staging_procedure :=
  {| sp_procedure_id := p_procedure_id p;
     sp_robot_id := p_robot_id p;
     sp_surgeon_id := p_surgeon_id p;
     sp_facility_id := r ≫= sr_facility_id;
     sp_start_date_key := date_key <$> p_start_time p;
     sp_start_time_key := time_key <$> p_start_time p;
     sp_end_date_key := date_key <$> p_end_time p;
     sp_end_time_key := time_key <$> p_end_time p;
     sp_procedure_type := p_procedure_type p;
     sp_procedure_category := p_procedure_category p;
     sp_patient_id := p_patient_id p;
     sp_patient_age := p_patient_age p;
     sp_patient_gender := p_patient_gender p;
     sp_duration_minutes := p_duration_minutes p;
     sp_complexity_score := p_complexity_score p;
     sp_success_status := o ≫= o_success_status;
     sp_blood_loss_ml := o ≫= o_blood_loss_ml;
     sp_complication_level := o ≫= o_complication_level;
     sp_hospital_stay_days := o ≫= o_hospital_stay_days;
     sp_patient_satisfaction_score := o ≫= o_patient_satisfaction_score;
     sp_readmission_30day := o ≫= o_readmission_30day;
     sp_status := p_status p |}.

(** The procedure query:
    [FROM surgical_procedures p
       LEFT JOIN surgical_robots r ON p.robot_id = r.robot_id
       LEFT JOIN procedure_outcomes o ON p.procedure_id = o.procedure_id
     WHERE p.start_time >= start_date AND p.start_time < end_date]. *)
Definition select_procedures (src : source) (start_date end_date : datetime)
    : list staging_procedure :=
  p ← surgical_procedures src;
  r ← left_join (λ r, sql_eq (p_robot_id p) (sr_robot_id r)) (surgical_robots src);
  o ← left_join (λ o, sql_eq (p_procedure_id p) (o_procedure_id o))
                (procedure_outcomes src);
  if holds (sql_and (ts_ge (p_start_time p) start_date)
                    (ts_lt (p_start_time p) end_date))
  then [procedure_row p r o] else [].

(** A staged procedure with the rows of its three dimension lookups. *)
Record resolved : Type := {
  staged : staging_procedure;
  robot : option dim_robot_row;
  surgeon : option dim_surgeon_row;
  facility : option dim_facility_row
}.

(** [WHERE NOT EXISTS (SELECT 1 FROM fact_procedures fp
                       WHERE fp.procedure_id = s.procedure_id)] *)
Definition already_loaded (facts : list fact_procedure_row) (s : staging_procedure) : bool :=
  sql_exists (λ fp, sql_eq (fp_procedure_id fp) (sp_procedure_id s)) facts.

(** The rows one staged procedure contributes to
    [SELECT ... FROM staging_procedures s
       LEFT JOIN dim_robots r ON s.robot_id = r.robot_id AND r.is_current = TRUE
       LEFT JOIN dim_surgeons sg
         ON s.surgeon_id = sg.surgeon_id AND sg.is_current = TRUE
       LEFT JOIN dim_facilities f
         ON s.facility_id = f.facility_id AND f.is_current = TRUE
       WHERE NOT EXISTS (...)]. *)
Definition resolve (wh : Warehouse.state) (s : staging_procedure) : list resolved :=
  r ← left_join (λ r, sql_and (sql_eq (sp_robot_id s) (r_robot_id r))
                              (Some (r_is_current r))) (dim_robots wh);
  sg ← left_join (λ sg, sql_and (sql_eq (sp_surgeon_id s) (sg_surgeon_id sg))
                                (Some (sg_is_current sg))) (dim_surgeons wh);
  f ← left_join (λ f, sql_and (sql_eq (sp_facility_id s) (f_facility_id f))
                              (Some (f_is_current f))) (dim_facilities wh);
  if negb (already_loaded (fact_procedures wh) s)
  then [{| staged := s; robot := r; surgeon := sg; facility := f |}] else [].

Definition select_facts (staging_procedures : list staging_procedure)
    (wh : Warehouse.state) : list resolved :=
  s ← staging_procedures; resolve wh s.

Definition new_fact (key : Z) (x : resolved) : fact_procedure_row :=
  let s := staged x in
  {| fp_procedure_key := key;
     fp_procedure_id := sp_procedure_id s;
     fp_robot_key := r_robot_key <$> robot x;
     fp_surgeon_key := sg_surgeon_key <$> surgeon x;
     fp_facility_key := f_facility_key <$> facility x;
     fp_start_date_key := sp_start_date_key s;
     fp_start_time_key := sp_start_time_key s;
     fp_end_date_key := sp_end_date_key s;
     fp_end_time_key := sp_end_time_key s;
     fp_procedure_type := sp_procedure_type s;
     fp_procedure_category := sp_procedure_category s;
     fp_patient_id := sp_patient_id s;
     fp_patient_age := sp_patient_age s;
     fp_patient_gender := sp_patient_gender s;
     fp_duration_minutes := sp_duration_minutes s;
     fp_complexity_score := sp_complexity_score s;
     fp_success_status := sp_success_status s;
     fp_blood_loss_ml := sp_blood_loss_ml s;
     fp_complication_level := sp_complication_level s;
     fp_hospital_stay_days := sp_hospital_stay_days s;
     fp_patient_satisfaction_score := sp_patient_satisfaction_score s;
     fp_readmission_30day := sp_readmission_30day s;
     fp_status := sp_status s |}.

(** [INSERT INTO fact_procedures (...) SELECT ...]: the new table and the
    row count. *)
Definition insert_facts (staging_procedures : list staging_procedure)
    (wh : Warehouse.state) : list fact_procedure_row * Z :=
  let rows := select_facts staging_procedures wh in
  (fact_procedures wh
     ++ with_keys new_fact (max_key (fp_procedure_key <$> fact_procedures wh) + 1)%Z rows,
   Z.of_nat (length rows)).

(** *** The three loads and the handler *)

(** What the program prints. *)
Inductive event : Type :=
| LoadingSurgeons
| LoadingRobots
| LoadingProcedures
| NoData (filename : string)
| ExportedRows (rows : nat) (filename : string)
| LoadedSurgeons (row_count : Z)
| LoadedRobots (row_count : Z)
| LoadedProcedures (row_count : Z)
| ErrorLoadingSurgeons (e : exn)
| ErrorLoadingRobots (e : exn)
| ErrorLoadingProcedures (e : exn)
| EtlFailed (e : exn).

(** Everything a run reads and writes. *)
Record world : Type := {
  rds : source;
  warehouse : Warehouse.state;
  printed : list event
}.

Definition print (ev : event) (w : world) : world :=
  {| rds := rds w; warehouse := warehouse w; printed := printed w ++ [ev] |}.

Definition set_warehouse (wh : Warehouse.state) (w : world) : world :=
  {| rds := rds w; warehouse := wh; printed := printed w |}.

(** [export_to_s3_csv(data, filename)]: nothing is written for an empty
    extract and [None] is returned; otherwise the rows are written and the
    path of the file comes back, here the content of the file. *)
Definition export_to_s3_csv {A} (data : list A) (filename : string) (w : world)
    : option (list A) * world :=
  match data with
  | [] => (None, print (NoData filename) w)
  | _ => (Some data, print (ExportedRows (length data) filename) w)
  end.

Section Program.

(** [get_rds_connection()] and [get_redshift_connection()]: the secret
    lookup and the connection either succeed or raise. *)
Variable get_rds_connection : result unit.
Variable get_redshift_connection : result unit.

(** The COPY of an exported file into its staging table: the rows it
    loads, or the error of the warehouse. *)
Variable copy_staging_surgeons : list staging_surgeon → result (list staging_surgeon).
Variable copy_staging_robots : list staging_robot → result (list staging_robot).
Variable copy_staging_procedures :
  list staging_procedure → result (list staging_procedure).

(** [CURRENT_DATE] of the warehouse; the clock of the function:
    [datetime.now().isoformat()], yesterday and today as window bounds. *)
Variable CURRENT_DATE : date.
Variable now_isoformat : string.
Variable yesterday : datetime.
Variable today : datetime.

(** [load_dimension_surgeons()].  Both connections are opened before the
    [try]; an empty extract returns 0 before anything is loaded; an error
    inside the [try] rolls the warehouse back and is raised again. *)
Definition load_dimension_surgeons (w : world) : result Z * world :=
  let w := print LoadingSurgeons w in
  match get_rds_connection, get_redshift_connection with
  | Raise e, _ => (Raise e, w)
  | Ok _, Raise e => (Raise e, w)
  | Ok _, Ok _ =>
      match export_to_s3_csv (surgeons (rds w)) "surgeons.csv" w with
      | (None, w) => (Ok 0%Z, w)
      | (Some s3_path, w) =>
          match copy_staging_surgeons s3_path with
          | Raise e => (Raise e, print (ErrorLoadingSurgeons e) w)
          | Ok staging_surgeons =>
              let '(dim, row_count) :=
                merge_surgeons CURRENT_DATE staging_surgeons
                               (dim_surgeons (warehouse w)) in
              (Ok row_count, print (LoadedSurgeons row_count)
                     (set_warehouse (with_dim_surgeons dim (warehouse w)) w))
          end
      end
  end.

(** [load_dimension_robots()] *)
Definition load_dimension_robots (w : world) : result Z * world :=
  let w := print LoadingRobots w in
  match get_rds_connection, get_redshift_connection with
  | Raise e, _ => (Raise e, w)
  | Ok _, Raise e => (Raise e, w)
  | Ok _, Ok _ =>
      match export_to_s3_csv (robots (rds w)) "robots.csv" w with
      | (None, w) => (Ok 0%Z, w)
      | (Some s3_path, w) =>
          match copy_staging_robots s3_path with
          | Raise e => (Raise e, print (ErrorLoadingRobots e) w)
          | Ok staging_robots =>
              let '(dim, row_count) :=
                merge_robots CURRENT_DATE staging_robots
                             (dim_facilities (warehouse w))
                             (dim_robots (warehouse w)) in
              (Ok row_count, print (LoadedRobots row_count)
                     (set_warehouse (with_dim_robots dim (warehouse w)) w))
          end
      end
  end.

(** [load_fact_procedures(start_date, end_date)]: a missing bound is
    replaced by yesterday or today.  The name of the exported file, which
    carries the two bounds in the source, is kept short. *)
Definition load_fact_procedures (start_date end_date : option datetime)
    (w : world) : result Z * world :=
  let w := print LoadingProcedures w in
  let start_date := default yesterday start_date in
  let end_date := default today end_date in
  match get_rds_connection, get_redshift_connection with
  | Raise e, _ => (Raise e, w)
  | Ok _, Raise e => (Raise e, w)
  | Ok _, Ok _ =>
      match export_to_s3_csv (select_procedures (rds w) start_date end_date)
                             "procedures.csv" w with
      | (None, w) => (Ok 0%Z, w)
      | (Some s3_path, w) =>
          match copy_staging_procedures s3_path with
          | Raise e => (Raise e, print (ErrorLoadingProcedures e) w)
          | Ok staging_procedures =>
              let '(facts, row_count) :=
                insert_facts staging_procedures (warehouse w) in
              (Ok row_count,
               print (LoadedProcedures row_count)
                     (set_warehouse (with_fact_procedures facts (warehouse w)) w))
          end
      end
  end.

(** The invocation parameters. *)
Record event_params : Type := {
  etl_type : option string;
  start_date : option datetime;
  end_date : option datetime
}.

(** [results['records_loaded'][entity] = n] *)
Definition set_records_loaded (entity : string) (n : Z)
    (results : gmap string pyval) : gmap string pyval :=
  match results !! "records_loaded" with
  | Some (PDict loaded) =>
      <["records_loaded" := PDict (<[entity := PInt n]> loaded)]> results
  | _ => results
  end.

(** How an invocation ends: what the caller gets, and the [results] dict
    as the handler leaves it. *)
Record invocation : Type := {
  outcome : result (gmap string pyval);
  results : gmap string pyval
}.

(** The [except] clause: the status and the error are written into
    [results], then the exception is raised again. *)
Definition on_exception (e : exn) (results : gmap string pyval) (w : world)
    : invocation * world :=
  let w := print (EtlFailed e) w in
  let results := <["status" := PStr "failed"]> results in
  let results := <["error" := PStr (str_exn e)]> results in
  ({| outcome := Raise e; results := results |}, w).

(** The second [if] of the [try] block and the [return]. *)
Definition procedures_stage (etl_type : string) (ev : event_params)
    (results : gmap string pyval) (w : world) : invocation * world :=
  if String.eqb etl_type "full" || String.eqb etl_type "procedures" then
    match load_fact_procedures (start_date ev) (end_date ev) w with
    | (Raise e, w) => on_exception e results w
    | (Ok n, w) =>
        let results := set_records_loaded "procedures" n results in
        ({| outcome := Ok results; results := results |}, w)
    end
  else ({| outcome := Ok results; results := results |}, w).

Definition lambda_handler (ev : event_params) (w : world) : invocation * world :=
  let etl_type := default "full" (etl_type ev) in
  let results : gmap string pyval :=
    <["status" := PStr "success"]>
    (<["timestamp" := PStr now_isoformat]>
    (<["etl_type" := PStr etl_type]>
    (<["records_loaded" := PDict ∅]> ∅))) in
  if String.eqb etl_type "full" || String.eqb etl_type "dimensions" then
    match load_dimension_surgeons w with
    | (Raise e, w) => on_exception e results w
    | (Ok n, w) =>
        let results := set_records_loaded "surgeons" n results in
        match load_dimension_robots w with
        | (Raise e, w) => on_exception e results w
        | (Ok n, w) =>
            let results := set_records_loaded "robots" n results in
            procedures_stage etl_type ev results w
        end
    end
  else procedures_stage etl_type ev results w.

End Program.

(** *** Notions used to state properties of the program *)

(** The current rows of a natural key, in each dimension. *)
Definition current_surgeons (id : string) (dim : list dim_surgeon_row)
    : list dim_surgeon_row :=
  List.filter (λ d, sg_is_current d && bool_decide (sg_surgeon_id d = Some id)) dim.

Definition current_robots (id : string) (dim : list dim_robot_row)
    : list dim_robot_row :=
  List.filter (λ d, r_is_current d && bool_decide (r_robot_id d = Some id)) dim.

Definition current_facilities (id : string) (dim : list dim_facility_row)
    : list dim_facility_row :=
  List.filter (λ d, f_is_current d && bool_decide (f_facility_id d = Some id)) dim.


Definition robot_versions (id : string) (dim : list dim_robot_row)
    : list dim_robot_row :=
  List.filter (λ d, bool_decide (r_robot_id d = Some id)) dim.

Definition staged_surgeons (id : string) (staging_surgeons : list staging_surgeon)
    : list staging_surgeon :=
  List.filter (λ s, bool_decide (s_surgeon_id s = Some id)) staging_surgeons.

Definition staged_robots (id : string) (staging_robots : list staging_robot)
    : list staging_robot :=
  List.filter (λ s, bool_decide (s_robot_id s = Some id)) staging_robots.

(** What a lookup by natural key has found: a current row of
    that key, or nothing when the dimension has no current row of it. *)
Definition resolves {R} (key : R → option string) (cur : R → bool)
    (natural : option string) (dim : list R) (found : option R) : Prop :=
  match found with
  | Some r => r ∈ dim ∧ cur r = true ∧ ∃ id, natural = Some id ∧ key r = Some id
  | None => ∀ r id, r ∈ dim → cur r = true → natural = Some id → key r ≠ Some id
  end.

(** The invariant of a dimension: every natural key of the table has
    exactly one current row. *)
Definition surgeons_invariant (dim : list dim_surgeon_row) : Prop :=
  ∀ id, Some id ∈ sg_surgeon_id <$> dim → length (current_surgeons id dim) = 1%nat.

Definition robots_invariant (dim : list dim_robot_row) : Prop :=
  ∀ id, Some id ∈ r_robot_id <$> dim → length (current_robots id dim) = 1%nat.

(** No natural key has two current rows. *)
Definition surgeons_unambiguous (dim : list dim_surgeon_row) : Prop :=
  ∀ id, (length (current_surgeons id dim) ≤ 1)%nat.

Definition robots_unambiguous (dim : list dim_robot_row) : Prop :=
  ∀ id, (length (current_robots id dim) ≤ 1)%nat.

Definition facilities_unambiguous (dim : list dim_facility_row) : Prop :=
  ∀ id, (length (current_facilities id dim) ≤ 1)%nat.

End RdsEtl.

(** ** Concrete inputs *)

Module TelemetryExamples.

Import Sql Warehouse S3Telemetry.

(** A COPY for the examples: every field is read as the type of its
    column in [staging_telemetry]; an empty field is NULL. *)
Definition col_string (v : pyval) : result (option string) :=
  match v with
  | PNone => Ok None
  | PStr s => Ok (if String.eqb s "" then None else Some s)
  | _ => Raise (RuntimeError "COPY: not a string")
  end.

Definition col_integer (v : pyval) : result (option Z) :=
  match v with
  | PNone => Ok None
  | PInt n => Ok (Some n)
  | _ => Raise (RuntimeError "COPY: invalid digit")
  end.

Definition col_decimal (scale : Z) (v : pyval) : result (option decimal) :=
  match v with
  | PNone => Ok None
  | PInt n => Ok (Some (n * 10 ^ scale)%Z)
  | PFloat m e =>
      Ok (Some (if (0 <=? e + scale)%Z then (m * 10 ^ (e + scale))%Z
                else (m / 10 ^ (- (e + scale)))%Z))
  | _ => Raise (RuntimeError "COPY: invalid digit")
  end.

Definition col_boolean (s : string) : result (option bool) :=
  if String.eqb s "true" then Ok (Some true)
  else if String.eqb s "false" then Ok (Some false)
  else if String.eqb s "" then Ok None
  else Raise (RuntimeError "COPY: unknown boolean format").

Definition col_timestamp (v : pyval) : result (option datetime) :=
  match v with
  | PNone => Ok None
  | PStr s =>
      match Iso.parse (replace_Z s) with
      | Some t => Ok (Some t)
      | None => Raise (RuntimeError "COPY: invalid timestamp format")
      end
  | _ => Raise (RuntimeError "COPY: invalid timestamp format")
  end.

Definition copy_row (t : flat_record) : result staging_telemetry_row :=
  c_procedure_id ← col_string (procedure_id t);
  c_sample_timestamp ← col_timestamp (sample_timestamp t);
  c_arm_position_x ← col_decimal 4 (arm_position_x t);
  c_arm_position_y ← col_decimal 4 (arm_position_y t);
  c_arm_position_z ← col_decimal 4 (arm_position_z t);
  c_arm_rotation_x ← col_decimal 4 (arm_rotation_x t);
  c_arm_rotation_y ← col_decimal 4 (arm_rotation_y t);
  c_arm_rotation_z ← col_decimal 4 (arm_rotation_z t);
  c_force_feedback ← col_decimal 4 (force_feedback t);
  c_tool_type ← col_string (tool_type t);
  c_tool_active ← col_boolean (tool_active t);
  c_camera_zoom ← col_decimal 2 (camera_zoom t);
  c_lighting_level ← col_integer (lighting_level t);
  c_system_temperature ← col_decimal 2 (system_temperature t);
  c_motor_current ← col_decimal 4 (motor_current t);
  c_network_latency_ms ← col_integer (network_latency_ms t);
  c_video_fps ← col_integer (video_fps t);
  Ok {| st_procedure_id := c_procedure_id;
        st_timestamp_key := Some (timestamp_key t);
        st_sample_timestamp := c_sample_timestamp;
        st_arm_position_x := c_arm_position_x;
        st_arm_position_y := c_arm_position_y;
        st_arm_position_z := c_arm_position_z;
        st_arm_rotation_x := c_arm_rotation_x;
        st_arm_rotation_y := c_arm_rotation_y;
        st_arm_rotation_z := c_arm_rotation_z;
        st_force_feedback := c_force_feedback;
        st_tool_type := c_tool_type;
        st_tool_active := c_tool_active;
        st_camera_zoom := c_camera_zoom;
        st_lighting_level := c_lighting_level;
        st_system_temperature := c_system_temperature;
        st_motor_current := c_motor_current;
        st_network_latency_ms := c_network_latency_ms;
        st_video_fps := c_video_fps |}.

Fixpoint copy_rows (records : list flat_record) : result (list staging_telemetry_row) :=
  match records with
  | [] => Ok []
  | t :: rest => row ← copy_row t; rows ← copy_rows rest; Ok (row :: rows)
  end.

(** A complete sample. *)
Definition sample_full : pyval :=
  PDict (<["procedure_id" := PStr "PROC-0001"]>
        (<["timestamp" := PStr "2024-03-05T14:37:09Z"]>
        (<["arm_position" := PDict (<["x" := PFloat 125 (-1)]>
                                   (<["y" := PInt 3]>
                                   (<["z" := PFloat (-42) (-1)]> ∅)))]>
        (<["tool_type" := PStr "scalpel"]>
        (<["tool_active" := PBool true]>
        (<["system_metrics" := PDict (<["video_fps" := PInt 60]> ∅)]> ∅)))))).

(** A sample that names its procedure and its time and nothing else. *)
Definition sample_bare : pyval :=
  PDict (<["procedure_id" := PStr "PROC-0001"]>
        (<["timestamp" := PStr "2024-03-05T09:05:00"]> ∅)).

(** A sample without a timestamp. *)
Definition sample_no_timestamp : pyval :=
  PDict (<["procedure_id" := PStr "PROC-0001"]>
        (<["tool_active" := PBool true]> ∅)).

(** A sample of a procedure the warehouse does not know. *)
Definition sample_unknown_procedure : pyval :=
  PDict (<["procedure_id" := PStr "PROC-9999"]>
        (<["timestamp" := PStr "2024-03-05T10:00:00"]> ∅)).

(** The flat record of [sample_bare]. *)
Definition flat_bare : flat_record :=
  {| procedure_id := PStr "PROC-0001";
     timestamp_key := 90500;
     sample_timestamp := PStr "2024-03-05T09:05:00";
     arm_position_x := PNone; arm_position_y := PNone; arm_position_z := PNone;
     arm_rotation_x := PNone; arm_rotation_y := PNone; arm_rotation_z := PNone;
     force_feedback := PNone; tool_type := PNone;
     tool_active := "false";
     camera_zoom := PNone; lighting_level := PNone;
     system_temperature := PNone; motor_current := PNone;
     network_latency_ms := PNone; video_fps := PNone |}.

(** A procedure fact with nothing but its keys. *)
Definition fact_of (key : Z) (id : string) : fact_procedure_row :=
  {| fp_procedure_key := key; fp_procedure_id := Some id;
     fp_robot_key := None; fp_surgeon_key := None; fp_facility_key := None;
     fp_start_date_key := None; fp_start_time_key := None;
     fp_end_date_key := None; fp_end_time_key := None;
     fp_procedure_type := None; fp_procedure_category := None;
     fp_patient_id := None; fp_patient_age := None; fp_patient_gender := None;
     fp_duration_minutes := None; fp_complexity_score := None;
     fp_success_status := None; fp_blood_loss_ml := None;
     fp_complication_level := None; fp_hospital_stay_days := None;
     fp_patient_satisfaction_score := None; fp_readmission_30day := None;
     fp_status := None |}.

(** A warehouse that knows one procedure and holds no telemetry. *)
Definition one_procedure : Warehouse.state :=
  {| dim_surgeons := []; dim_robots := []; dim_facilities := [];
     fact_procedures := [fact_of 1 "PROC-0001"];
     fact_procedure_telemetry := [] |}.

Definition world_of (bucket : list s3_object) : world :=
  {| raw_bucket := bucket; staging_bucket := [];
     warehouse := one_procedure; get_calls := []; printed := [] |}.

(** One file with a well-formed sample, and the same file with a sample
    without timestamp next to it. *)
Definition bucket_clean : list s3_object :=
  [{| Key := "telemetry/2024/a.json"; Body := Ok (PList [sample_full]) |}].

Definition bucket_mixed : list s3_object :=
  [{| Key := "telemetry/2024/a.json";
      Body := Ok (PList [sample_full; sample_no_timestamp]) |}].

(** A file that holds the same sample twice. *)
Definition bucket_twice : list s3_object :=
  [{| Key := "telemetry/2024/a.json";
      Body := Ok (PList [sample_bare; sample_bare]) |}].

(** A bucket of [n] files of one sample each. *)
Fixpoint name_of (n : nat) : string :=
  match n with
  | O => ".json"
  | S k => String "f" (name_of k)
  end.

Definition bucket_of_size (n : nat) : list s3_object :=
  (λ k, {| Key := ("telemetry/" ++ name_of k)%string; Body := Ok sample_bare |})
    <$> seq 0 n.

(** A file with one sample, of a procedure the warehouse does not
    know. *)
Definition bucket_orphan : list s3_object :=
  [{| Key := "telemetry/2024/b.json"; Body := Ok sample_unknown_procedure |}].

(** A staged sample of a procedure, taken at 09:05:00 on the fifth of
    March 2024, with no measure. *)
Definition staged_sample_of (id : string) : staging_telemetry_row :=
  {| st_procedure_id := Some id;
     st_timestamp_key := Some 90500%Z;
     st_sample_timestamp :=
       Some {| year := 2024; month := 3; day := 5;
               hour := 9; minute := 5; second := 0; utcoffset := None |};
     st_arm_position_x := None; st_arm_position_y := None;
     st_arm_position_z := None;
     st_arm_rotation_x := None; st_arm_rotation_y := None;
     st_arm_rotation_z := None;
     st_force_feedback := None; st_tool_type := None;
     st_tool_active := Some false;
     st_camera_zoom := None; st_lighting_level := None;
     st_system_temperature := None; st_motor_current := None;
     st_network_latency_ms := None; st_video_fps := None |}.

(** The staged row of [flat_bare]. *)
Definition staged_bare : staging_telemetry_row := staged_sample_of "PROC-0001".

(** The warehouse cannot be reached. *)
Definition unreachable : exn := RuntimeError "could not connect to server".

Definition invoke_unreachable (bucket : list s3_object) : invocation * world :=
  lambda_handler Iso.parse (Raise unreachable) copy_rows "2024-03-06T01:00:00"
                 "20240306" ∅ (world_of bucket).

Definition run_on (bucket : list s3_object) : result Z * world :=
  process_telemetry_files Iso.parse (Ok ()) copy_rows "telemetry/" (world_of bucket).

Definition invoke_on (bucket : list s3_object) : invocation * world :=
  lambda_handler Iso.parse (Ok ()) copy_rows "2024-03-06T01:00:00" "20240306"
                 ∅ (world_of bucket).

End TelemetryExamples.

Module RdsExamples.

Import Sql Warehouse RdsEtl.

Local Open Scope Z_scope.

(** A surgeon as the surgeon query returns it. *)
Definition surgeon (id name : string) (years : Z) : staging_surgeon :=
  {| s_surgeon_id := Some id;
     s_surgeon_name := Some name;
     s_specialization := Some "General Surgery";
     s_years_experience := Some years;
     s_certification_level := Some "Board Certified";
     s_effective_date := Some 18000%Z |}.

(** A robot as the robot query returns it. *)
Definition robot (id facility : string) (procedures : Z) : staging_robot :=
  {| s_robot_id := Some id;
     s_robot_serial_number := Some "SN-7001";
     s_robot_model := Some "MX-4";
     s_manufacturer := Some "Medibot";
     s_facility_id := Some facility;
     s_install_date := Some 17000%Z;
     s_software_version := Some "4.2.1";
     s_hardware_revision := Some "C";
     s_status := Some "active";
     s_last_maintenance_date := Some 19700%Z;
     s_total_procedures_count := Some procedures;
     s_total_operating_hours := Some (procedures * 150)%Z;
     s_robot_effective_date := Some 17000%Z |}.

Definition facilities : list dim_facility_row :=
  [{| f_facility_key := 1; f_facility_id := Some "FAC-01"; f_is_current := true |}].

(** Day one: one surgeon.  Day two: she has changed her name, and a new
    colleague carries the name she had. *)
Definition day_one : list staging_surgeon := [surgeon "SURG-0001" "Dr. Smith" 5].

Definition day_two : list staging_surgeon :=
  [surgeon "SURG-0001" "Dr. Jones" 5; surgeon "SURG-0002" "Dr. Smith" 2].

Definition after_day_one : list dim_surgeon_row :=
  (merge_surgeons 19800 day_one []).1.

Definition after_day_two : list dim_surgeon_row :=
  (merge_surgeons 19801 day_two after_day_one).1.


(** The surgeon of day one under a new name, alone in the batch. *)
Definition renamed : list staging_surgeon := [surgeon "SURG-0001" "Dr. Jones" 5].

(** One robot, loaded once. *)
Definition one_robot : list staging_robot := [robot "ROB-001" "FAC-01" 12].

Definition robots_loaded_once : list dim_robot_row :=
  (merge_robots 19800 one_robot facilities []).1.

(** The fifth of March 2024 at a given time. *)
Definition at_time (h mi : Z) : datetime :=
  {| year := 2024; month := 3; day := 5;
     hour := h; minute := mi; second := 0; utcoffset := None |}.

Definition midnight (d : Z) : datetime :=
  {| year := 2024; month := 3; day := d;
     hour := 0; minute := 0; second := 0; utcoffset := None |}.

Definition procedure (id robot surgeon : string) (start_time : datetime)
    (end_time : option datetime) : surgical_procedure :=
  {| p_procedure_id := Some id;
     p_robot_id := Some robot;
     p_surgeon_id := Some surgeon;
     p_start_time := Some start_time;
     p_end_time := end_time;
     p_procedure_type := Some "Prostatectomy";
     p_procedure_category := Some "Urology";
     p_patient_id := Some "PAT-0042";
     p_patient_age := Some 61;
     p_patient_gender := Some "M";
     p_duration_minutes := Some 85;
     p_complexity_score := Some 72;
     p_status := Some "completed" |}.

(** The operational store: one surgeon, one robot, one procedure of the
    fifth of March, from 14:37 to 16:02, without outcome. *)
Definition store : source :=
  {| surgeons := day_one;
     robots := one_robot;
     surgical_procedures :=
       [procedure "PROC-0001" "ROB-001" "SURG-0001" (at_time 14 37)
                  (Some (at_time 16 2))];
     surgical_robots :=
       [{| sr_robot_id := Some "ROB-001"; sr_facility_id := Some "FAC-01" |}];
     procedure_outcomes := [] |}.

(** A warehouse with its facilities and nothing else. *)
Definition fresh_warehouse : Warehouse.state :=
  {| dim_surgeons := []; dim_robots := []; dim_facilities := facilities;
     fact_procedures := []; fact_procedure_telemetry := [] |}.

Definition fresh_world : world :=
  {| rds := store; warehouse := fresh_warehouse; printed := [] |}.

Definition full_run : event_params :=
  {| etl_type := Some "full";
     start_date := Some (midnight 5);
     end_date := Some (midnight 6) |}.

(** The row of the procedure query for the procedure of [store]. *)
Definition staged_0001 : staging_procedure :=
  procedure_row
    (procedure "PROC-0001" "ROB-001" "SURG-0001" (at_time 14 37)
               (Some (at_time 16 2)))
    (Some {| sr_robot_id := Some "ROB-001"; sr_facility_id := Some "FAC-01" |})
    None.

(** The procedures of the fifth of March, as the procedure query returns
    them. *)
Definition staged_procedures : list staging_procedure :=
  select_procedures store (midnight 5) (midnight 6).

(** The COPY of the robot file fails. *)
Definition copy_failure : exn := RuntimeError "COPY failed: S3ServiceException".

Definition invoke_failing_robots : invocation * world :=
  lambda_handler (Ok ()) (Ok ()) Ok (λ _, Raise copy_failure) Ok
                 19800 "2024-03-06T01:00:00" (midnight 5) (midnight 6)
                 full_run fresh_world.

(** Every load succeeds. *)
Definition invoke_full : invocation * world :=
  lambda_handler (Ok ()) (Ok ()) Ok Ok Ok
                 19800 "2024-03-06T01:00:00" (midnight 5) (midnight 6)
                 full_run fresh_world.

End RdsExamples.

(** ** Notions used to state further properties of the telemetry program *)

Module TelemetryRun.

Import Sql Warehouse S3Telemetry.

(** A group of a record is usable: it is missing, or it is a dict. *)
Definition group_ok (d : gmap string pyval) (group : string) : Prop :=
  d !! group = None ∨ ∃ g, d !! group = Some (PDict g).

(** A file can be downloaded and parsed. *)
Definition readable (w : world) (file_key : string) : bool :=
  match (get_object file_key w).1 with
  | Ok _ => true
  | Raise _ => false
  end.

(** What the loop prints for one file: the error of a file that cannot be
    read, or the lines of the records whose transform raised. *)
Definition file_events (fromisoformat : string → option datetime)
    (w : world) (file_key : string) : list event :=
  match (get_object file_key w).1 with
  | Ok telemetry_data =>
      ErrorTransforming <$> (records_of telemetry_data ≫= transform_log fromisoformat)
  | Raise e => [ErrorProcessingFile file_key e]
  end.

(** The records one run stages. *)
Definition records_of_run (fromisoformat : string → option datetime)
    (w : world) (s3_prefix : string) : list flat_record :=
  files_of_run w s3_prefix ≫= accepted_from fromisoformat w.

(** The world after [n] runs in a row over the same prefix. *)
Definition runs (fromisoformat : string → option datetime)
    (get_redshift_connection : result unit)
    (copy_staging_telemetry : list flat_record → result (list staging_telemetry_row))
    (s3_prefix : string) (n : nat) (w : world) : world :=
  Nat.iter n
    (λ w, (process_telemetry_files fromisoformat get_redshift_connection
             copy_staging_telemetry s3_prefix w).2) w.

(** Every telemetry fact carries the key of a procedure fact. *)
Definition telemetry_refers (wh : Warehouse.state) : Prop :=
  ∀ row, row ∈ fact_procedure_telemetry wh →
         ∃ fp, fp ∈ fact_procedures wh
               ∧ fpt_procedure_key row = Some (fp_procedure_key fp).

End TelemetryRun.

(** Inputs for the examples of the telemetry run. *)
Module TelemetryRunExamples.

Import S3Telemetry TelemetryExamples.

(** A sample whose [arm_position] is [null]. *)
Definition sample_null_group : pyval :=
  PDict (<["procedure_id" := PStr "PROC-0001"]>
        (<["timestamp" := PStr "2024-03-05T09:06:00"]>
        (<["arm_position" := PNone]> ∅))).

(** A bucket with a good file, a file that is not JSON, a key that does
    not end in [.json] and a key outside the prefix. *)
Definition bucket_damaged : list s3_object :=
  [{| Key := "batch/telemetry/20240305.json"; Body := Ok (PList [sample_bare]) |};
   {| Key := "telemetry/2024/a.json";
      Body := Ok (PList [sample_full; sample_null_group; sample_no_timestamp]) |};
   {| Key := "telemetry/2024/b.json";
      Body := Raise (ValueError "Expecting value: line 1 column 1 (char 0)") |};
   {| Key := "telemetry/readme.txt"; Body := Ok (PList [sample_bare]) |}].

End TelemetryRunExamples.

(** ** Notions used to state further properties of the relational load *)

Module RdsRun.

Import Sql Warehouse RdsEtl.

(** A dimension row as a later table holds it: the row itself, or the row
    closed, which it can be only when it was current. *)
Definition surgeon_kept (d d' : dim_surgeon_row) : Prop :=
  d' = d ∨ (sg_is_current d = true ∧ ∃ day, d' = expire_surgeon day d).

Definition robot_kept (d d' : dim_robot_row) : Prop :=
  d' = d ∨ (r_is_current d = true ∧ ∃ day, d' = expire_robot day d).

(** The later warehouse keeps the history of the earlier one: every
    dimension row is where it was, as it was or closed; the facility
    dimension is the same; every fact is where it was, unchanged. *)
Definition keeps_history (wh wh' : Warehouse.state) : Prop :=
  (∀ i d, dim_surgeons wh !! i = Some d →
          ∃ d', dim_surgeons wh' !! i = Some d' ∧ surgeon_kept d d')
  ∧ (∀ i d, dim_robots wh !! i = Some d →
            ∃ d', dim_robots wh' !! i = Some d' ∧ robot_kept d d')
  ∧ dim_facilities wh' = dim_facilities wh
  ∧ fact_procedures wh `prefix_of` fact_procedures wh'
  ∧ fact_procedure_telemetry wh `prefix_of` fact_procedure_telemetry wh'.

(** Every dimension key of a procedure fact is the key of a row of its
    dimension. *)
Definition facts_refer (wh : Warehouse.state) : Prop :=
  ∀ fp, fp ∈ fact_procedures wh →
        (∀ k, fp_robot_key fp = Some k → k ∈ r_robot_key <$> dim_robots wh)
        ∧ (∀ k, fp_surgeon_key fp = Some k → k ∈ sg_surgeon_key <$> dim_surgeons wh)
        ∧ (∀ k, fp_facility_key fp = Some k
                → k ∈ f_facility_key <$> dim_facilities wh).

(** The warehouse after the two dimension merges, in the order of the
    handler. *)
Definition after_dimensions (CURRENT_DATE : date)
    (staging_surgeons : list staging_surgeon) (staging_robots : list staging_robot)
    (wh : Warehouse.state) : Warehouse.state :=
  let wh := with_dim_surgeons
              (merge_surgeons CURRENT_DATE staging_surgeons (dim_surgeons wh)).1 wh in
  with_dim_robots
    (merge_robots CURRENT_DATE staging_robots (dim_facilities wh) (dim_robots wh)).1 wh.

(** The WHERE clause of the procedure query. *)
Definition in_window (start_date end_date : datetime) (p : surgical_procedure)
    : bool :=
  holds (sql_and (ts_ge (p_start_time p) start_date)
                 (ts_lt (p_start_time p) end_date)).

(** The rows the two LEFT JOINs of the procedure query give for one
    procedure. *)
Definition joined (src : source) (p : surgical_procedure) : list staging_procedure :=
  r ← left_join (λ r, sql_eq (p_robot_id p) (sr_robot_id r)) (surgical_robots src);
  o ← left_join (λ o, sql_eq (p_procedure_id p) (o_procedure_id o))
                (procedure_outcomes src);
  [procedure_row p r o].

End RdsRun.

(** Inputs for the examples of the relational load. *)
Module RdsRunExamples.

Import Sql Warehouse RdsEtl RdsExamples.

(** An operational store with no row at all. *)
Definition empty_store : source :=
  {| surgeons := []; robots := []; surgical_procedures := [];
     surgical_robots := []; procedure_outcomes := [] |}.

(** The warehouse after a full run, facing the empty store. *)
Definition idle_world : world :=
  {| rds := empty_store; warehouse := warehouse invoke_full.2; printed := [] |}.

(** An invocation with an [etl_type] the handler does not know. *)
Definition incremental_run : event_params :=
  {| etl_type := Some "incremental"; start_date := None; end_date := None |}.

End RdsRunExamples.

(** ** The extraction queries of the two dimension loads *)

Module Extraction.

Import Sql Warehouse RdsEtl.

(** [surgical_procedures]: the columns the surgeon query reads. *)
Record surgeon_procedure : Type := {
  q_surgeon_id : option string;
  q_surgeon_name : option string;
  q_start_time : option datetime
}.

(** [surgical_robots]: the columns the robot query reads. *)
Record robot_record : Type := {
  rr_robot_id : option string;
  rr_robot_serial_number : option string;
  rr_robot_model : option string;
  rr_manufacturer : option string;
  rr_facility_id : option string;
  rr_install_date : option date;
  rr_software_version : option string;
  rr_hardware_revision : option string;
  rr_status : option string;
  rr_last_maintenance_date : option date
}.

#[global] Instance staging_surgeon_eq_dec : EqDecision staging_surgeon.
Proof. solve_decision. Defined.

#[global] Instance robot_record_eq_dec : EqDecision robot_record.
Proof. solve_decision. Defined.

(** [MIN(start_time)]: NULLs are passed over; NULL when there is no other
    value. *)
Definition min_time (ts : list (option datetime)) : option datetime :=
  foldr (λ t acc,
           match t, acc with
           | Some t, Some m => if (ts_ord t <? ts_ord m)%Z then Some t else Some m
           | Some t, None => Some t
           | None, _ => acc
           end) None ts.

Section SurgeonQuery.

(** [EXTRACT(YEAR FROM AGE(CURRENT_DATE, t))] and [t::DATE], as the
    operational database computes them. *)
Variable years_since : datetime → Z.
Variable to_date : datetime → date.

(** The groups of [WHERE surgeon_id IS NOT NULL
    GROUP BY surgeon_id, surgeon_name]: the pairs of the two columns that
    occur, NULL names together. *)
Definition surgeon_groups (procedures : list surgeon_procedure)
    : list (string * option string) :=
  remove_dups
    (omap (λ p, (λ id, (id, q_surgeon_name p)) <$> q_surgeon_id p) procedures).

Definition surgeon_group (g : string * option string)
    (procedures : list surgeon_procedure) : list surgeon_procedure :=
  List.filter (λ p, bool_decide (q_surgeon_id p = Some g.1 ∧ q_surgeon_name p = g.2))
              procedures.

(** The row of one group. *)
Definition surgeon_row (procedures : list surgeon_procedure)
    (g : string * option string) : staging_surgeon :=
  let first := min_time (q_start_time <$> surgeon_group g procedures) in
  {| s_surgeon_id := Some g.1;
     s_surgeon_name := g.2;
     s_specialization := Some "General Surgery";
     s_years_experience := years_since <$> first;
     s_certification_level := Some "Board Certified";
     s_effective_date := to_date <$> first |}.

(** [SELECT DISTINCT surgeon_id, surgeon_name, 'General Surgery',
       EXTRACT(YEAR FROM AGE(CURRENT_DATE, MIN(start_time))),
       'Board Certified', MIN(start_time)::DATE
     FROM surgical_procedures
     WHERE surgeon_id IS NOT NULL
     GROUP BY surgeon_id, surgeon_name] *)
Definition surgeon_query (procedures : list surgeon_procedure)
    : list staging_surgeon :=
  remove_dups (surgeon_row procedures <$> surgeon_groups procedures).

End SurgeonQuery.

Section RobotQuery.

(** [minutes / 60.0], as a value of the column [total_operating_hours]. *)
Variable hours : Z → decimal.

(** The rows of [surgical_robots r LEFT JOIN surgical_procedures p
    ON r.robot_id = p.robot_id] that fall into the group of [g]: the
    GROUP BY names every column of [r] that is selected. *)
Definition robot_group (robots : list robot_record)
    (procedures : list surgical_procedure) (g : robot_record)
    : list (option surgical_procedure) :=
  r ← List.filter (λ r, bool_decide (r = g)) robots;
  left_join (λ p, sql_eq (rr_robot_id r) (p_robot_id p)) procedures.

(** [COUNT(p.procedure_id)]: the rows where the column is not NULL. *)
Definition count_procedure_id (rows : list (option surgical_procedure)) : Z :=
  Z.of_nat (length (List.filter (λ p, bool_decide (is_Some (p ≫= p_procedure_id)))
                                rows)).

(** [COALESCE(SUM(p.duration_minutes), 0)]: the sum of the values that
    are not NULL, 0 when there is none. *)
Definition sum_duration_minutes (rows : list (option surgical_procedure)) : Z :=
  foldr Z.add 0%Z (omap (λ p, p ≫= p_duration_minutes) rows).

Definition robot_row (robots : list robot_record)
    (procedures : list surgical_procedure) (g : robot_record) : staging_robot :=
  let rows := robot_group robots procedures g in
  {| s_robot_id := rr_robot_id g;
     s_robot_serial_number := rr_robot_serial_number g;
     s_robot_model := rr_robot_model g;
     s_manufacturer := rr_manufacturer g;
     s_facility_id := rr_facility_id g;
     s_install_date := rr_install_date g;
     s_software_version := rr_software_version g;
     s_hardware_revision := rr_hardware_revision g;
     s_status := rr_status g;
     s_last_maintenance_date := rr_last_maintenance_date g;
     s_total_procedures_count := Some (count_procedure_id rows);
     s_total_operating_hours := Some (hours (sum_duration_minutes rows));
     s_robot_effective_date := rr_install_date g |}.

(** [SELECT r.robot_id, ..., COUNT(p.procedure_id),
       COALESCE(SUM(p.duration_minutes), 0) / 60.0, r.install_date
     FROM surgical_robots r
     LEFT JOIN surgical_procedures p ON r.robot_id = p.robot_id
     GROUP BY r.robot_id, ..., r.last_maintenance_date] *)
Definition robot_query (robots : list robot_record)
    (procedures : list surgical_procedure) : list staging_robot :=
  robot_row robots procedures <$> remove_dups robots.

End RobotQuery.

(** The procedures of a robot that carry a procedure id. *)
Definition procedures_of (r : robot_record) (procedures : list surgical_procedure)
    : list surgical_procedure :=
  List.filter (λ p, holds (sql_eq (rr_robot_id r) (p_robot_id p))
                    && bool_decide (is_Some (p_procedure_id p))) procedures.

End Extraction.

(** Inputs for the examples of the extraction queries. *)
Module ExtractionExamples.

Import Sql Warehouse RdsEtl Extraction.

Local Open Scope Z_scope.

(** The year of a timestamp counted from 2025, and its day of March 2024
    counted from day 19787: stand-ins for the two date functions of the
    surgeon query. *)
Definition years_to_2025 (t : datetime) : Z := 2025 - year t.
Definition march_date (t : datetime) : date := 19787 + day t.

(** Hours in hundredths, rounded down: a stand-in for the division of
    the robot query. *)
Definition hundredths (minutes : Z) : decimal := minutes * 100 / 60.

(** Three procedures: a surgeon recorded under two spellings of her name,
    and a procedure without surgeon. *)
Definition three_procedures : list surgeon_procedure :=
  [{| q_surgeon_id := Some "SURG-0001"; q_surgeon_name := Some "Dr. Smith";
      q_start_time := Some (RdsExamples.at_time 14 37) |};
   {| q_surgeon_id := Some "SURG-0001"; q_surgeon_name := Some "Dr Smith";
      q_start_time := Some (RdsExamples.at_time 9 0) |};
   {| q_surgeon_id := None; q_surgeon_name := Some "Dr. Who";
      q_start_time := Some (RdsExamples.at_time 8 0) |}].

(** Two robots; the store of the examples has a procedure of the first
    one. *)
Definition robot_of (id : string) : robot_record :=
  {| rr_robot_id := Some id;
     rr_robot_serial_number := Some "SN-7001";
     rr_robot_model := Some "MX-4";
     rr_manufacturer := Some "Medibot";
     rr_facility_id := Some "FAC-01";
     rr_install_date := Some 17000;
     rr_software_version := Some "4.2.1";
     rr_hardware_revision := Some "C";
     rr_status := Some "active";
     rr_last_maintenance_date := Some 19700 |}.

Definition two_robots : list robot_record := [robot_of "ROB-001"; robot_of "ROB-002"].

End ExtractionExamples.

(** * Lists, as tables *)

Module ListFacts.

Lemma elem_of_filter_bool {R} (p : R → bool) (t : list R) (r : R) :
  r ∈ List.filter p t ↔ r ∈ t ∧ p r = true.
Proof. rewrite !list_elem_of_In. apply filter_In. Qed.

Lemma filter_none {A} (p : A → bool) (l : list A) :
  (∀ a, a ∈ l → p a = false) → List.filter p l = [].
Proof.
  induction l as [|a l IH]; intros Hall; [done|]. simpl.
  rewrite (Hall a) by apply list_elem_of_here.
  apply IH. intros b Hb. apply Hall. by apply list_elem_of_further.
Qed.

Lemma filter_all {A} (p : A → bool) (l : list A) :
  (∀ a, a ∈ l → p a = true) → List.filter p l = l.
Proof.
  induction l as [|a l IH]; intros Hall; [done|]. simpl.
  rewrite (Hall a) by apply list_elem_of_here. f_equal.
  apply IH. intros b Hb. apply Hall. by apply list_elem_of_further.
Qed.

Section Filters.

Context {A B : Type}.

(** Filtering the rows of a query by a test that only looks at the row of
    the driving table filters the driving table. *)
Lemma filter_bind (p : A → bool) (q : B → bool) (g : A → list B) (l : list A) :
  (∀ a b, b ∈ g a → q b = p a) →
  List.filter q (l ≫= g) = List.filter p l ≫= g.
Proof.
  intros Hg. induction l as [|a l IH]; [done|].
  rewrite bind_cons, List.filter_app, IH. simpl.
  destruct (p a) eqn:Hp.
  - rewrite bind_cons. f_equal. apply filter_all.
    intros b Hb. by rewrite (Hg a b).
  - rewrite filter_none; [done|]. intros b Hb. by rewrite (Hg a b).
Qed.

Lemma filter_fmap (q : B → bool) (f : A → B) (l : list A) :
  List.filter q (f <$> l) = f <$> List.filter (q ∘ f) l.
Proof.
  induction l as [|a l IH]; [done|]. cbn. destruct (q (f a)); cbn; by rewrite IH.
Qed.

Lemma filter_filter (p q : A → bool) (l : list A) :
  List.filter p (List.filter q l) = List.filter (λ a, q a && p a) l.
Proof.
  induction l as [|a l IH]; [done|]. simpl.
  destruct (q a); simpl; [destruct (p a)|]; by rewrite IH.
Qed.

(** An UPDATE that takes the rows it changes out of a selection leaves,
    of that selection, the rows it did not change. *)
Lemma filter_update (p c : A → bool) (e : A → A) (l : list A) :
  (∀ a, c a = true → p (e a) = false) →
  List.filter p ((λ a, if c a then e a else a) <$> l)
  = List.filter (λ a, negb (c a)) (List.filter p l).
Proof.
  intros He. induction l as [|a l IH]; [done|].
  rewrite fmap_cons. cbn [List.filter]. rewrite IH. clear IH.
  destruct (c a) eqn:Hc.
  - rewrite (He a Hc). destruct (p a); [|done]. cbn. by rewrite Hc.
  - destruct (p a); [|done]. cbn. by rewrite Hc.
Qed.


End Filters.

(** A function that fixes every element of a list fixes the list. *)
Lemma fmap_fixed {A} (f : A → A) (l : list A) :
  (∀ a, a ∈ l → f a = a) → f <$> l = l.
Proof.
  induction l as [|a l IH]; intros Hfix; [done|].
  rewrite fmap_cons, (Hfix a) by apply list_elem_of_here. f_equal.
  apply IH. intros b Hb. apply Hfix. by apply list_elem_of_further.
Qed.

Lemma length_one {A} (l : list A) : length l = 1%nat → ∃ a, l = [a].
Proof. destruct l as [|a [|b l]]; try done. eauto. Qed.

(** A query that gives at most one row per driving row, keyed like it,
    keeps the keys distinct. *)
Lemma NoDup_bind_keys {A B K} (f : A → K) (h : B → K) (g : A → list B) (l : list A) :
  (∀ a, (length (g a) ≤ 1)%nat) →
  (∀ a b, b ∈ g a → h b = f a) →
  NoDup (f <$> l) → NoDup (h <$> (l ≫= g)).
Proof.
  intros Hone Hkey. induction l as [|a l IH]; intros Hnd; [constructor|].
  rewrite fmap_cons in Hnd. apply NoDup_cons in Hnd as [Hnotin Hnd].
  rewrite bind_cons, fmap_app. specialize (IH Hnd).
  destruct (g a) as [|b [|b' bs]] eqn:Hga.
  - done.
  - cbn. apply NoDup_cons. split; [|done].
    rewrite (Hkey a b) by (rewrite Hga; apply list_elem_of_here).
    intros (b0 & Hb0 & (a0 & Hin & Ha0)%list_elem_of_bind)%list_elem_of_fmap.
    apply Hnotin. apply list_elem_of_fmap. exists a0. split; [|done].
    by rewrite <- (Hkey a0 b0).
  - specialize (Hone a). rewrite Hga in Hone. cbn in Hone. lia.
Qed.

(** A natural key that the batch holds once selects one staged row. *)
Lemma filter_unique_key {A K} `{EqDecision K} (f : A → K) (l : list A) (k : K) :
  NoDup (f <$> l) → k ∈ f <$> l →
  ∃ a, List.filter (λ a, bool_decide (f a = k)) l = [a].
Proof.
  induction l as [|a l IH]; intros Hnd Hin.
  - by apply elem_of_nil in Hin.
  - rewrite fmap_cons in Hnd, Hin. apply NoDup_cons in Hnd as [Hnotin Hnd].
    cbn. case_bool_decide as Hk.
    + exists a. f_equal. apply filter_none. intros b Hb.
      apply bool_decide_eq_false. intros Hbk. apply Hnotin.
      apply list_elem_of_fmap. exists b. split; [congruence|done].
    + apply elem_of_cons in Hin as [Hin|Hin]; [congruence|]. by apply IH.
Qed.

(** Rows with distinct keys are distinct, and a key names its row. *)
Lemma NoDup_key_inj {A K} (f : A → K) (l : list A) (a b : A) :
  NoDup (f <$> l) → a ∈ l → b ∈ l → f a = f b → a = b.
Proof.
  intros Hnd Ha Hb Hab.
  apply list_elem_of_lookup in Ha as [i Hi]. apply list_elem_of_lookup in Hb as [j Hj].
  assert (i = j) as ->.
  { eapply NoDup_lookup; [exact Hnd| |].
    - rewrite list_lookup_fmap, Hi. done.
    - rewrite list_lookup_fmap, Hj. cbn. by rewrite Hab. }
  congruence.
Qed.

Lemma fmap_bind {A B C} (h : B → C) (g : A → list B) (l : list A) :
  h <$> (l ≫= g) = l ≫= (λ a, h <$> g a).
Proof.
  induction l as [|a l IH]; [done|]. by rewrite !bind_cons, fmap_app, IH.
Qed.

Lemma NoDup_filter_bool {A} (p : A → bool) (l : list A) :
  NoDup l → NoDup (List.filter p l).
Proof.
  induction 1 as [|a l Hnotin Hnd IH]; [constructor|]. simpl.
  destruct (p a); [|done]. apply NoDup_cons. split; [|done].
  by intros [? _]%elem_of_filter_bool.
Qed.

(** The keys of a query stay distinct when the driving rows are
    distinct, every driving row gives distinct keys, and a key tells
    its driving row. *)
Lemma NoDup_query {A B K} (h : B → K) (g : A → list B) (l : list A) :
  NoDup l →
  (∀ a, a ∈ l → NoDup (h <$> g a)) →
  (∀ a1 a2 b1 b2, a1 ∈ l → a2 ∈ l → b1 ∈ g a1 → b2 ∈ g a2 → h b1 = h b2 → a1 = a2) →
  NoDup (h <$> (l ≫= g)).
Proof.
  intros Hl Hg Hinj. rewrite fmap_bind. apply NoDup_bind; [|done|done].
  intros a1 a2 k Ha1 Ha2 (b1 & -> & Hb1)%list_elem_of_fmap
         (b2 & Hk & Hb2)%list_elem_of_fmap.
  by apply (Hinj a1 a2 b1 b2).
Qed.

(** A partial map that rejects an element of a list keeps fewer
    elements than the list has. *)
Lemma omap_length_le {A B} (f : A → option B) (l : list A) :
  (length (omap f l) ≤ length l)%nat.
Proof.
  induction l as [|a l IH]; [done|]. cbn. destruct (f a); cbn; lia.
Qed.

Lemma omap_length_lt {A B} (f : A → option B) (l : list A) (a : A) :
  a ∈ l → f a = None → (length (omap f l) < length l)%nat.
Proof.
  induction l as [|b l IH]; intros Hin Hnone.
  - by apply elem_of_nil in Hin.
  - cbn. apply elem_of_cons in Hin as [<-|Hin].
    + rewrite Hnone. pose proof (omap_length_le f l). lia.
    + specialize (IH Hin Hnone). destruct (f b); cbn; lia.
Qed.

End ListFacts.

(** * Properties of the SQL operators *)

Module SqlFacts.

Import Sql ListFacts.

Section Logic.

Context {A : Type} `{EqDecision A}.

Lemma holds_and (a b : tv) : holds (sql_and a b) = holds a && holds b.
Proof. by destruct a as [[]|], b as [[]|]. Qed.

Lemma holds_or (a b : tv) : holds (sql_or a b) = holds a || holds b.
Proof. by destruct a as [[]|], b as [[]|]. Qed.

Lemma holds_not (a : tv) : holds (sql_not a) = true ↔ a = Some false.
Proof. destruct a as [[]|]; simpl; split; congruence. Qed.

Lemma holds_some (b : bool) : holds (Some b) = b.
Proof. by destruct b. Qed.

(** An equality holds exactly when both sides are the same non-NULL
    value. *)
Lemma holds_eq (x y : option A) :
  holds (sql_eq x y) = true ↔ ∃ a, x = Some a ∧ y = Some a.
Proof.
  destruct x as [a|], y as [b|]; cbn;
    try (split; [done|intros (? & ? & ?); done]).
  case_bool_decide as Hab; split; try done.
  - subst. eauto.
  - intros (c & [= ->] & [= ->]). done.
Qed.

Lemma holds_eq_some (a : A) (y : option A) :
  holds (sql_eq (Some a) y) = bool_decide (y = Some a).
Proof.
  destruct y as [b|]; cbn; [|done].
  repeat case_bool_decide; congruence.
Qed.

Lemma holds_eq_none_l (y : option A) : holds (sql_eq None y) = false.
Proof. done. Qed.

Lemma holds_eq_none_r (x : option A) : holds (sql_eq x None) = false.
Proof. by destruct x. Qed.

(** [IN] is TRUE exactly when the value is not NULL and occurs in the
    subquery. *)
Lemma holds_in (x : option A) (sub : list (option A)) :
  holds (sql_in x sub) = true ↔ ∃ a, x = Some a ∧ Some a ∈ sub.
Proof.
  unfold sql_in. induction sub as [|y sub IH]; simpl.
  - split; [done|]. intros (a & _ & Hin). by apply elem_of_nil in Hin.
  - rewrite holds_or, orb_true_iff, IH, holds_eq. split.
    + intros [(a & -> & ->)|(a & -> & Hin)]; exists a; split; try done.
      * apply list_elem_of_here.
      * by apply list_elem_of_further.
    + intros (a & -> & Hin). apply elem_of_cons in Hin as [<-|Hin]; eauto.
Qed.

End Logic.

Section Pairs.

Context {A B : Type} `{EqDecision A, EqDecision B}.


(** Comparing a pair with itself is never FALSE. *)
Lemma sql_eq2_refl (x : option A * option B) : sql_eq2 x x ≠ Some false.
Proof.
  destruct x as [[a|] [b|]]; unfold sql_eq2; cbn; try done;
    rewrite ?bool_decide_eq_true_2 by done; done.
Qed.

(** [NOT IN] is TRUE exactly when every comparison is FALSE. *)
Lemma sql_in2_false (x : option A * option B) (sub : list (option A * option B)) :
  sql_in2 x sub = Some false ↔ ∀ y, y ∈ sub → sql_eq2 x y = Some false.
Proof.
  unfold sql_in2. induction sub as [|y sub IH]; simpl.
  - split; [|done]. intros _ y Hy. by apply elem_of_nil in Hy.
  - split.
    + intros Hor z Hz.
      destruct (sql_eq2 x y) as [[]|] eqn:Hxy,
               (foldr (λ y acc, sql_or (sql_eq2 x y) acc) (Some false) sub)
                 as [[]|] eqn:Hrest; try discriminate Hor.
      apply elem_of_cons in Hz as [->|Hz]; [done|]. by apply IH.
    + intros Hall.
      rewrite (Hall y) by apply list_elem_of_here.
      rewrite (proj2 IH); [done|].
      intros z Hz. apply Hall. by apply list_elem_of_further.
Qed.


End Pairs.

Section Joins.

Context {R : Type}.

Lemma sql_exists_true (cond : R → tv) (t : list R) :
  sql_exists cond t = true ↔ ∃ r, r ∈ t ∧ holds (cond r) = true.
Proof.
  unfold sql_exists. rewrite existsb_exists.
  split; intros (r & Hr & Hc); exists r; split; try done; by apply list_elem_of_In.
Qed.

Lemma sql_exists_false (cond : R → tv) (t : list R) :
  sql_exists cond t = false ↔ ∀ r, r ∈ t → holds (cond r) = false.
Proof.
  rewrite <- not_true_iff_false, sql_exists_true. split.
  - intros Hno r Hr. apply not_true_iff_false. intros Hc. apply Hno. eauto.
  - intros Hall (r & Hr & Hc). rewrite (Hall r Hr) in Hc. discriminate.
Qed.

Lemma sql_exists_app (cond : R → tv) (t1 t2 : list R) :
  sql_exists cond (t1 ++ t2) = sql_exists cond t1 || sql_exists cond t2.
Proof. apply existsb_app. Qed.

Lemma elem_of_inner_join (cond : R → tv) (t : list R) (r : R) :
  r ∈ inner_join cond t ↔ r ∈ t ∧ holds (cond r) = true.
Proof. apply (elem_of_filter_bool (λ r, holds (cond r))). Qed.

(** A LEFT JOIN always gives a row. *)
Lemma left_join_not_nil (cond : R → tv) (t : list R) : left_join cond t ≠ [].
Proof. unfold left_join. by destruct (List.filter _ t). Qed.

(** A matched row of a LEFT JOIN is a row of the table that satisfies the
    ON clause. *)
Lemma left_join_some (cond : R → tv) (t : list R) (r : R) :
  Some r ∈ left_join cond t ↔ r ∈ t ∧ holds (cond r) = true.
Proof.
  unfold left_join. rewrite <- (elem_of_filter_bool (λ r, holds (cond r))).
  destruct (List.filter _ t) as [|r0 m] eqn:Hm.
  - split; intros Hin.
    + apply list_elem_of_singleton in Hin. discriminate.
    + by apply elem_of_nil in Hin.
  - rewrite list_elem_of_fmap. split.
    + by intros (r' & [= <-] & Hin).
    + intros Hin. eauto.
Qed.

(** The NULL row of a LEFT JOIN appears exactly when nothing matches. *)
Lemma left_join_none (cond : R → tv) (t : list R) :
  None ∈ left_join cond t ↔ ∀ r, r ∈ t → holds (cond r) = false.
Proof.
  unfold left_join. destruct (List.filter _ t) as [|r0 m] eqn:Hm.
  - split; [|intros; apply list_elem_of_here].
    intros _ r Hr. apply not_true_iff_false. intros Hc.
    assert (Hin : r ∈ List.filter (λ r, holds (cond r)) t)
      by by apply elem_of_filter_bool.
    rewrite Hm in Hin. by apply elem_of_nil in Hin.
  - split.
    + intros Hin. apply list_elem_of_fmap in Hin as (r & Hr & _). discriminate.
    + intros Hall.
      assert (Hin : r0 ∈ List.filter (λ r, holds (cond r)) t)
        by (rewrite Hm; apply list_elem_of_here).
      apply elem_of_filter_bool in Hin as [Hin Hc].
      rewrite (Hall r0 Hin) in Hc. discriminate.
Qed.

(** When at most one row matches, a LEFT JOIN gives exactly one row. *)
Lemma left_join_one (cond : R → tv) (t : list R) :
  (length (List.filter (λ r, holds (cond r)) t) ≤ 1)%nat →
  length (left_join cond t) = 1%nat.
Proof.
  unfold left_join. destruct (List.filter _ t) as [|r0 [|r1 m]]; simpl; try done.
  lia.
Qed.

End Joins.

Section Keys.

Context {A R : Type}.

Lemma with_keys_length (mk : Z → A → R) (next : Z) (rows : list A) :
  length (with_keys mk next rows) = length rows.
Proof. revert next. induction rows; intros; simpl; auto. Qed.

(** A projection that ignores the key commutes with the numbering. *)
Lemma with_keys_fmap {B} (f : R → B) (g : A → B) (mk : Z → A → R)
    (next : Z) (rows : list A) :
  (∀ k a, f (mk k a) = g a) → f <$> with_keys mk next rows = g <$> rows.
Proof.
  intros Hfg. revert next. induction rows as [|a rows IH]; intros next; simpl.
  - done.
  - cbn. rewrite Hfg. f_equal. apply IH.
Qed.

Lemma elem_of_with_keys (mk : Z → A → R) (next : Z) (rows : list A) (r : R) :
  r ∈ with_keys mk next rows ↔
  ∃ i a, rows !! i = Some a ∧ r = mk (next + Z.of_nat i)%Z a.
Proof.
  revert next. induction rows as [|a rows IH]; intros next; simpl.
  - split; [intros H; by apply elem_of_nil in H|]. by intros (i & b & H & _).
  - rewrite elem_of_cons, IH. split.
    + intros [->|(i & b & Hi & ->)].
      * exists 0%nat, a. split; [done|]. f_equal. lia.
      * exists (S i), b. split; [done|]. f_equal. lia.
    + intros ([|i] & b & Hi & ->); simpl in Hi.
      * left. injection Hi as ->. f_equal. lia.
      * right. exists i, b. split; [done|]. f_equal. lia.
Qed.

Lemma with_keys_filter_length (p : R → bool) (q : A → bool) (mk : Z → A → R)
    (next : Z) (rows : list A) :
  (∀ k a, p (mk k a) = q a) →
  length (List.filter p (with_keys mk next rows)) = length (List.filter q rows).
Proof.
  intros Hpq. revert next.
  induction rows as [|a rows IH]; intros next; simpl; [done|].
  rewrite Hpq. destruct (q a); simpl; auto.
Qed.

Lemma with_keys_filter_singleton (p : R → bool) (q : A → bool) (mk : Z → A → R)
    (next : Z) (rows : list A) (a : A) :
  (∀ k a, p (mk k a) = q a) →
  List.filter q rows = [a] →
  ∃ key, List.filter p (with_keys mk next rows) = [mk key a].
Proof.
  intros Hpq. revert next.
  induction rows as [|a0 rows IH]; intros next Hq; [done|].
  simpl in *. rewrite Hpq. destruct (q a0).
  - injection Hq as -> Hrest. exists next. f_equal.
    apply length_zero_iff_nil.
    by rewrite (with_keys_filter_length p q), Hrest.
  - by apply IH.
Qed.

Lemma with_keys_elem (mk : Z → A → R) (next : Z) (rows : list A) (a : A) :
  a ∈ rows → ∃ key, mk key a ∈ with_keys mk next rows.
Proof.
  intros (i & Hi)%list_elem_of_lookup.
  exists (next + Z.of_nat i)%Z. apply elem_of_with_keys. eauto.
Qed.

Lemma with_keys_source (mk : Z → A → R) (next : Z) (rows : list A) (r : R) :
  r ∈ with_keys mk next rows → ∃ key a, a ∈ rows ∧ r = mk key a.
Proof.
  intros (i & a & Hi & ->)%elem_of_with_keys.
  exists (next + Z.of_nat i)%Z, a. split; [|done].
  apply list_elem_of_lookup. eauto.
Qed.

End Keys.

(** Every key is at most the largest. *)
Lemma max_key_ge (keys : list Z) (k : Z) : k ∈ keys → (k ≤ max_key keys)%Z.
Proof.
  unfold max_key. induction keys as [|k' keys IH]; simpl.
  - intros H. by apply elem_of_nil in H.
  - intros [->|Hin]%elem_of_cons; [lia|]. specialize (IH Hin). lia.
Qed.

End SqlFacts.

(** * Properties of the telemetry program *)

Module S3TelemetryFacts.

Import Sql ListFacts SqlFacts Warehouse S3Telemetry.

Section Transform.

Variable fromisoformat : string → option datetime.

Lemma nested_ok (d : gmap string pyval) (group name : string) (v : pyval) :
  nested (PDict d) group name = Ok v →
  (d !! group = None ∧ v = PNone)
  ∨ (∃ g, d !! group = Some (PDict g) ∧ v = default PNone (g !! name)).
Proof.
  unfold nested. simpl. destruct (d !! group) as [gv|] eqn:E; simpl.
  - destruct gv; simpl; try discriminate. intros [= <-]. right. eauto.
  - rewrite lookup_empty. simpl. intros [= <-]. by left.
Qed.

(** A field of a group that is absent, or present without the field, is
    read as [None]. *)
Lemma nested_absent (d : gmap string pyval) (group name : string) (v : pyval) :
  nested (PDict d) group name = Ok v → absent d group name → v = PNone.
Proof.
  intros Hv Habs. destruct (nested_ok _ _ _ _ Hv) as [[_ ->]|(g & Hg & ->)]; [done|].
  destruct Habs as [Hn|(g' & Hg' & Hname)]; [congruence|].
  rewrite Hg in Hg'. injection Hg' as ->. by rewrite Hname.
Qed.

(** What an accepted record looks like, and where every field of the flat
    record comes from. *)
Lemma transform_accepts (record : pyval) (t : flat_record) :
  transform_telemetry_record fromisoformat record = Some t →
  ∃ (d : gmap string pyval) (s : string) (ts_obj : datetime),
    record = PDict d
    ∧ d !! "timestamp" = Some (PStr s) ∧ s ≠ ""
    ∧ fromisoformat (replace_Z s) = Some ts_obj
    ∧ timestamp_key t = time_key ts_obj
    ∧ sample_timestamp t = PStr s
    ∧ tool_active t
      = (if truthy (default PNone (d !! "tool_active")) then "true" else "false")
    ∧ (procedure_id t = default PNone (d !! "procedure_id")
       ∧ force_feedback t = default PNone (d !! "force_feedback")
       ∧ tool_type t = default PNone (d !! "tool_type")
       ∧ camera_zoom t = default PNone (d !! "camera_zoom")
       ∧ lighting_level t = default PNone (d !! "lighting_level"))
    ∧ (nested record "arm_position" "x" = Ok (arm_position_x t)
       ∧ nested record "arm_position" "y" = Ok (arm_position_y t)
       ∧ nested record "arm_position" "z" = Ok (arm_position_z t)
       ∧ nested record "arm_rotation" "x" = Ok (arm_rotation_x t)
       ∧ nested record "arm_rotation" "y" = Ok (arm_rotation_y t)
       ∧ nested record "arm_rotation" "z" = Ok (arm_rotation_z t)
       ∧ nested record "system_metrics" "temperature" = Ok (system_temperature t)
       ∧ nested record "system_metrics" "motor_current" = Ok (motor_current t)
       ∧ nested record "system_metrics" "network_latency_ms"
         = Ok (network_latency_ms t)
       ∧ nested record "system_metrics" "video_fps" = Ok (video_fps t)).
Proof.
  unfold transform_telemetry_record.
  destruct (transform_body fromisoformat record) as [[t'|]|e] eqn:H;
    intros [= <-].
  unfold transform_body in H.
  destruct record; simpl in H; try discriminate H.
  destruct (truthy (default PNone (d !! "timestamp"))) eqn:Ht;
    simpl in H; [|discriminate H].
  destruct (d !! "timestamp") as [ts|] eqn:Hts; simpl in *; [|discriminate Ht].
  destruct ts; simpl in H; try discriminate H.
  unfold py_fromisoformat in H.
  destruct (fromisoformat (replace_Z s)) as [ts_obj|] eqn:Hp;
    simpl in H; [|discriminate H].
  do 10 (match type of H with
         | context [mbind _ ?m] => destruct m eqn:?; simpl in H; try discriminate H
         end).
  injection H as <-. simpl.
  exists d, s, ts_obj. split_and!; try done.
  intros ->. discriminate Ht.
Qed.

(** A dict without a timestamp, or with a [null] or empty one, is
    rejected by the early return, and nothing is printed for it. *)
Lemma transform_rejects (d : gmap string pyval) :
  truthy (default PNone (d !! "timestamp")) = false →
  transform_telemetry_record fromisoformat (PDict d) = None
  ∧ transform_log fromisoformat (PDict d) = [].
Proof.
  intros Ht. unfold transform_telemetry_record, transform_log, transform_body.
  simpl. by rewrite Ht.
Qed.

End Transform.

Section Run.

Variable fromisoformat : string → option datetime.
Variable get_redshift_connection : result unit.
Variable copy_staging_telemetry :
  list flat_record → result (list staging_telemetry_row).

(** Printing touches nothing but the printed lines. *)
Lemma print_all_fields (evs : list event) (w : world) :
  raw_bucket (print_all evs w) = raw_bucket w
  ∧ staging_bucket (print_all evs w) = staging_bucket w
  ∧ warehouse (print_all evs w) = warehouse w
  ∧ get_calls (print_all evs w) = get_calls w.
Proof. done. Qed.

(** One turn of the inner loop. *)
Lemma transform_step_eq (acc : list flat_record) (w : world) (record : pyval) :
  (transform_step fromisoformat) (acc, w) record
  = (acc ++ option_list (transform_telemetry_record fromisoformat record),
     print_all (ErrorTransforming <$> transform_log fromisoformat record) w).
Proof.
  unfold transform_step. simpl.
  destruct (transform_telemetry_record fromisoformat record); simpl; [done|]. by rewrite app_nil_r.
Qed.

(** The inner loop appends the accepted records, in order, and leaves the
    buckets, the warehouse and the calls alone. *)
Lemma transform_loop (records : list pyval) (acc : list flat_record) (w : world) :
  (foldl (transform_step fromisoformat) (acc, w) records).1 = acc ++ omap (transform_telemetry_record fromisoformat) records
  ∧ raw_bucket (foldl (transform_step fromisoformat) (acc, w) records).2 = raw_bucket w
  ∧ staging_bucket (foldl (transform_step fromisoformat) (acc, w) records).2 = staging_bucket w
  ∧ warehouse (foldl (transform_step fromisoformat) (acc, w) records).2 = warehouse w
  ∧ get_calls (foldl (transform_step fromisoformat) (acc, w) records).2 = get_calls w.
Proof.
  revert acc w. induction records as [|record records IH]; intros acc w.
  - simpl. by rewrite app_nil_r.
  - cbn [foldl]. rewrite transform_step_eq.
    destruct (IH (acc ++ option_list (transform_telemetry_record fromisoformat record))
                 (print_all (ErrorTransforming <$> transform_log fromisoformat record) w))
      as (H1 & H2 & H3 & H4 & H5).
    split_and!; try done.
    rewrite H1, <- app_assoc. f_equal. cbn [omap list_omap].
    by destruct (transform_telemetry_record fromisoformat record).
Qed.

(** What a download gives depends on the raw bucket only. *)
Lemma get_object_result (file_key : string) (w w' : world) :
  raw_bucket w = raw_bucket w' → (get_object file_key w).1 = (get_object file_key w').1.
Proof. unfold get_object. simpl. by intros ->. Qed.

Lemma accepted_from_bucket (file_key : string) (w w' : world) :
  raw_bucket w = raw_bucket w' →
  accepted_from fromisoformat w file_key = accepted_from fromisoformat w' file_key.
Proof.
  intros H. unfold accepted_from. by rewrite (get_object_result _ _ _ H).
Qed.

(** One file: exactly one download, the accepted records appended, at
    most one more file counted. *)
Lemma process_file_spec (l : locals) (w : world) (file_key : string) :
  telemetry_records ((process_file fromisoformat) (l, w) file_key).1
    = telemetry_records l ++ accepted_from fromisoformat w file_key
  ∧ (files_processed l ≤ files_processed ((process_file fromisoformat) (l, w) file_key).1
     ≤ S (files_processed l))%nat
  ∧ raw_bucket ((process_file fromisoformat) (l, w) file_key).2 = raw_bucket w
  ∧ staging_bucket ((process_file fromisoformat) (l, w) file_key).2 = staging_bucket w
  ∧ warehouse ((process_file fromisoformat) (l, w) file_key).2 = warehouse w
  ∧ get_calls ((process_file fromisoformat) (l, w) file_key).2 = get_calls w ++ [file_key].
Proof.
  unfold process_file, accepted_from.
  destruct (get_object file_key w) as [[data|e] w1] eqn:Hget; simpl.
  - assert (Hw1 : (get_object file_key w).2 = w1) by by rewrite Hget.
    destruct (transform_loop (records_of data) (telemetry_records l) w1)
      as (H1 & H2 & H3 & H4 & H5).
    destruct (foldl (transform_step fromisoformat) (telemetry_records l, w1) (records_of data))
      as [recs w2].
    simpl in *. rewrite H2, H3, H4, H5, <- Hw1. simpl.
    split_and!; try done; lia.
  - assert (Hw1 : (get_object file_key w).2 = w1) by by rewrite Hget.
    rewrite <- Hw1. simpl. rewrite app_nil_r. split_and!; try done; lia.
Qed.

(** The loop over the files. *)
Lemma process_files_spec (files : list string) (l : locals) (w : world) :
  telemetry_records (foldl (process_file fromisoformat) (l, w) files).1
    = telemetry_records l ++ (files ≫= accepted_from fromisoformat w)
  ∧ (files_processed (foldl (process_file fromisoformat) (l, w) files).1
     ≤ files_processed l + length files)%nat
  ∧ raw_bucket (foldl (process_file fromisoformat) (l, w) files).2 = raw_bucket w
  ∧ staging_bucket (foldl (process_file fromisoformat) (l, w) files).2 = staging_bucket w
  ∧ warehouse (foldl (process_file fromisoformat) (l, w) files).2 = warehouse w
  ∧ get_calls (foldl (process_file fromisoformat) (l, w) files).2 = get_calls w ++ files.
Proof.
  revert l w. induction files as [|file_key files IH]; intros l w.
  - simpl. rewrite !app_nil_r. split_and!; try done; lia.
  - cbn [foldl].
    destruct (process_file_spec l w file_key)
      as (Hrec & Hcount & Hraw & Hstage & Hwh & Hcalls).
    destruct ((process_file fromisoformat) (l, w) file_key) as [l1 w1]. simpl in *.
    destruct (IH l1 w1) as (H1 & H2 & H3 & H4 & H5 & H6).
    rewrite H1, H3, H4, H5, H6, Hrec, Hraw, Hstage, Hwh, Hcalls, <- !app_assoc.
    split_and!; try done; [|lia].
    f_equal. f_equal. apply list_bind_ext; [|done].
    intros k. by apply accepted_from_bucket.
Qed.

(** Loading touches neither bucket nor the calls. *)
Lemma load_fields (records : list flat_record) (w : world) :
  let out := load_telemetry_to_redshift get_redshift_connection
               copy_staging_telemetry records w in
  raw_bucket out.2 = raw_bucket w
  ∧ staging_bucket out.2 = staging_bucket w
  ∧ get_calls out.2 = get_calls w.
Proof.
  unfold load_telemetry_to_redshift.
  destruct get_redshift_connection; [|done].
  destruct (copy_staging_telemetry records); [|done].
  by destruct (insert_telemetry _ _).
Qed.

(** A whole run: it downloads the files of the run and nothing else, and
    it stages, as one object, the records accepted from them, or nothing
    when there is none. *)
Lemma run_spec (s3_prefix : string) (w : world) :
  let files := files_of_run w s3_prefix in
  let records := files ≫= accepted_from fromisoformat w in
  get_calls (process_telemetry_files fromisoformat get_redshift_connection copy_staging_telemetry s3_prefix w).2 = get_calls w ++ files
  ∧ staging_bucket (process_telemetry_files fromisoformat get_redshift_connection copy_staging_telemetry s3_prefix w).2
    = staging_bucket w ++ match records with [] => [] | _ => [records] end
  ∧ raw_bucket (process_telemetry_files fromisoformat get_redshift_connection copy_staging_telemetry s3_prefix w).2 = raw_bucket w
  ∧ (∀ n, (process_telemetry_files fromisoformat get_redshift_connection copy_staging_telemetry s3_prefix w).1 = Ok n → n = Z.of_nat (length records)).
Proof.
  unfold files_of_run, process_telemetry_files. simpl.
  destruct (list_objects_v2 (raw_bucket w) s3_prefix 1000) as [|obj contents] eqn:Hlist.
  { simpl. rewrite !app_nil_r. split_and!; try done. by intros n [= <-]. }
  set (files := json_files (obj :: contents)).
  destruct files as [|file files'] eqn:Hfiles.
  { simpl. rewrite !app_nil_r. split_and!; try done. by intros n [= <-]. }
  rewrite <- Hfiles. clear Hfiles. clearbody files.
  set (w0 := print (Found (length files)) (print (Processing s3_prefix) w)).
  set (l0 := {| telemetry_records := []; files_processed := 0 |}).
  destruct (process_files_spec (take 100 files) l0 w0)
    as (Hrec & _ & Hraw & Hstage & _ & Hcalls).
  assert (Hacc : take 100 files ≫= accepted_from fromisoformat w0
                 = take 100 files ≫= accepted_from fromisoformat w).
  { apply list_bind_ext; [|done]. intros k. by apply accepted_from_bucket. }
  rewrite Hacc in Hrec. clear Hacc.
  destruct (foldl (process_file fromisoformat) (l0, w0) (take 100 files)) as [l1 w1].
  simpl in Hrec, Hraw, Hstage, Hcalls. rewrite <- Hrec.
  destruct (telemetry_records l1) as [|t recs] eqn:Hl1.
  { simpl. rewrite Hraw, Hstage, Hcalls, app_nil_r.
    split_and!; try done. by intros n [= <-]. }
  set (w2 := print Exported (put_object (t :: recs) (print _ w1))).
  destruct (load_fields (t :: recs) w2) as (Lraw & Lstage & Lcalls).
  destruct (load_telemetry_to_redshift _ _ (t :: recs) w2) as [[n|e] w3];
    simpl in *; rewrite Lraw, Lstage, Lcalls, Hraw, Hstage, Hcalls;
    split_and!; try done.
  by intros ? [= <-].
Qed.

(** When the warehouse can be reached and the COPY succeeds, the run
    returns the number of staged records. *)
Lemma run_result (s3_prefix : string) (w : world) (rows : list staging_telemetry_row) :
  let records := files_of_run w s3_prefix ≫= accepted_from fromisoformat w in
  get_redshift_connection = Ok () →
  copy_staging_telemetry records = Ok rows →
  (process_telemetry_files fromisoformat get_redshift_connection copy_staging_telemetry s3_prefix w).1 = Ok (Z.of_nat (length records)).
Proof.
  intros records Hconn Hcopy. subst records. revert Hcopy.
  unfold files_of_run, process_telemetry_files. simpl.
  destruct (list_objects_v2 (raw_bucket w) s3_prefix 1000) as [|obj contents]; [done|].
  set (files := json_files (obj :: contents)).
  destruct files as [|file files'] eqn:Hfiles; [done|].
  rewrite <- Hfiles. clear Hfiles. clearbody files.
  set (w0 := print (Found (length files)) (print (Processing s3_prefix) w)).
  set (l0 := {| telemetry_records := []; files_processed := 0 |}).
  destruct (process_files_spec (take 100 files) l0 w0) as (Hrec & _).
  assert (Hacc : take 100 files ≫= accepted_from fromisoformat w0
                 = take 100 files ≫= accepted_from fromisoformat w).
  { apply list_bind_ext; [|done]. intros k. by apply accepted_from_bucket. }
  rewrite Hacc in Hrec. clear Hacc.
  destruct (foldl (process_file fromisoformat) (l0, w0) (take 100 files)) as [l1 w1].
  simpl in Hrec. rewrite <- Hrec.
  destruct (telemetry_records l1) as [|t recs]; [done|].
  intros Hcopy. unfold load_telemetry_to_redshift.
  rewrite Hconn, Hcopy. by destruct (insert_telemetry _ _).
Qed.

End Run.

(** ** The telemetry facts *)

Section TelemetryFacts.

Variable wh : Warehouse.state.

(** A selected row comes from a staged row and a procedure fact of the
    same procedure id, and no telemetry fact has their key yet. *)
Lemma elem_of_telemetry_select (staging_telemetry : list staging_telemetry_row)
    (row : fact_telemetry_row) :
  row ∈ telemetry_select staging_telemetry wh ↔
  ∃ st fp,
    st ∈ staging_telemetry
    ∧ fp ∈ fact_procedures wh
    ∧ holds (sql_eq (st_procedure_id st) (fp_procedure_id fp)) = true
    ∧ sql_exists (same_sample st fp) (fact_procedure_telemetry wh) = false
    ∧ row = telemetry_row st fp.
Proof.
  unfold telemetry_select. rewrite list_elem_of_bind. split.
  - intros (st & (fp & Hrow & [Hfp Hon]%elem_of_inner_join)%list_elem_of_bind & Hst).
    destruct (sql_exists (same_sample st fp) (fact_procedure_telemetry wh)) eqn:Hex;
      cbn in Hrow.
    + by apply elem_of_nil in Hrow.
    + apply list_elem_of_singleton in Hrow. eauto 10.
  - intros (st & fp & Hst & Hfp & Hon & Hex & ->).
    exists st. split; [|done]. apply list_elem_of_bind. exists fp. split.
    + rewrite Hex. apply list_elem_of_here.
    + by apply elem_of_inner_join.
Qed.

(** The test of the NOT EXISTS compares the natural keys. *)
Lemma same_sample_holds (st : staging_telemetry_row) (fp : fact_procedure_row)
    (fpt : fact_telemetry_row) :
  holds (same_sample st fp fpt) = true ↔
  is_Some (st_sample_timestamp st)
  ∧ sample_key fpt = sample_key (telemetry_row st fp).
Proof.
  unfold same_sample, sample_key. cbn.
  rewrite holds_and, andb_true_iff, !holds_eq. split.
  - intros [(k & Hk & Hk') (t & Ht & Ht')]. rewrite Hk, Ht, Ht', Hk'. eauto.
  - intros [[t Ht] [= Hk Hts]]. rewrite Hk, Hts, Ht. split; eauto.
Qed.

(** C3 for the telemetry facts, first part: a staged sample whose key is
    in the fact table is not inserted. *)
Lemma loaded_sample_is_skipped (staging_telemetry : list staging_telemetry_row)
    (row : fact_telemetry_row) :
  row ∈ telemetry_select staging_telemetry wh →
  is_Some (fpt_sample_timestamp row) →
  sample_key row ∉ sample_key <$> fact_procedure_telemetry wh.
Proof.
  intros (st & fp & _ & _ & _ & Hex & ->)%elem_of_telemetry_select Hts
         (old & Hkey & Hold)%list_elem_of_fmap.
  rewrite sql_exists_false in Hex. specialize (Hex old Hold).
  apply not_true_iff_false in Hex. apply Hex, same_sample_holds. by split.
Qed.

(** The table after the INSERT. *)
Lemma inserted_samples (staging_telemetry : list staging_telemetry_row) :
  fact_procedure_telemetry (insert_telemetry staging_telemetry wh).1
  = fact_procedure_telemetry wh ++ telemetry_select staging_telemetry wh.
Proof. done. Qed.

End TelemetryFacts.

(** Running the INSERT again on the same batch inserts nothing. *)
Lemma insert_telemetry_again (wh : Warehouse.state)
    (staging_telemetry : list staging_telemetry_row) :
  (∀ st, st ∈ staging_telemetry → is_Some (st_sample_timestamp st)) →
  let loaded := (insert_telemetry staging_telemetry wh).1 in
  insert_telemetry staging_telemetry loaded = (loaded, 0%Z).
Proof.
  intros Hts loaded.
  assert (Hnone : telemetry_select staging_telemetry loaded = []).
  { destruct (telemetry_select staging_telemetry loaded) as [|row rows] eqn:Hsel;
      [done|].
    assert (Hrow : row ∈ telemetry_select staging_telemetry loaded)
      by (rewrite Hsel; apply list_elem_of_here).
    apply elem_of_telemetry_select in Hrow as (st & fp & Hst & Hfp & Hon & Hex & _).
    unfold loaded in Hfp, Hex.
    change (fact_procedures (insert_telemetry staging_telemetry wh).1)
      with (fact_procedures wh) in Hfp.
    rewrite inserted_samples, sql_exists_app, orb_false_iff in Hex.
    destruct Hex as [Hold Hnew].
    rewrite sql_exists_false in Hnew.
    specialize (Hnew (telemetry_row st fp)).
    rewrite (proj2 (same_sample_holds st fp (telemetry_row st fp))) in Hnew.
    - discriminate Hnew. apply elem_of_telemetry_select. eauto 10.
    - split; [by apply Hts|done]. }
  unfold insert_telemetry. rewrite Hnone. cbn.
  rewrite app_nil_r. by destruct loaded.
Qed.

(** C3 for the telemetry facts, second part: when the batch holds every
    sample once, every sample has a timestamp and the procedure facts
    have distinct keys, the INSERT keeps the keys of the telemetry facts
    distinct. *)
Lemma sample_keys_stay_unique (wh : Warehouse.state)
    (staging_telemetry : list staging_telemetry_row) :
  (∀ st, st ∈ staging_telemetry → is_Some (st_sample_timestamp st)) →
  NoDup (staged_sample <$> staging_telemetry) →
  NoDup (fp_procedure_key <$> fact_procedures wh) →
  NoDup (sample_key <$> fact_procedure_telemetry wh) →
  NoDup (sample_key <$> fact_procedure_telemetry
                          (insert_telemetry staging_telemetry wh).1).
Proof.
  intros Hts Hstaged Hfacts Hold.
  rewrite inserted_samples, fmap_app. apply NoDup_app. split_and!; [done| |].
  - intros k Hk (row & -> & Hrow)%list_elem_of_fmap.
    revert Hk. apply loaded_sample_is_skipped with staging_telemetry; [done|].
    apply elem_of_telemetry_select in Hrow as (st & fp & Hst & _ & _ & _ & ->).
    by apply Hts.
  - unfold telemetry_select. apply NoDup_query.
    + by apply NoDup_fmap_1 in Hstaged.
    + intros st Hst. apply NoDup_query.
      * apply NoDup_filter_bool. by apply NoDup_fmap_1 in Hfacts.
      * intros fp _. destruct (negb _); cbn; [apply NoDup_singleton|constructor].
      * intros fp1 fp2 row1 row2 [Hfp1 _]%elem_of_inner_join
               [Hfp2 _]%elem_of_inner_join Hr1 Hr2 Hk.
        destruct (negb (sql_exists (same_sample st fp1) _));
          [apply list_elem_of_singleton in Hr1 as ->|by apply elem_of_nil in Hr1].
        destruct (negb (sql_exists (same_sample st fp2) _));
          [apply list_elem_of_singleton in Hr2 as ->|by apply elem_of_nil in Hr2].
        injection Hk as Hkey.
        by apply (NoDup_key_inj fp_procedure_key (fact_procedures wh)).
    + intros st1 st2 row1 row2 Hst1 Hst2
             (fp1 & Hr1 & [Hfp1 Hon1]%elem_of_inner_join)%list_elem_of_bind
             (fp2 & Hr2 & [Hfp2 Hon2]%elem_of_inner_join)%list_elem_of_bind Hk.
      destruct (negb (sql_exists (same_sample st1 fp1) _));
        [apply list_elem_of_singleton in Hr1 as ->|by apply elem_of_nil in Hr1].
      destruct (negb (sql_exists (same_sample st2 fp2) _));
        [apply list_elem_of_singleton in Hr2 as ->|by apply elem_of_nil in Hr2].
      injection Hk as Hkey Htime.
      assert (fp1 = fp2) as ->
        by by apply (NoDup_key_inj fp_procedure_key (fact_procedures wh)).
      apply holds_eq in Hon1 as (id1 & Hid1 & Hfp).
      apply holds_eq in Hon2 as (id2 & Hid2 & Hfp').
      apply (NoDup_key_inj staged_sample staging_telemetry); try done.
      unfold staged_sample. rewrite Htime. f_equal. congruence.
Qed.

(** C7, amended. A record without a timestamp is rejected: the transform
    returns [None] for it and prints nothing, the record adds no row to the
    staged output, so its file gives fewer rows than it has records; the
    records of the same file, and of the whole batch, that the transform
    accepts are staged, exactly those, and the run goes on to return their
    number when the load succeeds.  Nothing counts the rejected record. *)
Theorem malformed_record_is_skipped
    (fromisoformat : string → option datetime)
    (get_redshift_connection : result unit)
    (copy_staging_telemetry : list flat_record → result (list staging_telemetry_row))
    (s3_prefix : string) (w : world)
    (file_key : string) (telemetry_data : pyval) (d : gmap string pyval) :
  file_key ∈ files_of_run w s3_prefix →
  (get_object file_key w).1 = Ok telemetry_data →
  PDict d ∈ records_of telemetry_data →
  d !! "timestamp" = None →
  let after :=
    process_telemetry_files fromisoformat get_redshift_connection
                            copy_staging_telemetry s3_prefix w in
  transform_telemetry_record fromisoformat (PDict d) = None
  ∧ transform_log fromisoformat (PDict d) = []
  ∧ (length (accepted_from fromisoformat w file_key)
     < length (records_of telemetry_data))%nat
  ∧ ∃ staged : list flat_record,
      staging_bucket after.2
      = staging_bucket w ++ match staged with [] => [] | _ => [staged] end
      ∧ (∀ sibling t,
           sibling ∈ records_of telemetry_data →
           transform_telemetry_record fromisoformat sibling = Some t →
           t ∈ staged)
      ∧ (∀ t, t ∈ staged ↔
           ∃ k data record,
             k ∈ files_of_run w s3_prefix
             ∧ (get_object k w).1 = Ok data
             ∧ record ∈ records_of data
             ∧ transform_telemetry_record fromisoformat record = Some t)
      ∧ (∀ rows, get_redshift_connection = Ok () →
           copy_staging_telemetry staged = Ok rows →
           after.1 = Ok (Z.of_nat (length staged))).
Proof.
  intros Hfile Hget Hin Hts after.
  destruct (transform_rejects fromisoformat d) as [Hnone Hlog].
  { by rewrite Hts. }
  split_and!; try done.
  { unfold accepted_from. rewrite Hget. by apply omap_length_lt with (PDict d). }
  exists (files_of_run w s3_prefix ≫= accepted_from fromisoformat w).
  destruct (run_spec fromisoformat get_redshift_connection
                     copy_staging_telemetry s3_prefix w)
    as (_ & Hstage & _).
  assert (Hstaged : ∀ t,
            t ∈ files_of_run w s3_prefix ≫= accepted_from fromisoformat w ↔
            ∃ k data record,
              k ∈ files_of_run w s3_prefix
              ∧ (get_object k w).1 = Ok data
              ∧ record ∈ records_of data
              ∧ transform_telemetry_record fromisoformat record = Some t).
  { intros t. rewrite list_elem_of_bind. unfold accepted_from. split.
    - intros (k & Ht & Hk). exists k.
      destruct (get_object k w).1 as [data|e] eqn:Hdata.
      + apply list_elem_of_omap in Ht as (record & Hrec & Htr). eauto 10.
      + by apply elem_of_nil in Ht.
    - intros (k & data & record & Hk & Hdata & Hrec & Htr).
      exists k. split; [|done]. rewrite Hdata.
      apply list_elem_of_omap. eauto. }
  split_and!.
  - exact Hstage.
  - intros sibling t Hsibling Ht. apply Hstaged. eauto 10.
  - exact Hstaged.
  - intros rows Hconn Hcopy. eapply run_result; eauto.
Qed.

(** The mixed file of the examples: the sample without timestamp is
    rejected and the other sample is the one staged row. *)
Lemma malformed_record_is_skipped_witness :
  "telemetry/2024/a.json"
    ∈ files_of_run (TelemetryExamples.world_of TelemetryExamples.bucket_mixed)
                   "telemetry/"
  ∧ transform_telemetry_record Iso.parse TelemetryExamples.sample_no_timestamp = None
  ∧ ∃ staged : list flat_record,
      staging_bucket (TelemetryExamples.run_on TelemetryExamples.bucket_mixed).2
      = [staged]
      ∧ length staged = 1%nat.
Proof.
  assert (Hfile : "telemetry/2024/a.json"
                  ∈ files_of_run (TelemetryExamples.world_of
                                    TelemetryExamples.bucket_mixed) "telemetry/").
  { vm_compute. apply list_elem_of_here. }
  split; [exact Hfile|].
  destruct (malformed_record_is_skipped Iso.parse (Ok ()) TelemetryExamples.copy_rows
              "telemetry/" (TelemetryExamples.world_of TelemetryExamples.bucket_mixed)
              "telemetry/2024/a.json"
              (PList [TelemetryExamples.sample_full;
                      TelemetryExamples.sample_no_timestamp])
              (<["procedure_id" := PStr "PROC-0001"]>
                 (<["tool_active" := PBool true]> ∅))
              Hfile)
    as (Hnone & _ & _ & staged & Hstage & _ & _ & Hres).
  - vm_compute. reflexivity.
  - simpl. apply list_elem_of_further, list_elem_of_here.
  - vm_compute. reflexivity.
  - split; [exact Hnone|].
    exists [{| procedure_id := PStr "PROC-0001";
               timestamp_key := 143700;
               sample_timestamp := PStr "2024-03-05T14:37:09Z";
               arm_position_x := PFloat 125 (-1);
               arm_position_y := PInt 3;
               arm_position_z := PFloat (-42) (-1);
               arm_rotation_x := PNone; arm_rotation_y := PNone;
               arm_rotation_z := PNone;
               force_feedback := PNone; tool_type := PStr "scalpel";
               tool_active := "true";
               camera_zoom := PNone; lighting_level := PNone;
               system_temperature := PNone; motor_current := PNone;
               network_latency_ms := PNone; video_fps := PInt 60 |}].
    split; vm_compute; reflexivity.
Defined.

(** C7, as stated, fails: the file with the rejected record and the file
    without it give the same invocation result, the same staged object,
    the same warehouse, the same downloads and the same printed lines, so
    nothing the run produces has counted the rejection. *)
Lemma rejected_record_is_not_counted :
  transform_telemetry_record Iso.parse TelemetryExamples.sample_no_timestamp = None
  ∧ (TelemetryExamples.invoke_on TelemetryExamples.bucket_mixed).1
    = (TelemetryExamples.invoke_on TelemetryExamples.bucket_clean).1
  ∧ staging_bucket (TelemetryExamples.invoke_on TelemetryExamples.bucket_mixed).2
    = staging_bucket (TelemetryExamples.invoke_on TelemetryExamples.bucket_clean).2
  ∧ warehouse (TelemetryExamples.invoke_on TelemetryExamples.bucket_mixed).2
    = warehouse (TelemetryExamples.invoke_on TelemetryExamples.bucket_clean).2
  ∧ get_calls (TelemetryExamples.invoke_on TelemetryExamples.bucket_mixed).2
    = get_calls (TelemetryExamples.invoke_on TelemetryExamples.bucket_clean).2
  ∧ printed (TelemetryExamples.invoke_on TelemetryExamples.bucket_mixed).2
    = printed (TelemetryExamples.invoke_on TelemetryExamples.bucket_clean).2.
Proof. vm_compute. repeat split. Qed.

(** C9. Whatever the bucket holds, the listing returns at most 1000
    objects, and a run downloads the first hundred [.json] keys of that
    listing and no other: at most 100 files are read, and only their
    records are transformed and staged. *)
Theorem at_most_100_files
    (fromisoformat : string → option datetime)
    (get_redshift_connection : result unit)
    (copy_staging_telemetry : list flat_record → result (list staging_telemetry_row))
    (s3_prefix : string) (w : world) :
  let listing := list_objects_v2 (raw_bucket w) s3_prefix 1000 in
  let after :=
    process_telemetry_files fromisoformat get_redshift_connection
                            copy_staging_telemetry s3_prefix w in
  (length listing ≤ 1000)%nat
  ∧ ∃ reads : list string,
      get_calls after.2 = get_calls w ++ reads
      ∧ reads = take 100 (json_files listing)
      ∧ (length reads ≤ 100)%nat
      ∧ ∃ staged : list flat_record,
          staging_bucket after.2
          = staging_bucket w ++ match staged with [] => [] | _ => [staged] end
          ∧ staged = reads ≫= accepted_from fromisoformat w.
Proof.
  intros listing after. split.
  - unfold listing, list_objects_v2. rewrite length_take. lia.
  - destruct (run_spec fromisoformat get_redshift_connection
                       copy_staging_telemetry s3_prefix w)
      as (Hcalls & Hstage & _).
    exists (files_of_run w s3_prefix). split_and!; try done.
    + unfold files_of_run. rewrite length_take. lia.
    + eauto.
Qed.

(** C10. For every record the transform accepts, [tool_active] is the
    string 'true' when the input's [tool_active] is truthy and the string
    'false' otherwise; an absent [tool_active] gives 'false', while every
    other optional field that is absent, scalar or inside a group, gives
    [None]. *)
Theorem transform_tool_active
    (fromisoformat : string → option datetime) (record : pyval) (t : flat_record) :
  transform_telemetry_record fromisoformat record = Some t →
  ∃ d : gmap string pyval,
    record = PDict d
    ∧ tool_active t
      = (if truthy (default PNone (d !! "tool_active")) then "true" else "false")
    ∧ (d !! "tool_active" = None → tool_active t = "false")
    ∧ (d !! "force_feedback" = None → force_feedback t = PNone)
    ∧ (d !! "tool_type" = None → tool_type t = PNone)
    ∧ (d !! "camera_zoom" = None → camera_zoom t = PNone)
    ∧ (d !! "lighting_level" = None → lighting_level t = PNone)
    ∧ (absent d "arm_position" "x" → arm_position_x t = PNone)
    ∧ (absent d "arm_position" "y" → arm_position_y t = PNone)
    ∧ (absent d "arm_position" "z" → arm_position_z t = PNone)
    ∧ (absent d "arm_rotation" "x" → arm_rotation_x t = PNone)
    ∧ (absent d "arm_rotation" "y" → arm_rotation_y t = PNone)
    ∧ (absent d "arm_rotation" "z" → arm_rotation_z t = PNone)
    ∧ (absent d "system_metrics" "temperature" → system_temperature t = PNone)
    ∧ (absent d "system_metrics" "motor_current" → motor_current t = PNone)
    ∧ (absent d "system_metrics" "network_latency_ms" → network_latency_ms t = PNone)
    ∧ (absent d "system_metrics" "video_fps" → video_fps t = PNone).
Proof.
  intros H.
  destruct (transform_accepts _ _ _ H)
    as (d & s & ts_obj & -> & _ & _ & _ & _ & _ & Hta & Hscalar & Hnested).
  destruct Hscalar as (_ & Hff & Htt & Hcz & Hll).
  destruct Hnested as (Hpx & Hpy & Hpz & Hrx & Hry & Hrz & Hst & Hmc & Hnl & Hvf).
  exists d. split_and!; try done; try (intros Habs; eauto using nested_absent).
  - by rewrite Hta, Habs.
  - by rewrite Hff, Habs.
  - by rewrite Htt, Habs.
  - by rewrite Hcz, Habs.
  - by rewrite Hll, Habs.
Qed.

(** The bare sample of the examples: no [tool_active], no group. *)
Lemma transform_tool_active_witness :
  transform_telemetry_record Iso.parse TelemetryExamples.sample_bare
  = Some TelemetryExamples.flat_bare
  ∧ ∃ d : gmap string pyval,
      TelemetryExamples.sample_bare = PDict d
      ∧ (d !! "tool_active" = None →
         tool_active TelemetryExamples.flat_bare = "false")
      ∧ (absent d "arm_position" "x" →
         arm_position_x TelemetryExamples.flat_bare = PNone).
Proof.
  assert (H : transform_telemetry_record Iso.parse TelemetryExamples.sample_bare
              = Some TelemetryExamples.flat_bare).
  { vm_compute. reflexivity. }
  split; [exact H|].
  destruct (transform_tool_active Iso.parse _ _ H)
    as (d & Hd & _ & Hta & _ & _ & _ & _ & Hpx & _).
  exists d. split_and!; assumption.
Defined.

(** A bucket of 120 files: 100 downloads, 100 records staged. *)
Example cap_on_120_files :
  length (get_calls (TelemetryExamples.run_on (TelemetryExamples.bucket_of_size 120)).2)
  = 100%nat
  ∧ (TelemetryExamples.run_on (TelemetryExamples.bucket_of_size 120)).1 = Ok 100%Z.
Proof. vm_compute. split; reflexivity. Qed.

End S3TelemetryFacts.

(** * Properties of the dimension merges *)

Module RdsEtlFacts.

Import Sql ListFacts SqlFacts Warehouse RdsEtl.

(** ** The surgeon merge *)

Section Surgeons.

Variable CURRENT_DATE : date.
Variable staging_surgeons : list staging_surgeon.

(** The ON clause of the lookup of a staged surgeon selects the current
    rows of its natural key. *)
Lemma surgeon_lookup (s : staging_surgeon) (id : string) (dim : list dim_surgeon_row) :
  s_surgeon_id s = Some id →
  List.filter
    (λ d, holds (sql_and (sql_eq (s_surgeon_id s) (sg_surgeon_id d))
                         (Some (sg_is_current d)))) dim
  = current_surgeons id dim.
Proof.
  intros ->. unfold current_surgeons. apply filter_ext. intros d.
  rewrite holds_and, holds_eq_some, holds_some. apply andb_comm.
Qed.

(** A row of the updated table is a row of the table, closed or not. *)
Lemma elem_of_update (dim : list dim_surgeon_row) (d' : dim_surgeon_row) :
  d' ∈ update_surgeons CURRENT_DATE staging_surgeons dim ↔
  ∃ d, d ∈ dim ∧ d' = if holds (surgeon_changed staging_surgeons d) then expire_surgeon CURRENT_DATE d else d.
Proof.
  unfold update_surgeons. rewrite list_elem_of_fmap.
  split; intros (d & H1 & H2); eauto.
Qed.

(** Only current rows are closed. *)
Lemma changed_is_current (d : dim_surgeon_row) :
  holds (surgeon_changed staging_surgeons d) = true → sg_is_current d = true.
Proof.
  unfold surgeon_changed. rewrite holds_and, holds_some. by intros [? _]%andb_true_iff.
Qed.

(** After the UPDATE, the current rows of a key are those the UPDATE did
    not close. *)
Lemma current_after_update (id : string) (dim : list dim_surgeon_row) :
  current_surgeons id (update_surgeons CURRENT_DATE staging_surgeons dim)
  = List.filter (λ d, negb (holds (surgeon_changed staging_surgeons d))) (current_surgeons id dim).
Proof.
  unfold current_surgeons, update_surgeons.
  apply (filter_update (λ d, sg_is_current d && bool_decide (sg_surgeon_id d = Some id))
                       (λ d, holds (surgeon_changed staging_surgeons d))).
  done.
Qed.


(** The rows the INSERT selects: staged rows, one copy for every row of
    their lookup that is NULL or differs in name or specialization. *)
Lemma elem_of_select (dim : list dim_surgeon_row) (s : staging_surgeon) :
  s ∈ select_surgeons staging_surgeons dim ↔
  s ∈ staging_surgeons
  ∧ ∃ d, d ∈ left_join (λ d, sql_and (sql_eq (s_surgeon_id s) (sg_surgeon_id d))
                                      (Some (sg_is_current d))) dim
         ∧ holds (surgeon_new_or_changed s d) = true.
Proof.
  unfold select_surgeons. rewrite list_elem_of_bind. split.
  - intros (s' & Hin & Hs'). apply list_elem_of_bind in Hin as (d & Hin & Hd).
    destruct (holds (surgeon_new_or_changed s' d)) eqn:Hh.
    + apply list_elem_of_singleton in Hin as ->. eauto.
    + by apply elem_of_nil in Hin.
  - intros (Hs & d & Hd & Hh). exists s. split; [|done].
    apply list_elem_of_bind. exists d. split; [|done].
    rewrite Hh. apply list_elem_of_here.
Qed.



(** A row inserted from the batch is never closed by the UPDATE of the
    same batch: its own name and specialization are staged. *)
Lemma inserted_row_stays_open (key : Z) (s : staging_surgeon) :
  s ∈ staging_surgeons →
  holds (surgeon_changed staging_surgeons (new_surgeon key s)) = false.
Proof.
  intros Hs. apply not_true_iff_false. unfold surgeon_changed.
  rewrite !holds_and, !andb_true_iff, holds_not, sql_in2_false.
  intros (_ & _ & Hall).
  apply (sql_eq2_refl (s_surgeon_name s, s_specialization s)).
  apply (Hall (s_surgeon_name s, s_specialization s)).
  apply list_elem_of_fmap. by exists s.
Qed.

(** The UPDATE of a batch changes nothing in the table the merge of that
    batch has produced, whatever the day. *)
Lemma update_after_merge (again : date) (dim : list dim_surgeon_row) :
  update_surgeons again staging_surgeons
    (merge_surgeons CURRENT_DATE staging_surgeons dim).1
  = (merge_surgeons CURRENT_DATE staging_surgeons dim).1.
Proof.
  unfold update_surgeons at 1. apply fmap_fixed. intros m Hm.
  replace (holds (surgeon_changed staging_surgeons m)) with false; [done|].
  symmetry. unfold merge_surgeons in Hm. cbn [fst] in Hm.
  apply elem_of_app in Hm as [Hm|Hm].
  - apply elem_of_update in Hm as (d & Hd & ->).
    destruct (holds (surgeon_changed staging_surgeons d)) eqn:Hch; [|done].
    apply not_true_iff_false. by intros Hcur%changed_is_current.
  - apply with_keys_source in Hm as (key & s & Hs & ->).
    apply inserted_row_stays_open. by apply elem_of_select in Hs as [Hs _].
Qed.

(** The ON clause of the lookup of a staged surgeon. *)
Lemma surgeon_lookup_holds (s : staging_surgeon) (d : dim_surgeon_row) :
  holds (sql_and (sql_eq (s_surgeon_id s) (sg_surgeon_id d))
                 (Some (sg_is_current d))) = true ↔
  sg_is_current d = true
  ∧ ∃ id, s_surgeon_id s = Some id ∧ sg_surgeon_id d = Some id.
Proof. rewrite holds_and, andb_true_iff, holds_some, holds_eq. tauto. Qed.

(** Merging a batch a second time changes nothing, provided the batch
    names every surgeon, once, and the first UPDATE has closed every
    current row that differs, in name or specialization, from the staged
    row of its key.  The NOT IN of the UPDATE, which looks at the whole
    staging table, does not ensure the last condition. *)
Lemma surgeon_merge_again (again : date) (dim : list dim_surgeon_row) :
  (∀ s, s ∈ staging_surgeons → is_Some (s_surgeon_id s)) →
  NoDup (s_surgeon_id <$> staging_surgeons) →
  (∀ d s, d ∈ dim → s ∈ staging_surgeons →
          sg_is_current d = true →
          (∃ id, s_surgeon_id s = Some id ∧ sg_surgeon_id d = Some id) →
          sql_ne2 (sg_surgeon_name d, sg_specialization d)
                  (s_surgeon_name s, s_specialization s) = Some true →
          holds (surgeon_changed staging_surgeons d) = true) →
  merge_surgeons again staging_surgeons
                 (merge_surgeons CURRENT_DATE staging_surgeons dim).1
  = ((merge_surgeons CURRENT_DATE staging_surgeons dim).1, 0%Z).
Proof.
  intros Hids Hnd Hclosed.
  unfold merge_surgeons at 1. rewrite update_after_merge.
  set (merged := (merge_surgeons CURRENT_DATE staging_surgeons dim).1).
  set (updated := update_surgeons CURRENT_DATE staging_surgeons dim).
  assert (Hmerged : ∀ m, m ∈ merged →
            m ∈ updated
            ∨ ∃ key s', s' ∈ select_surgeons staging_surgeons updated
                        ∧ m = new_surgeon key s').
  { intros m. unfold merged, merge_surgeons. cbn [fst]. fold updated.
    rewrite elem_of_app. intros [Hm|Hm]; [by left|right].
    by apply with_keys_source in Hm. }
  assert (Hkept : ∀ m, m ∈ updated → m ∈ merged).
  { intros m Hm. unfold merged, merge_surgeons. cbn [fst]. fold updated.
    apply elem_of_app. by left. }
  assert (Hinserted : ∀ s', s' ∈ select_surgeons staging_surgeons updated →
            ∃ key, new_surgeon key s' ∈ merged).
  { intros s' Hs'. unfold merged, merge_surgeons. cbn [fst]. fold updated.
    destruct (with_keys_elem new_surgeon
                (max_key (sg_surgeon_key <$> updated) + 1)%Z _ s' Hs') as [key Hkey].
    exists key. apply elem_of_app. by right. }
  replace (select_surgeons staging_surgeons merged) with (@nil staging_surgeon).
  { cbn. by rewrite app_nil_r. }
  symmetry.
  destruct (select_surgeons staging_surgeons merged) as [|s ss] eqn:Hsel; [done|].
  exfalso.
  assert (Hs : s ∈ select_surgeons staging_surgeons merged)
    by (rewrite Hsel; apply list_elem_of_here).
  apply elem_of_select in Hs as (Hs & found & Hfound & Hnew).
  destruct (Hids s Hs) as [id Hid].
  destruct found as [r|].
  - apply left_join_some in Hfound as [Hr Hon].
    apply surgeon_lookup_holds in Hon as (Hcur & id' & Hsid & Hrid).
    unfold surgeon_new_or_changed in Hnew. rewrite holds_or in Hnew. cbn in Hnew.
    assert (Hne : sql_ne2 (sg_surgeon_name r, sg_specialization r)
                          (s_surgeon_name s, s_specialization s) = Some true).
    { destruct (sql_ne2 _ _) as [[]|]; done. }
    destruct (Hmerged r Hr) as [Hu|(key & s' & Hs' & ->)].
    + apply elem_of_update in Hu as (d & Hd & ->).
      destruct (holds (surgeon_changed staging_surgeons d)) eqn:Hch; [done|].
      rewrite (Hclosed d s) in Hch; eauto. discriminate.
    + apply elem_of_select in Hs' as [Hs' _].
      assert (s' = s) as ->.
      { apply (NoDup_key_inj s_surgeon_id staging_surgeons);
          try done. cbn in Hrid. congruence. }
      cbn in Hne. unfold sql_ne2 in Hne.
      pose proof (sql_eq2_refl (s_surgeon_name s, s_specialization s)) as Hrefl.
      destruct (sql_eq2 _ _) as [[]|]; done.
  - pose proof (proj1 (left_join_none _ merged) Hfound) as Hno. cbn beta in Hno.
    destruct (left_join (λ d, sql_and (sql_eq (s_surgeon_id s) (sg_surgeon_id d))
                                      (Some (sg_is_current d))) updated)
      as [|[r|] ds] eqn:Hjoin.
    + by apply left_join_not_nil in Hjoin.
    + assert (Hr : Some r ∈ left_join
                     (λ d, sql_and (sql_eq (s_surgeon_id s) (sg_surgeon_id d))
                                   (Some (sg_is_current d))) updated)
        by (rewrite Hjoin; apply list_elem_of_here).
      apply left_join_some in Hr as [Hr Hon].
      rewrite (Hno r (Hkept r Hr)) in Hon. discriminate.
    + destruct (Hinserted s) as [key Hkey].
      { apply elem_of_select. split; [done|]. exists None. split; [|done].
        rewrite Hjoin. apply list_elem_of_here. }
      specialize (Hno _ Hkey).
      apply not_true_iff_false in Hno. apply Hno, surgeon_lookup_holds.
      cbn. eauto.
Qed.

Section OneKey.

(** One natural key with one staged row [s] and one current row [d],
    both with a name and a specialization. *)
Variable dim : list dim_surgeon_row.
Variable id : string.
Variable s : staging_surgeon.
Variable d : dim_surgeon_row.
Variables name spec name' spec' : string.

Hypothesis one_staged : staged_surgeons id staging_surgeons = [s].
Hypothesis one_current : current_surgeons id dim = [d].
Hypothesis staged_name : s_surgeon_name s = Some name.
Hypothesis staged_spec : s_specialization s = Some spec.
Hypothesis current_name : sg_surgeon_name d = Some name'.
Hypothesis current_spec : sg_specialization d = Some spec'.







End OneKey.

End Surgeons.

(** A lookup by natural key finds at most one current row when no key
    has two. *)
Lemma lookup_at_most_one {R} (key : R → option string) (cur : R → bool)
    (x : option string) (t : list R) :
  (∀ id, (length (List.filter (λ r, cur r && bool_decide (key r = Some id)) t) ≤ 1)%nat) →
  (length (List.filter (λ r, holds (sql_and (sql_eq x (key r)) (Some (cur r)))) t)
   ≤ 1)%nat.
Proof.
  intros Hone. destruct x as [id|].
  - erewrite filter_ext; [apply (Hone id)|].
    intros r. cbn beta. rewrite holds_and, holds_eq_some, holds_some. apply andb_comm.
  - rewrite filter_none; [cbn; lia|]. intros r _. by rewrite holds_and.
Qed.

(** ** The robot merge *)

Section Robots.

Variable CURRENT_DATE : date.
Variable staging_robots : list staging_robot.
Variable facilities : list dim_facility_row.

(** A current row is closed exactly when its robot is staged. *)
Lemma robot_staged_holds (d : dim_robot_row) :
  holds (robot_staged staging_robots d) = true ↔
  r_is_current d = true
  ∧ ∃ id, r_robot_id d = Some id ∧ Some id ∈ s_robot_id <$> staging_robots.
Proof.
  unfold robot_staged. by rewrite holds_and, andb_true_iff, holds_some, holds_in.
Qed.

Lemma current_robots_after_update (id : string) (dim : list dim_robot_row) :
  current_robots id (update_robots CURRENT_DATE staging_robots dim)
  = List.filter (λ d, negb (holds (robot_staged staging_robots d)))
                (current_robots id dim).
Proof.
  unfold current_robots, update_robots.
  by apply (filter_update (λ d, r_is_current d && bool_decide (r_robot_id d = Some id))
                          (λ d, holds (robot_staged staging_robots d))).
Qed.

(** The UPDATE keeps the natural keys of the table. *)
Lemma robot_ids_after_update (dim : list dim_robot_row) :
  r_robot_id <$> update_robots CURRENT_DATE staging_robots dim = r_robot_id <$> dim.
Proof.
  unfold update_robots. rewrite <- list_fmap_compose. apply list_fmap_ext.
  intros i d _. cbn. by destruct (holds _).
Qed.

(** The rows the INSERT selects for a natural key: one for every row of
    the facility lookup of every staged row of the key. *)
Lemma selected_robots (id : string) :
  List.filter (λ sf : staging_robot * option dim_facility_row,
                 bool_decide (s_robot_id sf.1 = Some id))
              (select_robots staging_robots facilities)
  = staged_robots id staging_robots
    ≫= (λ s, f ← left_join (λ f, sql_and (sql_eq (s_facility_id s) (f_facility_id f))
                                         (Some (f_is_current f))) facilities;
             [(s, f)]).
Proof.
  unfold select_robots, staged_robots.
  apply (filter_bind (λ s, bool_decide (s_robot_id s = Some id))).
  intros s sf (f & Hsf & _)%list_elem_of_bind.
  by apply list_elem_of_singleton in Hsf as ->.
Qed.

(** The current rows of a natural key after the merge: none of the old
    ones when the key is staged, and the inserted ones. *)
Lemma current_robots_after_merge (id : string) (dim : list dim_robot_row) :
  length (current_robots id (merge_robots CURRENT_DATE staging_robots facilities dim).1)
  = (length (List.filter (λ d, negb (holds (robot_staged staging_robots d)))
                         (current_robots id dim))
     + length (List.filter (λ sf : staging_robot * option dim_facility_row,
                              bool_decide (s_robot_id sf.1 = Some id))
                           (select_robots staging_robots facilities)))%nat.
Proof.
  unfold merge_robots. cbn [fst]. unfold current_robots at 1.
  rewrite List.filter_app, length_app.
  fold (current_robots id (update_robots CURRENT_DATE staging_robots dim)).
  rewrite current_robots_after_update. f_equal.
  apply with_keys_filter_length. by intros k [s f].
Qed.

(** The robot merge keeps the invariant of the dimension when the batch
    holds each robot once and no facility has two current rows. *)
Lemma robot_merge_keeps_invariant (dim : list dim_robot_row) :
  NoDup (s_robot_id <$> staging_robots) →
  facilities_unambiguous facilities →
  robots_invariant dim →
  robots_invariant (merge_robots CURRENT_DATE staging_robots facilities dim).1.
Proof.
  intros Hstaged Hfac Hinv id Hid.
  rewrite current_robots_after_merge, selected_robots.
  destruct (decide (Some id ∈ s_robot_id <$> staging_robots)) as [Hin|Hnotin].
  - rewrite filter_none.
    + destruct (filter_unique_key s_robot_id staging_robots (Some id) Hstaged Hin)
        as [s Hs].
      unfold staged_robots. rewrite Hs, bind_singleton.
      destruct (length_one _ (left_join_one _ _
                  (lookup_at_most_one f_facility_id f_is_current
                     (s_facility_id s) _ Hfac))) as [f ->].
      done.
    + intros d [_ [Hcur Hdid]%andb_true_iff]%elem_of_filter_bool.
      apply bool_decide_eq_true in Hdid.
      apply negb_false_iff, robot_staged_holds. eauto.
  - rewrite filter_all.
    + unfold staged_robots. rewrite filter_none; cbn.
      * rewrite Nat.add_0_r. apply Hinv.
        unfold merge_robots in Hid. cbn [fst] in Hid.
        rewrite fmap_app, elem_of_app, robot_ids_after_update in Hid.
        destruct Hid as [Hid|Hid]; [done|].
        destruct Hnotin.
        apply list_elem_of_fmap in Hid as (row & Hrow & Hsrc).
        apply with_keys_source in Hsrc as (key & [s f] & Hsf & ->). cbn in Hrow.
        apply list_elem_of_bind in Hsf as (s' & (f' & Hsf & _)%list_elem_of_bind & Hs').
        apply list_elem_of_singleton in Hsf as [= -> ->].
        apply list_elem_of_fmap. eauto.
      * intros s Hs. apply bool_decide_eq_false. intros Hsid. apply Hnotin.
        apply list_elem_of_fmap. eauto.
    + intros d [_ [Hcur Hdid]%andb_true_iff]%elem_of_filter_bool.
      apply bool_decide_eq_true in Hdid.
      apply negb_true_iff, not_true_iff_false.
      intros (_ & id' & Hid' & Hin')%robot_staged_holds.
      apply Hnotin. congruence.
Qed.

End Robots.

(** ** The procedure facts *)

Section Facts.

Variable wh : Warehouse.state.

(** A resolved row of a staged procedure: the procedure is not loaded
    yet, and each lookup row comes from its LEFT JOIN. *)
Lemma elem_of_resolve (s : staging_procedure) (x : resolved) :
  x ∈ resolve wh s ↔
  already_loaded (fact_procedures wh) s = false
  ∧ staged x = s
  ∧ robot x ∈ left_join (λ r, sql_and (sql_eq (sp_robot_id s) (r_robot_id r))
                                      (Some (r_is_current r))) (dim_robots wh)
  ∧ surgeon x ∈ left_join (λ sg, sql_and (sql_eq (sp_surgeon_id s) (sg_surgeon_id sg))
                                         (Some (sg_is_current sg))) (dim_surgeons wh)
  ∧ facility x ∈ left_join (λ f, sql_and (sql_eq (sp_facility_id s) (f_facility_id f))
                                         (Some (f_is_current f))) (dim_facilities wh).
Proof.
  unfold resolve. split.
  - intros (r & (sg & (f & Hx & Hf)%list_elem_of_bind & Hsg)%list_elem_of_bind & Hr)
           %list_elem_of_bind.
    destruct (already_loaded (fact_procedures wh) s); cbn in Hx.
    + by apply elem_of_nil in Hx.
    + by apply list_elem_of_singleton in Hx as ->.
  - intros (Hnew & <- & Hr & Hsg & Hf).
    apply list_elem_of_bind. exists (robot x). split; [|done].
    apply list_elem_of_bind. exists (surgeon x). split; [|done].
    apply list_elem_of_bind. exists (facility x). split; [|done].
    rewrite Hnew. cbn. destruct x. apply list_elem_of_here.
Qed.

Lemma elem_of_select_facts (staging_procedures : list staging_procedure) (x : resolved) :
  x ∈ select_facts staging_procedures wh ↔
  staged x ∈ staging_procedures ∧ x ∈ resolve wh (staged x).
Proof.
  unfold select_facts. rewrite list_elem_of_bind. split.
  - intros (s & Hx & Hs).
    assert (staged x = s) as <- by by apply elem_of_resolve in Hx as (_ & ? & _).
    done.
  - intros [Hs Hx]. eauto.
Qed.

(** A procedure that is not loaded yet contributes at least one row. *)
Lemma resolve_not_nil (s : staging_procedure) :
  already_loaded (fact_procedures wh) s = false → resolve wh s ≠ [].
Proof.
  intros Hnew Hnil.
  destruct (left_join (λ r, sql_and (sql_eq (sp_robot_id s) (r_robot_id r))
                                    (Some (r_is_current r))) (dim_robots wh))
    as [|r rs] eqn:Hr; [by apply left_join_not_nil in Hr|].
  destruct (left_join (λ sg, sql_and (sql_eq (sp_surgeon_id s) (sg_surgeon_id sg))
                                     (Some (sg_is_current sg))) (dim_surgeons wh))
    as [|sg sgs] eqn:Hsg; [by apply left_join_not_nil in Hsg|].
  destruct (left_join (λ f, sql_and (sql_eq (sp_facility_id s) (f_facility_id f))
                                    (Some (f_is_current f))) (dim_facilities wh))
    as [|f fs] eqn:Hf; [by apply left_join_not_nil in Hf|].
  assert (Hin : {| staged := s; robot := r; surgeon := sg; facility := f |}
                ∈ resolve wh s).
  { apply elem_of_resolve. cbn. rewrite Hr, Hsg, Hf.
    split_and!; try done; apply list_elem_of_here. }
  rewrite Hnil in Hin. by apply elem_of_nil in Hin.
Qed.

(** The test of the NOT EXISTS, on a staged row that names its
    procedure. *)
Lemma already_loaded_true (s : staging_procedure) (id : string) :
  sp_procedure_id s = Some id →
  already_loaded (fact_procedures wh) s = true ↔
  Some id ∈ fp_procedure_id <$> fact_procedures wh.
Proof.
  intros Hid. unfold already_loaded. rewrite sql_exists_true, list_elem_of_fmap.
  split.
  - intros (fp & Hfp & (a & Ha & Hs)%holds_eq). exists fp. split; [|done]. congruence.
  - intros (fp & Hfp & Hin). exists fp. split; [done|].
    apply holds_eq. exists id. by rewrite Hid.
Qed.

(** The natural keys of the table after the INSERT. *)
Lemma inserted_ids (staging_procedures : list staging_procedure) :
  fp_procedure_id <$> (insert_facts staging_procedures wh).1
  = (fp_procedure_id <$> fact_procedures wh)
    ++ ((sp_procedure_id ∘ staged) <$> select_facts staging_procedures wh).
Proof.
  unfold insert_facts. cbn [fst]. rewrite fmap_app. f_equal.
  by apply with_keys_fmap.
Qed.

(** C3 for the procedure facts, first part: a staged row whose
    procedure is in the fact table is not inserted. *)
Lemma loaded_procedure_is_skipped (staging_procedures : list staging_procedure)
    (x : resolved) (id : string) :
  x ∈ select_facts staging_procedures wh →
  sp_procedure_id (staged x) = Some id →
  Some id ∉ fp_procedure_id <$> fact_procedures wh.
Proof.
  intros [_ (Hnew & _)%elem_of_resolve]%elem_of_select_facts Hid Hin.
  apply (already_loaded_true _ _ Hid) in Hin. congruence.
Qed.

(** After the INSERT every staged procedure that has a name is in the
    fact table. *)
Lemma staged_procedure_is_loaded (staging_procedures : list staging_procedure)
    (s : staging_procedure) (id : string) :
  s ∈ staging_procedures →
  sp_procedure_id s = Some id →
  Some id ∈ fp_procedure_id <$> (insert_facts staging_procedures wh).1.
Proof.
  intros Hs Hid. rewrite inserted_ids, elem_of_app.
  destruct (already_loaded (fact_procedures wh) s) eqn:Hloaded.
  - left. by apply (already_loaded_true s).
  - right. destruct (resolve wh s) as [|x xs] eqn:Hres.
    + by apply resolve_not_nil in Hres.
    + assert (Hx : x ∈ resolve wh s) by (rewrite Hres; apply list_elem_of_here).
      apply list_elem_of_fmap. exists x. split.
      * apply elem_of_resolve in Hx as (_ & Hst & _).
        unfold compose. by rewrite Hst, Hid.
      * unfold select_facts. apply list_elem_of_bind. eauto.
Qed.

End Facts.

(** Running the INSERT again on the same batch inserts nothing. *)
Lemma insert_facts_again (wh : Warehouse.state)
    (staging_procedures : list staging_procedure) :
  (∀ s, s ∈ staging_procedures → is_Some (sp_procedure_id s)) →
  let facts := (insert_facts staging_procedures wh).1 in
  insert_facts staging_procedures (with_fact_procedures facts wh) = (facts, 0%Z).
Proof.
  intros Hids facts.
  assert (Hnone : select_facts staging_procedures (with_fact_procedures facts wh) = []).
  { destruct (select_facts _ _) as [|x xs] eqn:Hsel; [done|].
    assert (Hx : x ∈ select_facts staging_procedures (with_fact_procedures facts wh))
      by (rewrite Hsel; apply list_elem_of_here).
    pose proof Hx as [Hs _]%elem_of_select_facts.
    destruct (Hids _ Hs) as [id Hid].
    destruct (loaded_procedure_is_skipped _ _ x id Hx Hid).
    cbn. by apply (staged_procedure_is_loaded wh staging_procedures (staged x)). }
  unfold insert_facts. rewrite Hnone. cbn. by rewrite app_nil_r.
Qed.

(** When no natural key of a dimension has two current rows, a staged
    procedure contributes at most one row. *)
Lemma resolve_at_most_one (wh : Warehouse.state) (s : staging_procedure) :
  robots_unambiguous (dim_robots wh) →
  surgeons_unambiguous (dim_surgeons wh) →
  facilities_unambiguous (dim_facilities wh) →
  (length (resolve wh s) ≤ 1)%nat.
Proof.
  intros Hr Hsg Hf. unfold resolve.
  destruct (length_one _ (left_join_one _ _
              (lookup_at_most_one r_robot_id r_is_current (sp_robot_id s) _ Hr)))
    as [r ->].
  destruct (length_one _ (left_join_one _ _
              (lookup_at_most_one sg_surgeon_id sg_is_current (sp_surgeon_id s) _ Hsg)))
    as [sg ->].
  destruct (length_one _ (left_join_one _ _
              (lookup_at_most_one f_facility_id f_is_current (sp_facility_id s) _ Hf)))
    as [f ->].
  rewrite !bind_singleton. destruct (negb _); cbn; lia.
Qed.

(** C3 for the procedure facts, second part: when the batch names every
    procedure once and no natural key of a dimension has two current rows,
    the INSERT keeps the procedure ids of the fact table distinct. *)
Lemma procedure_ids_stay_unique (wh : Warehouse.state)
    (staging_procedures : list staging_procedure) :
  (∀ s, s ∈ staging_procedures → is_Some (sp_procedure_id s)) →
  NoDup (sp_procedure_id <$> staging_procedures) →
  robots_unambiguous (dim_robots wh) →
  surgeons_unambiguous (dim_surgeons wh) →
  facilities_unambiguous (dim_facilities wh) →
  NoDup (fp_procedure_id <$> fact_procedures wh) →
  NoDup (fp_procedure_id <$> (insert_facts staging_procedures wh).1).
Proof.
  intros Hids Hstaged Hr Hsg Hf Hold. rewrite inserted_ids.
  apply NoDup_app. split_and!; [done| |].
  - intros k Hk (x & -> & Hx)%list_elem_of_fmap.
    pose proof Hx as [Hs _]%elem_of_select_facts.
    destruct (Hids _ Hs) as [id Hid]. unfold compose in Hk. rewrite Hid in Hk.
    by destruct (loaded_procedure_is_skipped wh _ x id Hx Hid).
  - unfold select_facts.
    apply (NoDup_bind_keys sp_procedure_id); [|  |done].
    + intros s. by apply resolve_at_most_one.
    + intros s x (_ & Hst & _)%elem_of_resolve. unfold compose. by rewrite Hst.
Qed.

(** What a LEFT JOIN on the natural key and the current flag finds. *)
Lemma left_join_resolves {R} (key : R → option string) (cur : R → bool)
    (natural : option string) (dim : list R) (found : option R) :
  found ∈ left_join (λ r, sql_and (sql_eq natural (key r)) (Some (cur r))) dim →
  resolves key cur natural dim found.
Proof.
  destruct found as [r|]; cbn.
  - intros [Hr Hon]%left_join_some.
    rewrite holds_and, andb_true_iff, holds_some, holds_eq in Hon.
    destruct Hon as [(id & Hn & Hk) Hcur]. eauto 10.
  - intros Hjoin r id Hr Hcur Hn Hk.
    pose proof (proj1 (left_join_none _ dim) Hjoin r Hr) as Hnone. cbn beta in Hnone. apply not_true_iff_false in Hnone. apply Hnone.
    rewrite holds_and, holds_some, Hcur, andb_true_r.
    apply holds_eq. eauto.
Qed.

(** Every resolved row of a staged procedure is inserted. *)
Lemma resolved_is_inserted (wh : Warehouse.state)
    (staging_procedures : list staging_procedure) (s : staging_procedure)
    (x : resolved) :
  s ∈ staging_procedures → x ∈ resolve wh s →
  ∃ key, new_fact key x ∈ (insert_facts staging_procedures wh).1.
Proof.
  intros Hs Hx.
  assert (Hsel : x ∈ select_facts staging_procedures wh).
  { unfold select_facts. apply list_elem_of_bind. eauto. }
  destruct (with_keys_elem new_fact
              (max_key (fp_procedure_key <$> fact_procedures wh) + 1)%Z _ x Hsel)
    as [key Hkey].
  exists key. unfold insert_facts. cbn [fst]. apply elem_of_app. by right.
Qed.

(** The rows of the procedure query. *)
Lemma elem_of_select_procedures (src : source) (start_date end_date : datetime)
    (row : staging_procedure) :
  row ∈ select_procedures src start_date end_date →
  ∃ p r o start_time,
    p ∈ surgical_procedures src
    ∧ p_start_time p = Some start_time
    ∧ (ts_ord start_date ≤ ts_ord start_time < ts_ord end_date)%Z
    ∧ row = procedure_row p r o.
Proof.
  unfold select_procedures.
  intros (p & (r & (o & Hrow & _)%list_elem_of_bind & _)%list_elem_of_bind & Hp)
         %list_elem_of_bind.
  destruct (holds _) eqn:Hwindow; [|by apply elem_of_nil in Hrow].
  apply list_elem_of_singleton in Hrow as ->.
  rewrite holds_and, andb_true_iff in Hwindow. destruct Hwindow as [Hge Hlt].
  destruct (p_start_time p) as [start_time|] eqn:Hstart; [|done].
  rewrite <- Hstart in Hge, Hlt.
  unfold ts_ge, ts_lt in Hge, Hlt. rewrite Hstart in Hge, Hlt.
  cbn [fmap option_fmap option_map] in Hge, Hlt. rewrite holds_some in Hge, Hlt.
  exists p, r, o, start_time. split_and!; try done; lia.
Qed.


Local Open Scope Z_scope.



(** C1 on the code: after day one the surgeon dimension satisfies the
    invariant; the merge of day two, where a surgeon has taken a new name
    and a colleague carries her former one, leaves her with two current
    rows. *)
Theorem rename_leaves_two_current_rows :
  surgeons_invariant RdsExamples.after_day_one
  ∧ length (current_surgeons "SURG-0001" RdsExamples.after_day_two) = 2%nat
  ∧ ¬ surgeons_invariant RdsExamples.after_day_two.
Proof.
  split_and!.
  - intros id Hid. cbn in Hid. apply list_elem_of_singleton in Hid.
    by injection Hid as ->.
  - reflexivity.
  - intros Hinv. specialize (Hinv "SURG-0001"). cbn in Hinv.
    discriminate Hinv. apply list_elem_of_here.
Qed.

(** C2 on the code: the batch that has just been merged is merged again.
    The robot merge closes the row it has inserted and inserts it anew;
    the surgeon merge of day two inserts one more current row. *)
Theorem second_application_adds_versions :
  (let again :=
     merge_robots 19800 RdsExamples.one_robot RdsExamples.facilities
                  RdsExamples.robots_loaded_once in
   again.2 = 1%Z
   ∧ length RdsExamples.robots_loaded_once = 1%nat
   ∧ again.1 = (expire_robot 19800 <$> RdsExamples.robots_loaded_once)
               ++ [new_robot 2 (RdsExamples.robot "ROB-001" "FAC-01" 12,
                                Some {| f_facility_key := 1;
                                        f_facility_id := Some "FAC-01";
                                        f_is_current := true |})])
  ∧ (let again :=
       merge_surgeons 19801 RdsExamples.day_two RdsExamples.after_day_two in
     again.2 = 1%Z
     ∧ length RdsExamples.after_day_two = 3%nat
     ∧ length again.1 = 4%nat).
Proof. repeat split. Qed.

End RdsEtlFacts.

(** * Properties that span both programs *)

Module PlatformFacts.

Import Sql SqlFacts Warehouse.



(** C3, amended. Both fact merges leave out every staged row whose
    natural key is already in the fact table, and merging a batch a second
    time inserts nothing.  The natural keys of the fact table stay distinct
    provided the batch itself holds each natural key once and each lookup
    can find one row only: no dimension key with two current rows for the
    procedure facts, no procedure key used twice for the telemetry facts. *)
Theorem fact_merges_skip_loaded_keys
    (wh : Warehouse.state)
    (staging_procedures : list RdsEtl.staging_procedure)
    (staging_telemetry : list S3Telemetry.staging_telemetry_row) :
  (∀ x id,
     x ∈ RdsEtl.select_facts staging_procedures wh →
     RdsEtl.sp_procedure_id (RdsEtl.staged x) = Some id →
     Some id ∉ fp_procedure_id <$> fact_procedures wh)
  ∧ ((∀ s, s ∈ staging_procedures → is_Some (RdsEtl.sp_procedure_id s)) →
     let facts := (RdsEtl.insert_facts staging_procedures wh).1 in
     RdsEtl.insert_facts staging_procedures (with_fact_procedures facts wh)
     = (facts, 0%Z))
  ∧ ((∀ s, s ∈ staging_procedures → is_Some (RdsEtl.sp_procedure_id s)) →
     NoDup (RdsEtl.sp_procedure_id <$> staging_procedures) →
     RdsEtl.robots_unambiguous (dim_robots wh) →
     RdsEtl.surgeons_unambiguous (dim_surgeons wh) →
     RdsEtl.facilities_unambiguous (dim_facilities wh) →
     NoDup (fp_procedure_id <$> fact_procedures wh) →
     NoDup (fp_procedure_id <$> (RdsEtl.insert_facts staging_procedures wh).1))
  ∧ (∀ row,
       row ∈ S3Telemetry.telemetry_select staging_telemetry wh →
       is_Some (fpt_sample_timestamp row) →
       S3Telemetry.sample_key row
       ∉ S3Telemetry.sample_key <$> fact_procedure_telemetry wh)
  ∧ ((∀ st, st ∈ staging_telemetry → is_Some (S3Telemetry.st_sample_timestamp st)) →
     let loaded := (S3Telemetry.insert_telemetry staging_telemetry wh).1 in
     S3Telemetry.insert_telemetry staging_telemetry loaded = (loaded, 0%Z))
  ∧ ((∀ st, st ∈ staging_telemetry → is_Some (S3Telemetry.st_sample_timestamp st)) →
     NoDup (S3Telemetry.staged_sample <$> staging_telemetry) →
     NoDup (fp_procedure_key <$> fact_procedures wh) →
     NoDup (S3Telemetry.sample_key <$> fact_procedure_telemetry wh) →
     NoDup (S3Telemetry.sample_key
              <$> fact_procedure_telemetry
                    (S3Telemetry.insert_telemetry staging_telemetry wh).1)).
Proof.
  split_and!.
  - intros x id. apply RdsEtlFacts.loaded_procedure_is_skipped.
  - apply RdsEtlFacts.insert_facts_again.
  - apply RdsEtlFacts.procedure_ids_stay_unique.
  - apply S3TelemetryFacts.loaded_sample_is_skipped.
  - apply S3TelemetryFacts.insert_telemetry_again.
  - apply S3TelemetryFacts.sample_keys_stay_unique.
Qed.

(** The procedure and the sample of the examples, merged into tables
    that do not hold them. *)
Lemma fact_merges_skip_loaded_keys_witness :
  NoDup (fp_procedure_id
           <$> (RdsEtl.insert_facts RdsExamples.staged_procedures
                                    RdsExamples.fresh_warehouse).1)
  ∧ NoDup (S3Telemetry.sample_key
             <$> fact_procedure_telemetry
                   (S3Telemetry.insert_telemetry [TelemetryExamples.staged_bare]
                                                 TelemetryExamples.one_procedure).1)
  ∧ S3Telemetry.insert_telemetry [TelemetryExamples.staged_bare]
      (S3Telemetry.insert_telemetry [TelemetryExamples.staged_bare]
                                    TelemetryExamples.one_procedure).1
    = ((S3Telemetry.insert_telemetry [TelemetryExamples.staged_bare]
                                     TelemetryExamples.one_procedure).1, 0%Z).
Proof.
  destruct (fact_merges_skip_loaded_keys RdsExamples.fresh_warehouse
              RdsExamples.staged_procedures [])
    as (_ & _ & Hprocedures & _).
  destruct (fact_merges_skip_loaded_keys TelemetryExamples.one_procedure
              [] [TelemetryExamples.staged_bare])
    as (_ & _ & _ & _ & Hagain & Hsamples).
  assert (Hts : ∀ st, st ∈ [TelemetryExamples.staged_bare] →
                      is_Some (S3Telemetry.st_sample_timestamp st)).
  { intros st Hst. apply list_elem_of_singleton in Hst as ->. cbn. eauto. }
  split_and!.
  - apply Hprocedures.
    + intros s Hs. vm_compute in Hs. apply list_elem_of_singleton in Hs as ->.
      cbn. eauto.
    + vm_compute. apply NoDup_singleton.
    + intros id. cbn. lia.
    + intros id. cbn. lia.
    + intros id. cbn. destruct (bool_decide _); cbn; lia.
    + cbn. constructor.
  - apply Hsamples; [exact Hts|cbn; apply NoDup_singleton..|cbn; constructor].
  - apply Hagain. exact Hts.
Defined.

(** C3, as stated, fails: a file holds the same sample twice, the
    telemetry facts are empty before the run, and after the run two facts
    carry the same procedure key and sample timestamp. *)
Lemma sample_staged_twice_is_loaded_twice :
  NoDup (S3Telemetry.sample_key
           <$> fact_procedure_telemetry TelemetryExamples.one_procedure)
  ∧ length (fact_procedure_telemetry
              (S3Telemetry.warehouse
                 (TelemetryExamples.run_on TelemetryExamples.bucket_twice).2))
    = 2%nat
  ∧ ¬ NoDup (S3Telemetry.sample_key
               <$> fact_procedure_telemetry
                     (S3Telemetry.warehouse
                        (TelemetryExamples.run_on TelemetryExamples.bucket_twice).2)).
Proof.
  split_and!.
  - cbn. constructor.
  - vm_compute. reflexivity.
  - vm_compute. intros Hnd. apply NoDup_cons in Hnd as [Hnotin _].
    apply Hnotin. apply list_elem_of_here.
Qed.

(** C5, amended. A staged procedure that is not loaded yet is loaded, in
    one row at least; in each of its rows the robot, the surgeon and the
    facility key come from a current dimension row of the staged natural
    key, and a key is NULL exactly when the dimension has no current row of
    it.  A staged telemetry sample is joined to its procedure fact by an
    inner join: every telemetry fact has a procedure key, and a sample
    whose procedure is not in the fact table is not loaded. *)
Theorem orphan_facts_keep_null_keys
    (wh : Warehouse.state)
    (staging_procedures : list RdsEtl.staging_procedure)
    (s : RdsEtl.staging_procedure)
    (staging_telemetry : list S3Telemetry.staging_telemetry_row)
    (st : S3Telemetry.staging_telemetry_row) :
  (s ∈ staging_procedures →
   RdsEtl.already_loaded (fact_procedures wh) s = false →
   RdsEtl.resolve wh s ≠ []
   ∧ ∀ x, x ∈ RdsEtl.resolve wh s →
       RdsEtl.staged x = s
       ∧ RdsEtl.resolves r_robot_id r_is_current (RdsEtl.sp_robot_id s)
                         (dim_robots wh) (RdsEtl.robot x)
       ∧ RdsEtl.resolves sg_surgeon_id sg_is_current (RdsEtl.sp_surgeon_id s)
                         (dim_surgeons wh) (RdsEtl.surgeon x)
       ∧ RdsEtl.resolves f_facility_id f_is_current (RdsEtl.sp_facility_id s)
                         (dim_facilities wh) (RdsEtl.facility x)
       ∧ ∃ key fact,
           fact ∈ (RdsEtl.insert_facts staging_procedures wh).1
           ∧ fact = RdsEtl.new_fact key x
           ∧ fp_procedure_id fact = RdsEtl.sp_procedure_id s
           ∧ fp_robot_key fact = r_robot_key <$> RdsEtl.robot x
           ∧ fp_surgeon_key fact = sg_surgeon_key <$> RdsEtl.surgeon x
           ∧ fp_facility_key fact = f_facility_key <$> RdsEtl.facility x)
  ∧ ((∀ fp id, fp ∈ fact_procedures wh →
               S3Telemetry.st_procedure_id st = Some id →
               fp_procedure_id fp ≠ Some id) →
     S3Telemetry.telemetry_select [st] wh = [])
  ∧ (∀ row, row ∈ S3Telemetry.telemetry_select staging_telemetry wh →
            ∃ fp, fp ∈ fact_procedures wh
                  ∧ fpt_procedure_key row = Some (fp_procedure_key fp)).
Proof.
  split_and!.
  - intros Hs Hnew. split; [by apply RdsEtlFacts.resolve_not_nil|].
    intros x Hx.
    pose proof Hx as (_ & Hst & Hr & Hsg & Hf)%RdsEtlFacts.elem_of_resolve.
    split_and!; try done; try by apply RdsEtlFacts.left_join_resolves.
    destruct (RdsEtlFacts.resolved_is_inserted wh staging_procedures s x Hs Hx)
      as [key Hkey].
    exists key, (RdsEtl.new_fact key x). split_and!; try done.
    cbn. by rewrite Hst.
  - intros Hnone.
    destruct (S3Telemetry.telemetry_select [st] wh) as [|row rows] eqn:Hsel; [done|].
    assert (Hrow : row ∈ S3Telemetry.telemetry_select [st] wh)
      by (rewrite Hsel; apply list_elem_of_here).
    apply S3TelemetryFacts.elem_of_telemetry_select in Hrow
      as (st' & fp & Hst & Hfp & Hon & _).
    apply list_elem_of_singleton in Hst as ->.
    apply holds_eq in Hon as (id & Hid & Hfpid).
    by destruct (Hnone fp id Hfp Hid).
  - intros row (st' & fp & _ & Hfp & _ & _ & ->)
               %S3TelemetryFacts.elem_of_telemetry_select.
    eauto.
Qed.

(** The procedure of the examples against empty robot and surgeon
    dimensions, and a sample of an unknown procedure. *)
Lemma orphan_facts_keep_null_keys_witness :
  RdsExamples.staged_0001 ∈ RdsExamples.staged_procedures
  ∧ RdsEtl.resolve RdsExamples.fresh_warehouse RdsExamples.staged_0001
    = [{| RdsEtl.staged := RdsExamples.staged_0001;
          RdsEtl.robot := None;
          RdsEtl.surgeon := None;
          RdsEtl.facility := Some {| f_facility_key := 1;
                                     f_facility_id := Some "FAC-01";
                                     f_is_current := true |} |}]
  ∧ (∃ fact,
       fact ∈ (RdsEtl.insert_facts RdsExamples.staged_procedures
                                   RdsExamples.fresh_warehouse).1
       ∧ fp_procedure_id fact = Some "PROC-0001"
       ∧ fp_robot_key fact = None
       ∧ fp_facility_key fact = Some 1%Z)
  ∧ S3Telemetry.telemetry_select [TelemetryExamples.staged_sample_of "PROC-9999"]
                                 TelemetryExamples.one_procedure = [].
Proof.
  assert (Hin : RdsExamples.staged_0001 ∈ RdsExamples.staged_procedures).
  { vm_compute. apply list_elem_of_here. }
  assert (Hres : RdsEtl.resolve RdsExamples.fresh_warehouse RdsExamples.staged_0001
                 = [{| RdsEtl.staged := RdsExamples.staged_0001;
                       RdsEtl.robot := None;
                       RdsEtl.surgeon := None;
                       RdsEtl.facility := Some {| f_facility_key := 1;
                                                  f_facility_id := Some "FAC-01";
                                                  f_is_current := true |} |}]).
  { vm_compute. reflexivity. }
  destruct (orphan_facts_keep_null_keys RdsExamples.fresh_warehouse
              RdsExamples.staged_procedures RdsExamples.staged_0001
              [] (TelemetryExamples.staged_sample_of "PROC-9999"))
    as (Hprocedure & _ & _).
  destruct (orphan_facts_keep_null_keys TelemetryExamples.one_procedure
              [] RdsExamples.staged_0001
              [] (TelemetryExamples.staged_sample_of "PROC-9999"))
    as (_ & Hsample & _).
  split; [exact Hin|]. split; [exact Hres|]. split.
  - destruct (Hprocedure Hin eq_refl) as [_ Hrows].
    destruct (Hrows {| RdsEtl.staged := RdsExamples.staged_0001;
                       RdsEtl.robot := None;
                       RdsEtl.surgeon := None;
                       RdsEtl.facility := Some {| f_facility_key := 1;
                                                  f_facility_id := Some "FAC-01";
                                                  f_is_current := true |} |})
      as (_ & _ & _ & _ & key & fact & Hfact & _ & Hid & Hrobot & _ & Hfacility).
    + rewrite Hres. apply list_elem_of_here.
    + exists fact. split_and!; assumption.
  - apply Hsample. intros fp id Hfp Hid.
    apply list_elem_of_singleton in Hfp as ->.
    injection Hid as <-. discriminate.
Defined.

(** C5, as stated, fails: the sample of a procedure the warehouse does
    not know is accepted and staged, the run reports one record, and the
    load inserts no row: the sample is dropped. *)
Lemma unknown_procedure_sample_is_dropped :
  length (fact_procedures TelemetryExamples.one_procedure) = 1%nat
  ∧ (TelemetryExamples.run_on TelemetryExamples.bucket_orphan).1 = Ok 1%Z
  ∧ length (S3Telemetry.staging_bucket
              (TelemetryExamples.run_on TelemetryExamples.bucket_orphan).2) = 1%nat
  ∧ fact_procedure_telemetry
      (S3Telemetry.warehouse (TelemetryExamples.run_on TelemetryExamples.bucket_orphan).2)
    = []
  ∧ S3Telemetry.printed (TelemetryExamples.run_on TelemetryExamples.bucket_orphan).2
    = [S3Telemetry.Processing "telemetry/"; S3Telemetry.Found 1;
       S3Telemetry.Processed 1 1; S3Telemetry.Exported;
       S3Telemetry.Loading 1; S3Telemetry.Loaded 0].
Proof. vm_compute. repeat split. Qed.

(** Writing a record count leaves the status alone. *)
Lemma set_records_loaded_status (entity : string) (n : Z)
    (results : gmap string pyval) :
  RdsEtl.set_records_loaded entity n results !! "status" = results !! "status".
Proof.
  unfold RdsEtl.set_records_loaded.
  destruct (results !! "records_loaded") as [[]|]; try done.
  by rewrite lookup_insert_ne.
Qed.

(** Whatever the loads do, a result that the ETL handler returns has the
    status 'success': a failure never comes back as a result. *)
Lemma etl_handler_returns_success
    (get_rds_connection get_redshift_connection : result unit)
    (copy_staging_surgeons :
       list RdsEtl.staging_surgeon → result (list RdsEtl.staging_surgeon))
    (copy_staging_robots :
       list RdsEtl.staging_robot → result (list RdsEtl.staging_robot))
    (copy_staging_procedures :
       list RdsEtl.staging_procedure → result (list RdsEtl.staging_procedure))
    (CURRENT_DATE : date) (now_isoformat : string) (yesterday today : datetime)
    (ev : RdsEtl.event_params) (w : RdsEtl.world) (results : gmap string pyval) :
  RdsEtl.outcome
    (RdsEtl.lambda_handler get_rds_connection get_redshift_connection
       copy_staging_surgeons copy_staging_robots copy_staging_procedures
       CURRENT_DATE now_isoformat yesterday today ev w).1
  = Ok results →
  results !! "status" = Some (PStr "success").
Proof.
  unfold RdsEtl.lambda_handler, RdsEtl.procedures_stage, RdsEtl.on_exception.
  repeat match goal with
         | |- context [if ?c then _ else _] => destruct c
         | |- context [match ?l with (r, _) => _ end] =>
             let r := fresh "r" in destruct l as [[r|r] ?]
         end;
    cbn; intros [= <-]; rewrite ?set_records_loaded_status; done.
Qed.

(** The same for the telemetry handler. *)
Lemma telemetry_handler_returns_success
    (fromisoformat : string → option datetime)
    (get_redshift_connection : result unit)
    (copy_staging_telemetry :
       list S3Telemetry.flat_record → result (list S3Telemetry.staging_telemetry_row))
    (now_isoformat now_yyyymmdd : string)
    (event : gmap string string) (w : S3Telemetry.world)
    (results : gmap string pyval) :
  S3Telemetry.outcome
    (S3Telemetry.lambda_handler fromisoformat get_redshift_connection
       copy_staging_telemetry now_isoformat now_yyyymmdd event w).1
  = Ok results →
  results !! "status" = Some (PStr "success").
Proof.
  unfold S3Telemetry.lambda_handler.
  destruct (S3Telemetry.process_telemetry_files _ _ _ _ _) as [[n|e] w']; cbn;
    intros [= <-].
  by rewrite lookup_insert_ne.
Qed.

(** C6 on the code: the COPY of the robot file fails after the surgeons
    have been loaded.  The handler writes the failed status, the error and
    the surgeon count into its result and then raises the exception again:
    the caller gets the exception, not the result; the surgeon dimension
    stays loaded.  The telemetry handler does the same when the warehouse
    cannot be reached. *)
Theorem failed_load_is_raised_again :
  (RdsEtl.outcome RdsExamples.invoke_failing_robots.1
   = Raise RdsExamples.copy_failure
   ∧ RdsEtl.results RdsExamples.invoke_failing_robots.1 !! "status"
     = Some (PStr "failed")
   ∧ RdsEtl.results RdsExamples.invoke_failing_robots.1 !! "error"
     = Some (PStr "COPY failed: S3ServiceException")
   ∧ RdsEtl.results RdsExamples.invoke_failing_robots.1 !! "records_loaded"
     = Some (PDict {["surgeons" := PInt 1]})
   ∧ dim_surgeons (RdsEtl.warehouse RdsExamples.invoke_failing_robots.2)
     = RdsExamples.after_day_one)
  ∧ (S3Telemetry.outcome
       (TelemetryExamples.invoke_unreachable TelemetryExamples.bucket_clean).1
     = Raise TelemetryExamples.unreachable
     ∧ S3Telemetry.results
         (TelemetryExamples.invoke_unreachable TelemetryExamples.bucket_clean).1
       !! "status"
       = Some (PStr "failed")).
Proof. vm_compute. repeat split. Qed.

End PlatformFacts.

(** * Further properties of the telemetry program *)

Module TelemetryRunFacts.

Import Sql ListFacts SqlFacts Warehouse S3Telemetry TelemetryRun S3TelemetryFacts.

Section Transform.

Variable fromisoformat : string → option datetime.

(** A field of a group can be read exactly when the group is usable. *)
Lemma nested_group_ok (d : gmap string pyval) (group name : string) :
  (∃ v, nested (PDict d) group name = Ok v) ↔ group_ok d group.
Proof.
  unfold nested, group_ok. cbn. destruct (d !! group) as [gv|] eqn:E; cbn.
  - destruct gv; cbn; (split; [intros [v Hv]|intros [H|[g H]]]);
      try discriminate; eauto.
  - rewrite lookup_empty. cbn. split; eauto.
Qed.

(** The record is accepted exactly when it is a dict, its timestamp is a
    non-empty string the parser reads once [Z] is replaced, and each of
    the three groups is missing or a dict.  Nothing else is looked at:
    neither the procedure id nor any measure. *)
Theorem accepted_iff_well_formed (record : pyval) :
  is_Some (transform_telemetry_record fromisoformat record)
  ↔ ∃ (d : gmap string pyval) (s : string),
      record = PDict d
      ∧ d !! "timestamp" = Some (PStr s) ∧ s ≠ ""
      ∧ is_Some (fromisoformat (replace_Z s))
      ∧ group_ok d "arm_position"
      ∧ group_ok d "arm_rotation"
      ∧ group_ok d "system_metrics".
Proof.
  split.
  - intros [t Ht].
    destruct (transform_accepts fromisoformat record t Ht)
      as (d & s & ts_obj & -> & Hts & Hs & Hiso & _ & _ & _ & _
          & (Hpx & _ & _ & Hrx & _ & _ & Hst & _)).
    exists d, s. split_and!; try done.
    + apply (nested_group_ok d "arm_position" "x"); eauto.
    + apply (nested_group_ok d "arm_rotation" "x"); eauto.
    + apply (nested_group_ok d "system_metrics" "temperature"); eauto.
  - intros (d & s & -> & Hts & Hs & [ts_obj Hiso] & Hp & Hr & Hm).
    destruct (proj2 (nested_group_ok d "arm_position" "x") Hp) as [px Hpx].
    destruct (proj2 (nested_group_ok d "arm_position" "y") Hp) as [py Hpy].
    destruct (proj2 (nested_group_ok d "arm_position" "z") Hp) as [pz Hpz].
    destruct (proj2 (nested_group_ok d "arm_rotation" "x") Hr) as [rx Hrx].
    destruct (proj2 (nested_group_ok d "arm_rotation" "y") Hr) as [ry Hry].
    destruct (proj2 (nested_group_ok d "arm_rotation" "z") Hr) as [rz Hrz].
    destruct (proj2 (nested_group_ok d "system_metrics" "temperature") Hm) as [m1 Hm1].
    destruct (proj2 (nested_group_ok d "system_metrics" "motor_current") Hm) as [m2 Hm2].
    destruct (proj2 (nested_group_ok d "system_metrics" "network_latency_ms") Hm)
      as [m3 Hm3].
    destruct (proj2 (nested_group_ok d "system_metrics" "video_fps") Hm) as [m4 Hm4].
    unfold transform_telemetry_record, transform_body, py_fromisoformat.
    cbn [py_get mbind result_bind]. rewrite Hts. cbn [default from_option id truthy]. unfold id.
    assert (Hne : String.eqb s "" = false) by by apply String.eqb_neq.
    rewrite Hne. cbn [negb py_replace_Z mbind result_bind]. rewrite Hiso.
    cbn [mbind result_bind].
    rewrite Hpx, Hpy, Hpz, Hrx, Hry, Hrz, Hm1, Hm2, Hm3, Hm4. cbn. eauto.
Qed.

(** A rejected record leaves no line in the log exactly when it is a dict
    whose timestamp is missing or falsy (null, empty, zero, false); every
    other rejected record leaves one line. *)
Theorem silent_rejection_iff_no_timestamp (record : pyval) :
  (transform_telemetry_record fromisoformat record = None
   ∧ transform_log fromisoformat record = []
   ↔ ∃ d, record = PDict d ∧ truthy (default PNone (d !! "timestamp")) = false)
  ∧ (transform_log fromisoformat record = []
     ∨ (transform_telemetry_record fromisoformat record = None
        ∧ ∃ line, transform_log fromisoformat record = [line])).
Proof.
  split; [split|].
  - intros [Hnone Hlog].
    unfold transform_telemetry_record, transform_log in *.
    destruct (transform_body fromisoformat record) as [r|e] eqn:Hbody; [|done].
    subst r. clear Hlog. unfold transform_body in Hbody.
    destruct record as [| | | | |l|d]; try discriminate Hbody.
    exists d. split; [done|]. cbn in Hbody.
    destruct (truthy (default PNone (d !! "timestamp"))); [|done].
    exfalso. cbn in Hbody.
    do 18 (match type of Hbody with
           | context [mbind _ ?m] => destruct m eqn:?; cbn in Hbody;
                                     try discriminate Hbody
           end).
  - intros (d & -> & Ht). by apply transform_rejects.
  - unfold transform_log, transform_telemetry_record.
    destruct (transform_body fromisoformat record); [by left|right; eauto].
Qed.

End Transform.

Section Run.

Variable fromisoformat : string → option datetime.
Variable get_redshift_connection : result unit.
Variable copy_staging_telemetry :
  list flat_record → result (list staging_telemetry_row).

(** The lines of the inner loop. *)
Lemma transform_loop_printed (records : list pyval) (acc : list flat_record)
    (w : world) :
  printed (foldl (transform_step fromisoformat) (acc, w) records).2
  = printed w ++ (ErrorTransforming <$> (records ≫= transform_log fromisoformat)).
Proof.
  revert acc w. induction records as [|record records IH]; intros acc w.
  - cbn. by rewrite app_nil_r.
  - cbn [foldl]. rewrite transform_step_eq, IH. cbn [printed print_all].
    by rewrite bind_cons, fmap_app, app_assoc.
Qed.

(** One file: its lines, and one more file counted when it is readable. *)
Lemma process_file_printed (l : locals) (w : world) (file_key : string) :
  printed (process_file fromisoformat (l, w) file_key).2
  = printed w ++ file_events fromisoformat w file_key
  ∧ files_processed (process_file fromisoformat (l, w) file_key).1
    = (files_processed l + if readable w file_key then 1 else 0)%nat.
Proof.
  unfold process_file, file_events, readable.
  destruct (get_object file_key w) as [[data|e] w1] eqn:Hget; cbn [fst snd].
  - assert (Hw1 : (get_object file_key w).2 = w1) by by rewrite Hget.
    pose proof (transform_loop_printed (records_of data) (telemetry_records l) w1)
      as Hp.
    destruct (foldl (transform_step fromisoformat) (telemetry_records l, w1)
                    (records_of data)) as [recs w2].
    cbn in *. rewrite Hp, <- Hw1. cbn. split; [done|lia].
  - assert (Hw1 : (get_object file_key w).2 = w1) by by rewrite Hget.
    rewrite <- Hw1. cbn. split; [done|lia].
Qed.

Lemma readable_bucket (w w' : world) (file_key : string) :
  raw_bucket w = raw_bucket w' → readable w file_key = readable w' file_key.
Proof. intros H. unfold readable. by rewrite (get_object_result _ _ _ H). Qed.

Lemma file_events_bucket (w w' : world) (file_key : string) :
  raw_bucket w = raw_bucket w' →
  file_events fromisoformat w file_key = file_events fromisoformat w' file_key.
Proof. intros H. unfold file_events. by rewrite (get_object_result _ _ _ H). Qed.

(** The loop over the files: the lines of every file in turn, and the
    number of readable files. *)
Lemma process_files_printed (files : list string) (l : locals) (w : world) :
  printed (foldl (process_file fromisoformat) (l, w) files).2
  = printed w ++ (files ≫= file_events fromisoformat w)
  ∧ files_processed (foldl (process_file fromisoformat) (l, w) files).1
    = (files_processed l + length (List.filter (readable w) files))%nat.
Proof.
  revert l w. induction files as [|file_key files IH]; intros l w.
  - cbn. rewrite app_nil_r. split; [done|lia].
  - cbn [foldl].
    destruct (process_file_printed l w file_key) as [Hp Hc].
    destruct (process_file_spec fromisoformat l w file_key)
      as (_ & _ & Hraw & _).
    destruct (process_file fromisoformat (l, w) file_key) as [l1 w1].
    cbn [fst snd] in *.
    destruct (IH l1 w1) as [Hp' Hc']. rewrite Hp', Hc', Hp, Hc.
    rewrite bind_cons, <- !app_assoc. cbn [List.filter]. split.
    + f_equal. f_equal. apply list_bind_ext; [|done].
      intros k. by apply file_events_bucket.
    + rewrite (filter_ext (readable w1) (readable w)).
      * destruct (readable w file_key); cbn; lia.
      * intros k. by apply readable_bucket.
Qed.

(** How a run ends and what it leaves in the warehouse, by the records
    it stages, the connection and the COPY. *)
Lemma run_outcome (s3_prefix : string) (w : world) :
  (process_telemetry_files fromisoformat get_redshift_connection
     copy_staging_telemetry s3_prefix w).1
  = match records_of_run fromisoformat w s3_prefix with
    | [] => Ok 0%Z
    | _ :: _ =>
        match get_redshift_connection with
        | Raise e => Raise e
        | Ok _ =>
            match copy_staging_telemetry (records_of_run fromisoformat w s3_prefix) with
            | Raise e => Raise e
            | Ok _ => Ok (Z.of_nat (length (records_of_run fromisoformat w s3_prefix)))
            end
        end
    end
  ∧ warehouse (process_telemetry_files fromisoformat get_redshift_connection
                 copy_staging_telemetry s3_prefix w).2
    = match records_of_run fromisoformat w s3_prefix with
      | [] => warehouse w
      | _ :: _ =>
          match get_redshift_connection with
          | Raise _ => warehouse w
          | Ok _ =>
              match copy_staging_telemetry (records_of_run fromisoformat w s3_prefix) with
              | Raise _ => warehouse w
              | Ok rows => (insert_telemetry rows (warehouse w)).1
              end
          end
      end.
Proof.
  unfold records_of_run, files_of_run, process_telemetry_files. cbn [raw_bucket print].
  destruct (list_objects_v2 (raw_bucket w) s3_prefix 1000) as [|obj contents] eqn:Hlist.
  { done. }
  set (files := json_files (obj :: contents)).
  destruct files as [|file files'] eqn:Hfiles.
  { done. }
  rewrite <- Hfiles. clear Hfiles. clearbody files.
  set (w0 := print (Found (length files)) (print (Processing s3_prefix) w)).
  set (l0 := {| telemetry_records := []; files_processed := 0 |}).
  destruct (process_files_spec fromisoformat (take 100 files) l0 w0)
    as (Hrec & _ & _ & _ & Hwh & _).
  destruct (foldl (process_file fromisoformat) (l0, w0) (take 100 files)) as [l1 w1].
  cbn [fst snd] in *. cbn [telemetry_records l0 app] in Hrec.
  rewrite (list_bind_ext (accepted_from fromisoformat w0)
             (accepted_from fromisoformat w) (take 100 files) (take 100 files)) in Hrec;
    [|by intros k; apply accepted_from_bucket|done].
  rewrite <- Hrec.
  destruct (telemetry_records l1) as [|r records] eqn:Hr.
  { cbn [fst snd warehouse print]. by rewrite Hwh. }
  unfold load_telemetry_to_redshift.
  destruct get_redshift_connection as [[]|e].
  2:{ cbn [fst snd warehouse print put_object]. by rewrite Hwh. }
  destruct (copy_staging_telemetry (r :: records)) as [rows|e].
  2:{ cbn [fst snd warehouse print put_object]. by rewrite Hwh. }
  cbn [warehouse print put_object]. rewrite Hwh. cbn [warehouse w0 print].
  by destruct (insert_telemetry rows (warehouse w)).
Qed.

(** When the listing holds a [.json] key, a run prints, in order: the
    prefix; the number of [.json] keys listed; for each file of the run
    either the error of a file that cannot be read or parsed, or one line
    for each of its records whose transform raised; then the number of
    files read and the number of records staged.  Nothing follows when no
    record is staged. *)
Theorem run_log_up_to_summary (s3_prefix : string) (w : world) :
  json_files (list_objects_v2 (raw_bucket w) s3_prefix 1000) ≠ [] →
  ∃ rest,
    printed (process_telemetry_files fromisoformat get_redshift_connection
               copy_staging_telemetry s3_prefix w).2
    = printed w
      ++ [Processing s3_prefix;
          Found (length (json_files (list_objects_v2 (raw_bucket w) s3_prefix 1000)))]
      ++ (files_of_run w s3_prefix ≫= file_events fromisoformat w)
      ++ [Processed (length (List.filter (readable w) (files_of_run w s3_prefix)))
                    (length (records_of_run fromisoformat w s3_prefix))]
      ++ rest
    ∧ (records_of_run fromisoformat w s3_prefix = [] → rest = []).
Proof.
  unfold records_of_run, files_of_run, process_telemetry_files. cbn [raw_bucket print].
  destruct (list_objects_v2 (raw_bucket w) s3_prefix 1000) as [|obj contents] eqn:Hlist.
  { done. }
  set (files := json_files (obj :: contents)).
  destruct files as [|file files'] eqn:Hfiles.
  { done. }
  intros _. rewrite <- Hfiles. clear Hfiles. clearbody files.
  set (w0 := print (Found (length files)) (print (Processing s3_prefix) w)).
  set (l0 := {| telemetry_records := []; files_processed := 0 |}).
  destruct (process_files_spec fromisoformat (take 100 files) l0 w0)
    as (Hrec & _).
  destruct (process_files_printed (take 100 files) l0 w0) as [Hp Hc].
  destruct (foldl (process_file fromisoformat) (l0, w0) (take 100 files)) as [l1 w1].
  cbn [fst snd] in *. cbn [telemetry_records files_processed l0 app] in Hrec, Hc.
  rewrite (list_bind_ext (accepted_from fromisoformat w0)
             (accepted_from fromisoformat w) (take 100 files) (take 100 files)) in Hrec;
    [|by intros k; apply accepted_from_bucket|done].
  rewrite (list_bind_ext (file_events fromisoformat w0)
             (file_events fromisoformat w) (take 100 files) (take 100 files)) in Hp;
    [|by intros k; apply file_events_bucket|done].
  rewrite (filter_ext (readable w0) (readable w)) in Hc;
    [|by intros k; apply readable_bucket].
  rewrite <- Hrec, Nat.add_0_l in *. rewrite Hc.
  destruct (telemetry_records l1) as [|r records] eqn:Hr.
  { exists []. cbn [snd printed print]. rewrite Hp. cbn [printed w0 print].
    rewrite <- !app_assoc. cbn. split; [done|done]. }
  unfold load_telemetry_to_redshift.
  pose (rest := [Exported; Loading (length (r :: records))]
    ++ match get_redshift_connection with
       | Raise _ => []
       | Ok _ => match copy_staging_telemetry (r :: records) with
                 | Raise e => [ErrorLoading e]
                 | Ok rows => [Loaded (insert_telemetry rows (warehouse w1)).2]
                 end
       end).
  exists rest. split; [|done]. subst rest.
  destruct get_redshift_connection as [[]|e];
    [destruct (copy_staging_telemetry (r :: records)) as [rows|e]|].
  - cbn [warehouse print put_object].
    destruct (insert_telemetry rows (warehouse w1)).
    cbn [snd printed print put_object set_warehouse]. rewrite Hp. cbn [printed w0 print].
    rewrite <- !app_assoc. by cbn.
  - cbn [snd printed print put_object]. rewrite Hp. cbn [printed w0 print].
    rewrite <- !app_assoc. by cbn.
  - cbn [snd printed print put_object]. rewrite Hp. cbn [printed w0 print].
    rewrite <- !app_assoc. by cbn.
Qed.

Lemma files_of_run_bucket (s3_prefix : string) (w w' : world) :
  raw_bucket w = raw_bucket w' → files_of_run w s3_prefix = files_of_run w' s3_prefix.
Proof. unfold files_of_run. by intros ->. Qed.

Lemma records_of_run_bucket (s3_prefix : string) (w w' : world) :
  raw_bucket w = raw_bucket w' →
  records_of_run fromisoformat w s3_prefix = records_of_run fromisoformat w' s3_prefix.
Proof.
  intros H. unfold records_of_run. rewrite (files_of_run_bucket _ _ _ H).
  apply list_bind_ext; [|done]. intros k. by apply accepted_from_bucket.
Qed.

(** The keys of the listing that end in [.json], as a filter of the keys
    of the bucket. *)
Lemma json_files_listing (bucket : list s3_object) (s3_prefix : string) (n : nat) :
  json_files (list_objects_v2 bucket s3_prefix n)
  = List.filter (λ k, endswith k ".json")
      (take n (List.filter (λ k, startswith k s3_prefix) (Key <$> bucket))).
Proof.
  unfold json_files, list_objects_v2. by rewrite fmap_take, filter_fmap.
Qed.

(** A run downloads only keys of the bucket that are listed under the
    prefix and end in [.json]; when the keys of the bucket are distinct,
    it downloads no key twice. *)
Theorem run_downloads_listed_json_keys (s3_prefix : string) (w : world) :
  get_calls (process_telemetry_files fromisoformat get_redshift_connection
               copy_staging_telemetry s3_prefix w).2
  = get_calls w ++ files_of_run w s3_prefix
  ∧ Forall (λ k, startswith k s3_prefix = true
                 ∧ endswith k ".json" = true
                 ∧ k ∈ Key <$> raw_bucket w)
           (files_of_run w s3_prefix)
  ∧ (NoDup (Key <$> raw_bucket w) → NoDup (files_of_run w s3_prefix)).
Proof.
  split; [apply run_spec|].
  unfold files_of_run. rewrite json_files_listing. split.
  - apply Forall_forall. intros k Hk.
    apply subseteq_take in Hk.
    apply (elem_of_filter_bool (λ k, endswith k ".json")) in Hk as [Hk Hjson].
    apply subseteq_take in Hk.
    apply (elem_of_filter_bool (λ k, startswith k s3_prefix)) in Hk as [Hk Hpre].
    done.
  - intros Hnd. eapply sublist_NoDup; [|apply sublist_take].
    apply NoDup_filter_bool.
    eapply sublist_NoDup; [|apply sublist_take].
    by apply NoDup_filter_bool.
Qed.

(** A run never touches the raw bucket, the dimensions or the procedure
    facts; it deletes and rewrites no telemetry fact: the rows there were
    come first, unchanged. *)
Theorem run_only_appends_telemetry (s3_prefix : string) (w : world) :
  raw_bucket (process_telemetry_files fromisoformat get_redshift_connection
                copy_staging_telemetry s3_prefix w).2
  = raw_bucket w
  ∧ dim_surgeons (warehouse (process_telemetry_files fromisoformat
                               get_redshift_connection copy_staging_telemetry
                               s3_prefix w).2)
    = dim_surgeons (warehouse w)
  ∧ dim_robots (warehouse (process_telemetry_files fromisoformat
                             get_redshift_connection copy_staging_telemetry
                             s3_prefix w).2)
    = dim_robots (warehouse w)
  ∧ dim_facilities (warehouse (process_telemetry_files fromisoformat
                                 get_redshift_connection copy_staging_telemetry
                                 s3_prefix w).2)
    = dim_facilities (warehouse w)
  ∧ fact_procedures (warehouse (process_telemetry_files fromisoformat
                                  get_redshift_connection copy_staging_telemetry
                                  s3_prefix w).2)
    = fact_procedures (warehouse w)
  ∧ fact_procedure_telemetry (warehouse w)
    `prefix_of` fact_procedure_telemetry
                  (warehouse (process_telemetry_files fromisoformat
                                get_redshift_connection copy_staging_telemetry
                                s3_prefix w).2).
Proof.
  destruct (run_spec fromisoformat get_redshift_connection copy_staging_telemetry
              s3_prefix w) as (_ & _ & Hraw & _).
  destruct (run_outcome s3_prefix w) as [_ Hwh].
  rewrite Hraw, Hwh. split; [done|].
  assert (Hframe : ∀ rows,
    dim_surgeons (insert_telemetry rows (warehouse w)).1 = dim_surgeons (warehouse w)
    ∧ dim_robots (insert_telemetry rows (warehouse w)).1 = dim_robots (warehouse w)
    ∧ dim_facilities (insert_telemetry rows (warehouse w)).1
      = dim_facilities (warehouse w)
    ∧ fact_procedures (insert_telemetry rows (warehouse w)).1
      = fact_procedures (warehouse w)
    ∧ fact_procedure_telemetry (warehouse w)
      `prefix_of` fact_procedure_telemetry (insert_telemetry rows (warehouse w)).1).
  { intros rows. split_and!; try done. rewrite inserted_samples. by eexists. }
  destruct (records_of_run fromisoformat w s3_prefix); [by split_and!|].
  destruct get_redshift_connection; [|by split_and!].
  destruct (copy_staging_telemetry _) as [rows|]; [|by split_and!].
  destruct (Hframe rows) as (? & ? & ? & ? & ?). by split_and!.
Qed.

(** A run opens the warehouse only when it has records to load: with
    none it returns 0 and leaves the warehouse as it was, whatever the
    connection would do.  With records, when the warehouse cannot be
    reached, or the COPY fails, the run raises that error and the
    warehouse is as it was. *)
Theorem telemetry_load_failure_rolls_back (s3_prefix : string) (w : world) (e : exn) :
  (records_of_run fromisoformat w s3_prefix = [] →
   (process_telemetry_files fromisoformat get_redshift_connection
      copy_staging_telemetry s3_prefix w).1
   = Ok 0%Z
   ∧ warehouse (process_telemetry_files fromisoformat get_redshift_connection
                  copy_staging_telemetry s3_prefix w).2
     = warehouse w)
  ∧ (records_of_run fromisoformat w s3_prefix ≠ [] →
     get_redshift_connection = Raise e
     ∨ (get_redshift_connection = Ok ()
        ∧ copy_staging_telemetry (records_of_run fromisoformat w s3_prefix) = Raise e) →
     (process_telemetry_files fromisoformat get_redshift_connection
        copy_staging_telemetry s3_prefix w).1
     = Raise e
     ∧ warehouse (process_telemetry_files fromisoformat get_redshift_connection
                    copy_staging_telemetry s3_prefix w).2
       = warehouse w).
Proof.
  destruct (run_outcome s3_prefix w) as [Hres Hwh]. rewrite Hres, Hwh. split.
  - by intros ->.
  - intros Hne Hfail.
    destruct (records_of_run fromisoformat w s3_prefix) as [|r records]; [done|].
    destruct Hfail as [->|[-> ->]]; done.
Qed.

(** A second run over the same bucket inserts no telemetry fact, whatever
    the first run inserted; yet it returns the same count as the first. *)
Theorem second_run_inserts_nothing (s3_prefix : string) (w : world)
    (rows : list staging_telemetry_row) :
  get_redshift_connection = Ok () →
  copy_staging_telemetry (records_of_run fromisoformat w s3_prefix) = Ok rows →
  (∀ st, st ∈ rows → is_Some (st_sample_timestamp st)) →
  warehouse
    (process_telemetry_files fromisoformat get_redshift_connection
       copy_staging_telemetry s3_prefix
       (process_telemetry_files fromisoformat get_redshift_connection
          copy_staging_telemetry s3_prefix w).2).2
  = warehouse (process_telemetry_files fromisoformat get_redshift_connection
                 copy_staging_telemetry s3_prefix w).2
  ∧ (process_telemetry_files fromisoformat get_redshift_connection
       copy_staging_telemetry s3_prefix
       (process_telemetry_files fromisoformat get_redshift_connection
          copy_staging_telemetry s3_prefix w).2).1
    = Ok (Z.of_nat (length (records_of_run fromisoformat w s3_prefix)))
  ∧ (process_telemetry_files fromisoformat get_redshift_connection
       copy_staging_telemetry s3_prefix w).1
    = Ok (Z.of_nat (length (records_of_run fromisoformat w s3_prefix))).
Proof.
  intros Hconn Hcopy Hts.
  destruct (run_spec fromisoformat get_redshift_connection copy_staging_telemetry
              s3_prefix w) as (_ & _ & Hraw & _).
  destruct (run_outcome s3_prefix w) as [Hres Hwh].
  set (w1 := (process_telemetry_files fromisoformat get_redshift_connection
                copy_staging_telemetry s3_prefix w).2) in *.
  destruct (run_outcome s3_prefix w1) as [Hres' Hwh'].
  rewrite (records_of_run_bucket s3_prefix w1 w Hraw) in *.
  rewrite Hres, Hres', Hwh', Hwh, Hconn, Hcopy.
  destruct (records_of_run fromisoformat w s3_prefix) as [|r records]; [done|].
  by rewrite (insert_telemetry_again (warehouse w) rows Hts).
Qed.

(** Every telemetry fact refers to a procedure fact: a run keeps it so. *)
Lemma run_keeps_references (s3_prefix : string) (w : world) :
  telemetry_refers (warehouse w) →
  telemetry_refers
    (warehouse (process_telemetry_files fromisoformat get_redshift_connection
                  copy_staging_telemetry s3_prefix w).2).
Proof.
  intros Hinv. destruct (run_outcome s3_prefix w) as [_ Hwh]. rewrite Hwh.
  destruct (records_of_run fromisoformat w s3_prefix); [done|].
  destruct get_redshift_connection; [|done].
  destruct (copy_staging_telemetry _) as [rows|]; [|done].
  intros row Hrow. rewrite inserted_samples in Hrow.
  change (fact_procedures (insert_telemetry rows (warehouse w)).1)
    with (fact_procedures (warehouse w)).
  apply elem_of_app in Hrow as [Hold|Hnew]; [by apply Hinv|].
  apply elem_of_telemetry_select in Hnew as (st & fp & _ & Hfp & _ & _ & ->).
  by exists fp.
Qed.

Lemma runs_S (s3_prefix : string) (w : world) (n : nat) :
  runs fromisoformat get_redshift_connection copy_staging_telemetry s3_prefix (S n) w
  = (process_telemetry_files fromisoformat get_redshift_connection
       copy_staging_telemetry s3_prefix
       (runs fromisoformat get_redshift_connection copy_staging_telemetry
          s3_prefix n w)).2.
Proof. done. Qed.

(** Runs in a row over the same prefix and an unchanged bucket download
    the same files each time: a file that is not among the files of the
    first run, because it lies beyond the first hundred [.json] keys of
    the first thousand keys listed, is reached by no later run. *)
Theorem later_files_are_never_reached (s3_prefix : string) (w : world) (n : nat) :
  raw_bucket (runs fromisoformat get_redshift_connection copy_staging_telemetry
                s3_prefix n w)
  = raw_bucket w
  ∧ get_calls (runs fromisoformat get_redshift_connection copy_staging_telemetry
                 s3_prefix (S n) w)
    = get_calls (runs fromisoformat get_redshift_connection copy_staging_telemetry
                   s3_prefix n w)
      ++ files_of_run w s3_prefix
  ∧ ∀ k, k ∈ get_calls (runs fromisoformat get_redshift_connection
                          copy_staging_telemetry s3_prefix n w) →
         k ∈ get_calls w ∨ k ∈ files_of_run w s3_prefix.
Proof.
  assert (Hraw : ∀ m,
    raw_bucket (runs fromisoformat get_redshift_connection copy_staging_telemetry
                  s3_prefix m w) = raw_bucket w).
  { induction m as [|m IH]; [done|]. rewrite runs_S.
    destruct (run_spec fromisoformat get_redshift_connection copy_staging_telemetry
                s3_prefix
                (runs fromisoformat get_redshift_connection copy_staging_telemetry
                   s3_prefix m w)) as (_ & _ & -> & _).
    exact IH. }
  assert (Hstep : ∀ m,
    get_calls (runs fromisoformat get_redshift_connection copy_staging_telemetry
                 s3_prefix (S m) w)
    = get_calls (runs fromisoformat get_redshift_connection copy_staging_telemetry
                   s3_prefix m w)
      ++ files_of_run w s3_prefix).
  { intros m. rewrite <- (files_of_run_bucket s3_prefix _ _ (Hraw m)).
    rewrite runs_S. apply run_spec. }
  split_and!; [apply Hraw|apply Hstep|].
  induction n as [|n IH]; intros k Hk; [by left|].
  rewrite Hstep in Hk. apply elem_of_app in Hk as [Hk|Hk]; [by apply IH|by right].
Qed.

End Run.

Section Handler.

Variable fromisoformat : string → option datetime.
Variable get_redshift_connection : result unit.
Variable copy_staging_telemetry :
  list flat_record → result (list staging_telemetry_row).
Variable now_isoformat : string.
Variable now_yyyymmdd : string.

(** What a run does to the buckets, the warehouse and the calls does not
    depend on what has been printed before. *)
Lemma run_after_print (s3_prefix : string) (w : world) (ev : event) :
  (process_telemetry_files fromisoformat get_redshift_connection
     copy_staging_telemetry s3_prefix (print ev w)).1
  = (process_telemetry_files fromisoformat get_redshift_connection
       copy_staging_telemetry s3_prefix w).1
  ∧ warehouse (process_telemetry_files fromisoformat get_redshift_connection
                 copy_staging_telemetry s3_prefix (print ev w)).2
    = warehouse (process_telemetry_files fromisoformat get_redshift_connection
                   copy_staging_telemetry s3_prefix w).2
  ∧ staging_bucket (process_telemetry_files fromisoformat get_redshift_connection
                      copy_staging_telemetry s3_prefix (print ev w)).2
    = staging_bucket (process_telemetry_files fromisoformat get_redshift_connection
                        copy_staging_telemetry s3_prefix w).2
  ∧ get_calls (process_telemetry_files fromisoformat get_redshift_connection
                 copy_staging_telemetry s3_prefix (print ev w)).2
    = get_calls (process_telemetry_files fromisoformat get_redshift_connection
                   copy_staging_telemetry s3_prefix w).2.
Proof.
  destruct (run_spec fromisoformat get_redshift_connection copy_staging_telemetry
              s3_prefix w) as (Hc & Hs & _).
  destruct (run_spec fromisoformat get_redshift_connection copy_staging_telemetry
              s3_prefix (print ev w)) as (Hc' & Hs' & _).
  destruct (run_outcome fromisoformat get_redshift_connection copy_staging_telemetry
              s3_prefix w) as [Hr Hw].
  destruct (run_outcome fromisoformat get_redshift_connection copy_staging_telemetry
              s3_prefix (print ev w)) as [Hr' Hw'].
  assert (Hraw : raw_bucket (print ev w) = raw_bucket w) by done.
  fold (records_of_run fromisoformat w s3_prefix) in Hs.
  fold (records_of_run fromisoformat (print ev w) s3_prefix) in Hs'.
  rewrite (records_of_run_bucket fromisoformat s3_prefix _ _ Hraw) in *.
  rewrite (files_of_run_bucket s3_prefix _ _ Hraw) in *.
  rewrite Hr, Hr', Hw, Hw', Hs, Hs', Hc, Hc'. done.
Qed.

(** What the handler does to the buckets, the warehouse and the calls is
    what the run does. *)
Lemma handler_world (event : gmap string string) (w : world) :
  warehouse (lambda_handler fromisoformat get_redshift_connection
               copy_staging_telemetry now_isoformat now_yyyymmdd event w).2
  = warehouse (process_telemetry_files fromisoformat get_redshift_connection
                 copy_staging_telemetry
                 (default "telemetry/" (event !! "s3_prefix")) w).2
  ∧ staging_bucket (lambda_handler fromisoformat get_redshift_connection
                      copy_staging_telemetry now_isoformat now_yyyymmdd event w).2
    = staging_bucket (process_telemetry_files fromisoformat get_redshift_connection
                        copy_staging_telemetry
                        (default "telemetry/" (event !! "s3_prefix")) w).2
  ∧ get_calls (lambda_handler fromisoformat get_redshift_connection
                 copy_staging_telemetry now_isoformat now_yyyymmdd event w).2
    = get_calls (process_telemetry_files fromisoformat get_redshift_connection
                   copy_staging_telemetry
                   (default "telemetry/" (event !! "s3_prefix")) w).2
  ∧ raw_bucket (lambda_handler fromisoformat get_redshift_connection
                  copy_staging_telemetry now_isoformat now_yyyymmdd event w).2
    = raw_bucket w.
Proof.
  unfold lambda_handler.
  destruct (run_after_print (default "telemetry/" (event !! "s3_prefix")) w
              (Starting (default now_yyyymmdd (event !! "batch_date"))))
    as (_ & Hw & Hs & Hc).
  destruct (run_spec fromisoformat get_redshift_connection copy_staging_telemetry
              (default "telemetry/" (event !! "s3_prefix"))
              (print (Starting (default now_yyyymmdd (event !! "batch_date"))) w))
    as (_ & _ & Hraw & _).
  rewrite <- Hw, <- Hs, <- Hc.
  destruct (process_telemetry_files _ _ _ _ _) as [[n|e] w']; cbn in *; done.
Qed.

(** A result the handler returns has four entries: the status 'success',
    the time of the run, the batch date of the event (today's date when
    the event has none) and, as [records_loaded], the number of records
    the run staged, whatever the number of rows the load inserted. *)
Theorem telemetry_handler_result (event : gmap string string) (w : world)
    (results : gmap string pyval) :
  outcome (lambda_handler fromisoformat get_redshift_connection
             copy_staging_telemetry now_isoformat now_yyyymmdd event w).1
  = Ok results →
  results
  = <["status" := PStr "success"]>
    (<["timestamp" := PStr now_isoformat]>
    (<["batch_date" := PStr (default now_yyyymmdd (event !! "batch_date"))]>
    (<["records_loaded" :=
         PInt (Z.of_nat (length (records_of_run fromisoformat w
                                   (default "telemetry/" (event !! "s3_prefix")))))]>
     ∅))).
Proof.
  unfold lambda_handler.
  destruct (run_spec fromisoformat get_redshift_connection copy_staging_telemetry
              (default "telemetry/" (event !! "s3_prefix"))
              (print (Starting (default now_yyyymmdd (event !! "batch_date"))) w))
    as (_ & _ & _ & Hn).
  fold (records_of_run fromisoformat
          (print (Starting (default now_yyyymmdd (event !! "batch_date"))) w)
          (default "telemetry/" (event !! "s3_prefix"))) in Hn.
  rewrite (records_of_run_bucket fromisoformat _ _ w) in Hn by done.
  destruct (process_telemetry_files _ _ _ _ _) as [[n|e] w']; cbn in *;
    intros [= <-].
  rewrite (Hn n eq_refl).
  rewrite (insert_insert_ne _ "records_loaded" "status") by done.
  rewrite (insert_insert_ne _ "records_loaded" "timestamp") by done.
  rewrite (insert_insert_ne _ "records_loaded" "batch_date") by done.
  by rewrite insert_insert_eq.
Qed.

End Handler.

(** The sample with all groups is accepted: it is well formed. *)
Lemma accepted_iff_well_formed_witness :
  is_Some (transform_telemetry_record Iso.parse TelemetryExamples.sample_full)
  ∧ ∃ (d : gmap string pyval) (s : string),
      TelemetryExamples.sample_full = PDict d
      ∧ d !! "timestamp" = Some (PStr s) ∧ s ≠ ""
      ∧ is_Some (Iso.parse (replace_Z s))
      ∧ group_ok d "arm_position"
      ∧ group_ok d "arm_rotation"
      ∧ group_ok d "system_metrics".
Proof.
  assert (H : is_Some (transform_telemetry_record Iso.parse
                         TelemetryExamples.sample_full)).
  { vm_compute. eauto. }
  split; [exact H|].
  exact (proj1 (accepted_iff_well_formed Iso.parse TelemetryExamples.sample_full) H).
Defined.

(** The sample without timestamp is rejected without a line; the one
    whose [arm_position] is [null] is rejected with one. *)
Lemma silent_rejection_iff_no_timestamp_witness :
  (transform_telemetry_record Iso.parse TelemetryExamples.sample_no_timestamp = None
   ∧ transform_log Iso.parse TelemetryExamples.sample_no_timestamp = [])
  ∧ (transform_log Iso.parse TelemetryRunExamples.sample_null_group = []
     ∨ (transform_telemetry_record Iso.parse TelemetryRunExamples.sample_null_group
        = None
        ∧ ∃ line,
            transform_log Iso.parse TelemetryRunExamples.sample_null_group = [line])).
Proof.
  split.
  - apply (proj1 (silent_rejection_iff_no_timestamp Iso.parse
                    TelemetryExamples.sample_no_timestamp)).
    eexists. split; [reflexivity|]. vm_compute. reflexivity.
  - exact (proj2 (silent_rejection_iff_no_timestamp Iso.parse
                    TelemetryRunExamples.sample_null_group)).
Defined.

(** The damaged bucket: the keys are distinct, so are the downloads. *)
Lemma run_downloads_listed_json_keys_witness :
  NoDup (Key <$> TelemetryRunExamples.bucket_damaged)
  ∧ NoDup (files_of_run (TelemetryExamples.world_of TelemetryRunExamples.bucket_damaged)
                        "telemetry/").
Proof.
  assert (H : NoDup (Key <$> TelemetryRunExamples.bucket_damaged)).
  { refine (bool_decide_unpack _ _). vm_compute. reflexivity. }
  split; [exact H|].
  destruct (run_downloads_listed_json_keys Iso.parse (Ok ())
              TelemetryExamples.copy_rows "telemetry/"
              (TelemetryExamples.world_of TelemetryRunExamples.bucket_damaged))
    as (_ & _ & Hnd).
  exact (Hnd H).
Defined.

(** The damaged bucket: two [.json] keys are listed under the prefix. *)
Lemma run_log_up_to_summary_witness :
  json_files (list_objects_v2 TelemetryRunExamples.bucket_damaged "telemetry/" 1000)
  = ["telemetry/2024/a.json"; "telemetry/2024/b.json"]
  ∧ ∃ rest,
      printed (TelemetryExamples.run_on TelemetryRunExamples.bucket_damaged).2
      = [Processing "telemetry/"; Found 2]
        ++ (["telemetry/2024/a.json"; "telemetry/2024/b.json"]
              ≫= file_events Iso.parse
                   (TelemetryExamples.world_of TelemetryRunExamples.bucket_damaged))
        ++ [Processed 1 1]
        ++ rest.
Proof.
  split; [vm_compute; reflexivity|].
  destruct (run_log_up_to_summary Iso.parse (Ok ()) TelemetryExamples.copy_rows
              "telemetry/"
              (TelemetryExamples.world_of TelemetryRunExamples.bucket_damaged))
    as (rest & Hrest & _).
  { vm_compute. discriminate. }
  exists rest. exact Hrest.
Defined.

(** A warehouse that cannot be reached: the empty bucket gives 0, the
    clean bucket the error. *)
Lemma telemetry_load_failure_rolls_back_witness :
  (process_telemetry_files Iso.parse (Raise TelemetryExamples.unreachable)
     TelemetryExamples.copy_rows "telemetry/" (TelemetryExamples.world_of [])).1
  = Ok 0%Z
  ∧ records_of_run Iso.parse (TelemetryExamples.world_of TelemetryExamples.bucket_clean)
                   "telemetry/"
    ≠ []
  ∧ (process_telemetry_files Iso.parse (Raise TelemetryExamples.unreachable)
       TelemetryExamples.copy_rows "telemetry/"
       (TelemetryExamples.world_of TelemetryExamples.bucket_clean)).1
    = Raise TelemetryExamples.unreachable
  ∧ warehouse
      (process_telemetry_files Iso.parse (Raise TelemetryExamples.unreachable)
         TelemetryExamples.copy_rows "telemetry/"
         (TelemetryExamples.world_of TelemetryExamples.bucket_clean)).2
    = TelemetryExamples.one_procedure.
Proof.
  assert (H : records_of_run Iso.parse
                (TelemetryExamples.world_of TelemetryExamples.bucket_clean) "telemetry/"
              ≠ []).
  { vm_compute. discriminate. }
  destruct (telemetry_load_failure_rolls_back Iso.parse
              (Raise TelemetryExamples.unreachable) TelemetryExamples.copy_rows
              "telemetry/" (TelemetryExamples.world_of [])
              TelemetryExamples.unreachable) as [Hnone _].
  destruct (telemetry_load_failure_rolls_back Iso.parse
              (Raise TelemetryExamples.unreachable) TelemetryExamples.copy_rows
              "telemetry/" (TelemetryExamples.world_of TelemetryExamples.bucket_clean)
              TelemetryExamples.unreachable) as [_ Hfail].
  destruct (Hnone eq_refl) as [Hzero _].
  destruct (Hfail H (or_introl eq_refl)) as [Hres Hwh].
  split; [exact Hzero|]. split; [exact H|]. split; [exact Hres|exact Hwh].
Defined.

(** The mixed bucket: one record is staged, and that is the count. *)
Lemma telemetry_handler_result_witness :
  ∃ results,
    outcome (TelemetryExamples.invoke_on TelemetryExamples.bucket_mixed).1 = Ok results
    ∧ results !! "records_loaded" = Some (PInt 1).
Proof.
  destruct (outcome (TelemetryExamples.invoke_on TelemetryExamples.bucket_mixed).1)
    as [results|e] eqn:H.
  - exists results. split; [reflexivity|].
    rewrite (telemetry_handler_result Iso.parse (Ok ()) TelemetryExamples.copy_rows
               "2024-03-06T01:00:00" "20240306" ∅
               (TelemetryExamples.world_of TelemetryExamples.bucket_mixed) results H).
    vm_compute. reflexivity.
  - vm_compute in H. discriminate H.
Defined.

(** A bucket of 120 files, run twice: the file of rank 110 is not
    downloaded. *)
Lemma later_files_are_never_reached_witness :
  ("telemetry/" ++ TelemetryExamples.name_of 110)%string
    ∈ Key <$> TelemetryExamples.bucket_of_size 120
  ∧ ("telemetry/" ++ TelemetryExamples.name_of 110)%string
      ∉ get_calls (runs Iso.parse (Ok ()) TelemetryExamples.copy_rows "telemetry/" 2
                     (TelemetryExamples.world_of (TelemetryExamples.bucket_of_size 120))).
Proof.
  split.
  { refine (bool_decide_unpack _ _). vm_compute. reflexivity. }
  intros Hin.
  destruct (later_files_are_never_reached Iso.parse (Ok ())
              TelemetryExamples.copy_rows "telemetry/"
              (TelemetryExamples.world_of (TelemetryExamples.bucket_of_size 120)) 2)
    as (_ & _ & Hreach).
  destruct (Hreach _ Hin) as [Hold|Hfirst].
  - by apply elem_of_nil in Hold.
  - revert Hfirst. refine (bool_decide_unpack _ _). vm_compute. reflexivity.
Defined.

(** The bucket with the bare sample twice, run twice. *)
Lemma second_run_inserts_nothing_witness :
  (∃ rows,
     TelemetryExamples.copy_rows
       (records_of_run Iso.parse
          (TelemetryExamples.world_of TelemetryExamples.bucket_twice) "telemetry/")
     = Ok rows
     ∧ ∀ st, st ∈ rows → is_Some (st_sample_timestamp st))
  ∧ warehouse
      (process_telemetry_files Iso.parse (Ok ()) TelemetryExamples.copy_rows
         "telemetry/" (TelemetryExamples.run_on TelemetryExamples.bucket_twice).2).2
    = warehouse (TelemetryExamples.run_on TelemetryExamples.bucket_twice).2.
Proof.
  assert (Hcopy : TelemetryExamples.copy_rows
                    (records_of_run Iso.parse
                       (TelemetryExamples.world_of TelemetryExamples.bucket_twice)
                       "telemetry/")
                  = Ok [TelemetryExamples.staged_bare; TelemetryExamples.staged_bare]).
  { vm_compute. reflexivity. }
  assert (Hts : ∀ st,
            st ∈ [TelemetryExamples.staged_bare; TelemetryExamples.staged_bare] →
            is_Some (st_sample_timestamp st)).
  { intros st Hst. apply elem_of_cons in Hst as [->|Hst].
    - cbn. eauto.
    - apply list_elem_of_singleton in Hst as ->. cbn. eauto. }
  split; [eauto|].
  exact (proj1 (second_run_inserts_nothing Iso.parse (Ok ())
                  TelemetryExamples.copy_rows "telemetry/"
                  (TelemetryExamples.world_of TelemetryExamples.bucket_twice)
                  _ eq_refl Hcopy Hts)).
Defined.

End TelemetryRunFacts.

(** * Further properties of the relational load *)

Module RdsRunFacts.

Import Sql ListFacts SqlFacts Warehouse RdsEtl RdsRun RdsEtlFacts.

Lemma surgeon_kept_trans (a b c : dim_surgeon_row) :
  surgeon_kept a b → surgeon_kept b c → surgeon_kept a c.
Proof.
  intros [->|[Ha [day ->]]] Hbc; [done|].
  destruct Hbc as [->|[Hb _]]; [right; eauto|done].
Qed.

Lemma robot_kept_trans (a b c : dim_robot_row) :
  robot_kept a b → robot_kept b c → robot_kept a c.
Proof.
  intros [->|[Ha [day ->]]] Hbc; [done|].
  destruct Hbc as [->|[Hb _]]; [right; eauto|done].
Qed.

Lemma keeps_history_refl (wh : Warehouse.state) : keeps_history wh wh.
Proof.
  split_and!; try done.
  - intros i d Hd. exists d. split; [done|by left].
  - intros i d Hd. exists d. split; [done|by left].
Qed.

Lemma keeps_history_trans (a b c : Warehouse.state) :
  keeps_history a b → keeps_history b c → keeps_history a c.
Proof.
  intros (Hs & Hr & Hf & Hp & Ht) (Hs' & Hr' & Hf' & Hp' & Ht').
  split_and!.
  - intros i d Hd. destruct (Hs i d Hd) as (d' & Hd' & Hk).
    destruct (Hs' i d' Hd') as (d'' & Hd'' & Hk').
    exists d''. split; [done|]. by apply surgeon_kept_trans with d'.
  - intros i d Hd. destruct (Hr i d Hd) as (d' & Hd' & Hk).
    destruct (Hr' i d' Hd') as (d'' & Hd'' & Hk').
    exists d''. split; [done|]. by apply robot_kept_trans with d'.
  - congruence.
  - by etrans.
  - by etrans.
Qed.

(** The surgeon merge keeps the history. *)
Lemma merge_surgeons_keeps_history (CURRENT_DATE : date)
    (staging_surgeons : list staging_surgeon) (wh : Warehouse.state) :
  keeps_history wh
    (with_dim_surgeons
       (merge_surgeons CURRENT_DATE staging_surgeons (dim_surgeons wh)).1 wh).
Proof.
  split_and!; try done.
  - intros i d Hd. unfold merge_surgeons, update_surgeons. cbn.
    exists (if holds (surgeon_changed staging_surgeons d)
            then expire_surgeon CURRENT_DATE d else d).
    split.
    + apply lookup_app_l_Some. by rewrite list_lookup_fmap, Hd.
    + destruct (holds (surgeon_changed staging_surgeons d)) eqn:Hch; [|by left].
      right. split; [by apply changed_is_current in Hch|eauto].
  - intros i d Hd. exists d. split; [done|by left].
Qed.

Lemma merge_robots_keeps_history (CURRENT_DATE : date)
    (staging_robots : list staging_robot) (wh : Warehouse.state) :
  keeps_history wh
    (with_dim_robots
       (merge_robots CURRENT_DATE staging_robots (dim_facilities wh)
                     (dim_robots wh)).1 wh).
Proof.
  split_and!; try done.
  - intros i d Hd. exists d. split; [done|by left].
  - intros i d Hd. unfold merge_robots, update_robots. cbn.
    exists (if holds (robot_staged staging_robots d)
            then expire_robot CURRENT_DATE d else d).
    split.
    + apply lookup_app_l_Some. by rewrite list_lookup_fmap, Hd.
    + destruct (holds (robot_staged staging_robots d)) eqn:Hch; [|by left].
      right. split; [|eauto].
      by apply robot_staged_holds in Hch as [? _].
Qed.

(** A surgeon staged once, with no current row in the dimension (a new
    surgeon, or one whose rows are all closed), has exactly one current
    row after the merge: the staged row, open-ended. *)
Theorem new_surgeon_gets_one_current_row (CURRENT_DATE : date)
    (staging_surgeons : list staging_surgeon) (dim : list dim_surgeon_row)
    (id : string) (s : staging_surgeon) :
  staged_surgeons id staging_surgeons = [s] →
  current_surgeons id dim = [] →
  ∃ key,
    current_surgeons id (merge_surgeons CURRENT_DATE staging_surgeons dim).1
    = [new_surgeon key s]
    ∧ sg_expiration_date (new_surgeon key s) = None
    ∧ sg_is_current (new_surgeon key s) = true.
Proof.
  intros Hstaged Hcur.
  assert (Hs : s ∈ staging_surgeons ∧ s_surgeon_id s = Some id).
  { assert (Hin : s ∈ staged_surgeons id staging_surgeons)
      by (rewrite Hstaged; apply list_elem_of_here).
    apply elem_of_filter_bool in Hin as [Hin Hid].
    by apply bool_decide_eq_true in Hid. }
  destruct Hs as [Hs Hid].
  assert (Hupd : current_surgeons id
                   (update_surgeons CURRENT_DATE staging_surgeons dim) = []).
  { by rewrite current_after_update, Hcur. }
  assert (Hsel : List.filter (λ s0, bool_decide (s_surgeon_id s0 = Some id))
                   (select_surgeons staging_surgeons
                      (update_surgeons CURRENT_DATE staging_surgeons dim))
                 = [s]).
  { unfold select_surgeons.
    rewrite (filter_bind (λ s0, bool_decide (s_surgeon_id s0 = Some id))).
    - fold (staged_surgeons id staging_surgeons). rewrite Hstaged, bind_singleton.
      unfold left_join. rewrite (surgeon_lookup s id) by done. rewrite Hupd.
      by rewrite bind_singleton.
    - intros s0 b (d0 & Hb & _)%list_elem_of_bind.
      destruct (holds (surgeon_new_or_changed s0 d0));
        [by apply list_elem_of_singleton in Hb as ->|by apply elem_of_nil in Hb]. }
  unfold merge_surgeons. cbn [fst]. unfold current_surgeons at 1.
  rewrite List.filter_app.
  fold (current_surgeons id (update_surgeons CURRENT_DATE staging_surgeons dim)).
  rewrite Hupd. cbn [app].
  match goal with
  | |- ∃ key, List.filter ?p ?rows = _ ∧ _ =>
      assert (∃ key, List.filter p rows = [new_surgeon key s]) as [key Hkey]
  end.
  { apply (with_keys_filter_singleton _
             (λ s0, bool_decide (s_surgeon_id s0 = Some id))); [done|].
    exact Hsel. }
  exists key. by rewrite Hkey.
Qed.

(** After the surgeon merge every staged surgeon has a current row. *)
Lemma staged_surgeon_has_current_row (CURRENT_DATE : date)
    (staging_surgeons : list staging_surgeon) (dim : list dim_surgeon_row)
    (s : staging_surgeon) (id : string) :
  s ∈ staging_surgeons → s_surgeon_id s = Some id →
  current_surgeons id (merge_surgeons CURRENT_DATE staging_surgeons dim).1 ≠ [].
Proof.
  intros Hs Hid. unfold merge_surgeons. cbn [fst]. unfold current_surgeons at 1.
  rewrite List.filter_app.
  fold (current_surgeons id (update_surgeons CURRENT_DATE staging_surgeons dim)).
  destruct (current_surgeons id (update_surgeons CURRENT_DATE staging_surgeons dim))
    as [|d ds] eqn:Hcur; [|done].
  cbn [app].
  assert (Hsel : s ∈ select_surgeons staging_surgeons
                       (update_surgeons CURRENT_DATE staging_surgeons dim)).
  { apply elem_of_select. split; [done|]. exists None. split; [|done].
    unfold left_join. rewrite (surgeon_lookup s id) by done. rewrite Hcur.
    apply list_elem_of_here. }
  destruct (with_keys_elem new_surgeon
              (max_key (sg_surgeon_key
                          <$> update_surgeons CURRENT_DATE staging_surgeons dim) + 1)%Z
              _ s Hsel) as [key Hkey].
  intros Hnil.
  assert (Hin : new_surgeon key s
                ∈ List.filter
                    (λ d, sg_is_current d && bool_decide (sg_surgeon_id d = Some id))
                    (with_keys new_surgeon
                       (max_key (sg_surgeon_key
                                   <$> update_surgeons CURRENT_DATE staging_surgeons
                                         dim) + 1)%Z
                       (select_surgeons staging_surgeons
                          (update_surgeons CURRENT_DATE staging_surgeons dim)))).
  { apply elem_of_filter_bool. split; [done|]. cbn.
    by apply bool_decide_eq_true_2. }
  rewrite Hnil in Hin. by apply elem_of_nil in Hin.
Qed.

(** After the robot merge every staged robot has a current row. *)
Lemma staged_robot_has_current_row (CURRENT_DATE : date)
    (staging_robots : list staging_robot) (facilities : list dim_facility_row)
    (dim : list dim_robot_row) (s : staging_robot) (id : string) :
  s ∈ staging_robots → s_robot_id s = Some id →
  current_robots id (merge_robots CURRENT_DATE staging_robots facilities dim).1 ≠ [].
Proof.
  intros Hs Hid. unfold merge_robots. cbn [fst]. unfold current_robots at 1.
  rewrite List.filter_app. intros [_ Hnil]%app_eq_nil.
  destruct (left_join (λ f, sql_and (sql_eq (s_facility_id s) (f_facility_id f))
                                    (Some (f_is_current f))) facilities)
    as [|f fs] eqn:Hf; [by apply left_join_not_nil in Hf|].
  assert (Hsel : (s, f) ∈ select_robots staging_robots facilities).
  { unfold select_robots. apply list_elem_of_bind. exists s. split; [|done].
    apply list_elem_of_bind. exists f. split; [apply list_elem_of_here|].
    rewrite Hf. apply list_elem_of_here. }
  destruct (with_keys_elem new_robot
              (max_key (r_robot_key
                          <$> update_robots CURRENT_DATE staging_robots dim) + 1)%Z
              _ (s, f) Hsel) as [key Hkey].
  assert (Hin : new_robot key (s, f)
                ∈ List.filter
                    (λ d, r_is_current d && bool_decide (r_robot_id d = Some id))
                    (with_keys new_robot
                       (max_key (r_robot_key
                                   <$> update_robots CURRENT_DATE staging_robots dim)
                        + 1)%Z
                       (select_robots staging_robots facilities))).
  { apply elem_of_filter_bool. split; [done|]. cbn.
    by apply bool_decide_eq_true_2. }
  rewrite Hnil in Hin. by apply elem_of_nil in Hin.
Qed.

(** The dimensions are merged before the facts are inserted: a fact
    inserted for a procedure whose surgeon, or robot, is staged in the
    same run carries the key of that dimension; its key is NULL only for
    a surgeon or a robot that the run does not stage. *)
Theorem facts_of_staged_dimensions_have_keys (CURRENT_DATE : date)
    (staging_surgeons : list staging_surgeon) (staging_robots : list staging_robot)
    (staging_procedures : list staging_procedure) (wh : Warehouse.state)
    (x : resolved) :
  x ∈ select_facts staging_procedures
        (after_dimensions CURRENT_DATE staging_surgeons staging_robots wh) →
  (sp_surgeon_id (staged x) ∈ s_surgeon_id <$> staging_surgeons →
   is_Some (sp_surgeon_id (staged x)) →
   ∀ key, is_Some (fp_surgeon_key (new_fact key x)))
  ∧ (sp_robot_id (staged x) ∈ s_robot_id <$> staging_robots →
     is_Some (sp_robot_id (staged x)) →
     ∀ key, is_Some (fp_robot_key (new_fact key x))).
Proof.
  intros [_ Hx]%elem_of_select_facts.
  apply elem_of_resolve in Hx as (_ & _ & Hr & Hsg & _).
  unfold after_dimensions in Hr, Hsg. cbn in Hr, Hsg. split.
  - intros (s & Hid & Hs)%list_elem_of_fmap [id Hsome] key. cbn.
    destruct (surgeon x) as [sg|]; [by eexists|]. exfalso.
    rewrite Hsome in Hid.
    pose proof (staged_surgeon_has_current_row CURRENT_DATE staging_surgeons
                  (dim_surgeons wh) s id Hs (eq_sym Hid)) as Hcur.
    destruct (current_surgeons id _) as [|d ds] eqn:Hd; [done|].
    assert (Hin : d ∈ current_surgeons id
                        (merge_surgeons CURRENT_DATE staging_surgeons
                                        (dim_surgeons wh)).1)
      by (rewrite Hd; apply list_elem_of_here).
    apply elem_of_filter_bool in Hin as [Hin [Hc Hk%bool_decide_eq_true]%andb_true_iff].
    pose proof (proj1 (left_join_none _ _) Hsg d Hin) as Hnone. cbn beta in Hnone.
    rewrite Hsome, holds_and, holds_eq_some, holds_some, Hc, andb_true_r in Hnone.
    by rewrite bool_decide_eq_true_2 in Hnone.
  - intros (s & Hid & Hs)%list_elem_of_fmap [id Hsome] key. cbn.
    destruct (robot x) as [r|]; [by eexists|]. exfalso.
    rewrite Hsome in Hid.
    pose proof (staged_robot_has_current_row CURRENT_DATE staging_robots
                  (dim_facilities wh) (dim_robots wh) s id Hs (eq_sym Hid)) as Hcur.
    destruct (current_robots id _) as [|d ds] eqn:Hd; [done|].
    assert (Hin : d ∈ current_robots id
                        (merge_robots CURRENT_DATE staging_robots
                                      (dim_facilities wh) (dim_robots wh)).1)
      by (rewrite Hd; apply list_elem_of_here).
    apply elem_of_filter_bool in Hin as [Hin [Hc Hk%bool_decide_eq_true]%andb_true_iff].
    pose proof (proj1 (left_join_none _ _) Hr d Hin) as Hnone. cbn beta in Hnone.
    rewrite Hsome, holds_and, holds_eq_some, holds_some, Hc, andb_true_r in Hnone.
    by rewrite bool_decide_eq_true_2 in Hnone.
Qed.

Lemma insert_facts_keeps_history (staging_procedures : list staging_procedure)
    (wh : Warehouse.state) :
  keeps_history wh
    (with_fact_procedures (insert_facts staging_procedures wh).1 wh).
Proof.
  split_and!; try done.
  - intros i d Hd. exists d. split; [done|by left].
  - intros i d Hd. exists d. split; [done|by left].
  - unfold insert_facts. cbn. by eexists.
Qed.

Section Handler.

Variable get_rds_connection : result unit.
Variable get_redshift_connection : result unit.
Variable copy_staging_surgeons : list staging_surgeon → result (list staging_surgeon).
Variable copy_staging_robots : list staging_robot → result (list staging_robot).
Variable copy_staging_procedures :
  list staging_procedure → result (list staging_procedure).
Variable CURRENT_DATE : date.
Variable now_isoformat : string.
Variable yesterday : datetime.
Variable today : datetime.

(** A relation between warehouses that holds across each of the three
    merges, is reflexive and transitive, holds across every load and
    across every invocation of the handler, however they end. *)
Section Steps.

Variable P : Warehouse.state → Warehouse.state → Prop.
Hypothesis P_refl : ∀ wh, P wh wh.
Hypothesis P_trans : ∀ a b c, P a b → P b c → P a c.
Hypothesis P_surgeons : ∀ staging wh,
  P wh (with_dim_surgeons (merge_surgeons CURRENT_DATE staging (dim_surgeons wh)).1 wh).
Hypothesis P_robots : ∀ staging wh,
  P wh (with_dim_robots
          (merge_robots CURRENT_DATE staging (dim_facilities wh) (dim_robots wh)).1 wh).
Hypothesis P_facts : ∀ staging wh,
  P wh (with_fact_procedures (insert_facts staging wh).1 wh).

Lemma load_surgeons_step (w : world) :
  P (warehouse w)
    (warehouse (load_dimension_surgeons get_rds_connection get_redshift_connection
                  copy_staging_surgeons CURRENT_DATE w).2).
Proof.
  unfold load_dimension_surgeons, export_to_s3_csv.
  destruct get_rds_connection; [|apply P_refl].
  destruct get_redshift_connection; [|apply P_refl].
  cbn [rds print]. destruct (surgeons (rds w)) as [|s l]; [apply P_refl|].
  destruct (copy_staging_surgeons (s :: l)) as [staging|e]; [|apply P_refl].
  cbn [warehouse print].
  pose proof (P_surgeons staging (warehouse w)) as H.
  destruct (merge_surgeons CURRENT_DATE staging (dim_surgeons (warehouse w))).
  apply H.
Qed.

Lemma load_robots_step (w : world) :
  P (warehouse w)
    (warehouse (load_dimension_robots get_rds_connection get_redshift_connection
                  copy_staging_robots CURRENT_DATE w).2).
Proof.
  unfold load_dimension_robots, export_to_s3_csv.
  destruct get_rds_connection; [|apply P_refl].
  destruct get_redshift_connection; [|apply P_refl].
  cbn [rds print]. destruct (robots (rds w)) as [|s l]; [apply P_refl|].
  destruct (copy_staging_robots (s :: l)) as [staging|e]; [|apply P_refl].
  cbn [warehouse print].
  pose proof (P_robots staging (warehouse w)) as H.
  destruct (merge_robots CURRENT_DATE staging (dim_facilities (warehouse w))
                         (dim_robots (warehouse w))).
  apply H.
Qed.

Lemma load_facts_step (start_date end_date : option datetime) (w : world) :
  P (warehouse w)
    (warehouse (load_fact_procedures get_rds_connection get_redshift_connection
                  copy_staging_procedures yesterday today start_date end_date w).2).
Proof.
  unfold load_fact_procedures, export_to_s3_csv.
  destruct get_rds_connection; [|apply P_refl].
  destruct get_redshift_connection; [|apply P_refl].
  cbn [rds print].
  destruct (select_procedures (rds w) _ _) as [|s l]; [apply P_refl|].
  destruct (copy_staging_procedures (s :: l)) as [staging|e]; [|apply P_refl].
  cbn [warehouse print].
  pose proof (P_facts staging (warehouse w)) as H.
  destruct (insert_facts staging (warehouse w)).
  apply H.
Qed.

Lemma procedures_stage_step (etl_type : string) (ev : event_params)
    (results : gmap string pyval) (w : world) :
  P (warehouse w)
    (warehouse (procedures_stage get_rds_connection get_redshift_connection
                  copy_staging_procedures yesterday today etl_type ev results w).2).
Proof.
  unfold procedures_stage, on_exception.
  destruct (_ || _); [|apply P_refl].
  pose proof (load_facts_step (start_date ev) (end_date ev) w) as H.
  destruct (load_fact_procedures _ _ _ _ _ _ _ _) as [[n|e] w']; apply H.
Qed.

Lemma handler_steps (ev : event_params) (w : world) :
  P (warehouse w)
    (warehouse (lambda_handler get_rds_connection get_redshift_connection
                  copy_staging_surgeons copy_staging_robots copy_staging_procedures
                  CURRENT_DATE now_isoformat yesterday today ev w).2).
Proof.
  unfold lambda_handler, on_exception.
  destruct (_ || _); [|apply procedures_stage_step].
  pose proof (load_surgeons_step w) as H1.
  destruct (load_dimension_surgeons _ _ _ _ _) as [[n1|e1] w1]; [|apply H1].
  pose proof (load_robots_step w1) as H2.
  destruct (load_dimension_robots _ _ _ _ _) as [[n2|e2] w2];
    [|by apply P_trans with (warehouse w1)].
  apply P_trans with (warehouse w1); [done|].
  apply P_trans with (warehouse w2); [done|].
  apply procedures_stage_step.
Qed.

End Steps.

(** The operational store is only read. *)
Lemma load_surgeons_rds (w : world) :
  rds (load_dimension_surgeons get_rds_connection get_redshift_connection
         copy_staging_surgeons CURRENT_DATE w).2
  = rds w.
Proof.
  unfold load_dimension_surgeons, export_to_s3_csv.
  destruct get_rds_connection; [|done].
  destruct get_redshift_connection; [|done].
  cbn [rds print]. destruct (surgeons (rds w)) as [|s l]; [done|].
  destruct (copy_staging_surgeons (s :: l)) as [staging|e]; [|done].
  by destruct (merge_surgeons _ _ _).
Qed.

Lemma load_robots_rds (w : world) :
  rds (load_dimension_robots get_rds_connection get_redshift_connection
         copy_staging_robots CURRENT_DATE w).2
  = rds w.
Proof.
  unfold load_dimension_robots, export_to_s3_csv.
  destruct get_rds_connection; [|done].
  destruct get_redshift_connection; [|done].
  cbn [rds print]. destruct (robots (rds w)) as [|s l]; [done|].
  destruct (copy_staging_robots (s :: l)) as [staging|e]; [|done].
  by destruct (merge_robots _ _ _ _).
Qed.

Lemma load_facts_rds (start_date end_date : option datetime) (w : world) :
  rds (load_fact_procedures get_rds_connection get_redshift_connection
         copy_staging_procedures yesterday today start_date end_date w).2
  = rds w.
Proof.
  unfold load_fact_procedures, export_to_s3_csv.
  destruct get_rds_connection; [|done].
  destruct get_redshift_connection; [|done].
  cbn [rds print].
  destruct (select_procedures (rds w) _ _) as [|s l]; [done|].
  destruct (copy_staging_procedures (s :: l)) as [staging|e]; [|done].
  by destruct (insert_facts _ _).
Qed.

Lemma procedures_stage_rds (etl_type : string) (ev : event_params)
    (results : gmap string pyval) (w : world) :
  rds (procedures_stage get_rds_connection get_redshift_connection
         copy_staging_procedures yesterday today etl_type ev results w).2
  = rds w.
Proof.
  unfold procedures_stage, on_exception.
  destruct (_ || _); [|done].
  pose proof (load_facts_rds (start_date ev) (end_date ev) w) as H.
  by destruct (load_fact_procedures _ _ _ _ _ _ _ _) as [[n|e] w'].
Qed.

Lemma handler_rds (ev : event_params) (w : world) :
  rds (lambda_handler get_rds_connection get_redshift_connection
         copy_staging_surgeons copy_staging_robots copy_staging_procedures
         CURRENT_DATE now_isoformat yesterday today ev w).2
  = rds w.
Proof.
  unfold lambda_handler, on_exception.
  destruct (_ || _); [|apply procedures_stage_rds].
  pose proof (load_surgeons_rds w) as H1.
  destruct (load_dimension_surgeons _ _ _ _ _) as [[n1|e1] w1]; [|done].
  pose proof (load_robots_rds w1) as H2.
  destruct (load_dimension_robots _ _ _ _ _) as [[n2|e2] w2]; cbn in *; [|congruence].
  rewrite procedures_stage_rds. congruence.
Qed.

(** No invocation of the handler, whatever its parameters and however it
    ends, deletes or rewrites history: every dimension row stays where it
    was, unchanged or closed, and a closed row never changes again; the
    facility dimension and the telemetry facts are as they were; every
    procedure fact stays where it was, unchanged.  The operational store
    is only read. *)
Theorem etl_handler_keeps_history (ev : event_params) (w : world) :
  keeps_history (warehouse w)
    (warehouse (lambda_handler get_rds_connection get_redshift_connection
                  copy_staging_surgeons copy_staging_robots copy_staging_procedures
                  CURRENT_DATE now_isoformat yesterday today ev w).2)
  ∧ fact_procedure_telemetry
      (warehouse (lambda_handler get_rds_connection get_redshift_connection
                    copy_staging_surgeons copy_staging_robots copy_staging_procedures
                    CURRENT_DATE now_isoformat yesterday today ev w).2)
    = fact_procedure_telemetry (warehouse w)
  ∧ rds (lambda_handler get_rds_connection get_redshift_connection
           copy_staging_surgeons copy_staging_robots copy_staging_procedures
           CURRENT_DATE now_isoformat yesterday today ev w).2
    = rds w.
Proof.
  split_and!.
  - apply handler_steps.
    + apply keeps_history_refl.
    + apply keeps_history_trans.
    + intros staging wh. apply merge_surgeons_keeps_history.
    + intros staging wh. apply merge_robots_keeps_history.
    + intros staging wh. apply insert_facts_keeps_history.
  - symmetry.
    apply (handler_steps
             (λ a b, fact_procedure_telemetry a = fact_procedure_telemetry b));
      try done. intros a b c. congruence.
  - apply handler_rds.
Qed.

(** With both connections open, a load whose extract is empty returns 0
    and leaves the warehouse as it was; the COPY is not reached, so this
    holds whatever the COPY would do. *)
Theorem empty_extract_loads_nothing (w : world) :
  get_rds_connection = Ok () →
  get_redshift_connection = Ok () →
  (surgeons (rds w) = [] →
   (load_dimension_surgeons get_rds_connection get_redshift_connection
      copy_staging_surgeons CURRENT_DATE w).1 = Ok 0%Z
   ∧ warehouse (load_dimension_surgeons get_rds_connection get_redshift_connection
                  copy_staging_surgeons CURRENT_DATE w).2 = warehouse w)
  ∧ (robots (rds w) = [] →
     (load_dimension_robots get_rds_connection get_redshift_connection
        copy_staging_robots CURRENT_DATE w).1 = Ok 0%Z
     ∧ warehouse (load_dimension_robots get_rds_connection get_redshift_connection
                    copy_staging_robots CURRENT_DATE w).2 = warehouse w)
  ∧ (∀ start_date end_date,
       select_procedures (rds w) (default yesterday start_date)
                         (default today end_date) = [] →
       (load_fact_procedures get_rds_connection get_redshift_connection
          copy_staging_procedures yesterday today start_date end_date w).1 = Ok 0%Z
       ∧ warehouse (load_fact_procedures get_rds_connection get_redshift_connection
                      copy_staging_procedures yesterday today start_date end_date w).2
         = warehouse w).
Proof.
  intros Hrds Hred. split_and!.
  - intros Hnil. unfold load_dimension_surgeons, export_to_s3_csv.
    rewrite Hrds, Hred. cbn [rds print]. by rewrite Hnil.
  - intros Hnil. unfold load_dimension_robots, export_to_s3_csv.
    rewrite Hrds, Hred. cbn [rds print]. by rewrite Hnil.
  - intros start_date end_date Hnil. unfold load_fact_procedures, export_to_s3_csv.
    rewrite Hrds, Hred. cbn [rds print]. by rewrite Hnil.
Qed.

(** A load that raises, because a connection cannot be opened or because
    the COPY fails, leaves the warehouse as it was. *)
Theorem failed_load_changes_nothing (w : world) (e : exn) :
  ((load_dimension_surgeons get_rds_connection get_redshift_connection
      copy_staging_surgeons CURRENT_DATE w).1 = Raise e →
   warehouse (load_dimension_surgeons get_rds_connection get_redshift_connection
                copy_staging_surgeons CURRENT_DATE w).2 = warehouse w)
  ∧ ((load_dimension_robots get_rds_connection get_redshift_connection
        copy_staging_robots CURRENT_DATE w).1 = Raise e →
     warehouse (load_dimension_robots get_rds_connection get_redshift_connection
                  copy_staging_robots CURRENT_DATE w).2 = warehouse w)
  ∧ (∀ start_date end_date,
       (load_fact_procedures get_rds_connection get_redshift_connection
          copy_staging_procedures yesterday today start_date end_date w).1 = Raise e →
       warehouse (load_fact_procedures get_rds_connection get_redshift_connection
                    copy_staging_procedures yesterday today start_date end_date w).2
       = warehouse w).
Proof.
  split_and!.
  - unfold load_dimension_surgeons, export_to_s3_csv.
    destruct get_rds_connection; [|done].
    destruct get_redshift_connection; [|done].
    cbn [rds print]. destruct (surgeons (rds w)) as [|s l]; [done|].
    destruct (copy_staging_surgeons (s :: l)) as [staging|e']; [|done].
    by destruct (merge_surgeons _ _ _).
  - unfold load_dimension_robots, export_to_s3_csv.
    destruct get_rds_connection; [|done].
    destruct get_redshift_connection; [|done].
    cbn [rds print]. destruct (robots (rds w)) as [|s l]; [done|].
    destruct (copy_staging_robots (s :: l)) as [staging|e']; [|done].
    by destruct (merge_robots _ _ _ _).
  - intros start_date end_date.
    unfold load_fact_procedures, export_to_s3_csv.
    destruct get_rds_connection; [|done].
    destruct get_redshift_connection; [|done].
    cbn [rds print].
    destruct (select_procedures (rds w) _ _) as [|s l]; [done|].
    destruct (copy_staging_procedures (s :: l)) as [staging|e']; [|done].
    by destruct (insert_facts _ _).
Qed.

(** The [etl_type] of the event selects the loads: 'dimensions' leaves
    the procedure facts as they were, 'procedures' leaves the surgeon and
    robot dimensions as they were, and any value other than 'full',
    'dimensions' and 'procedures' runs no load at all: the handler opens
    no connection, prints nothing and returns a 'success' result with no
    count. *)
Theorem etl_type_selects_the_loads (ev : event_params) (w : world) (t : string) :
  etl_type ev = Some t →
  (t = "dimensions" →
   fact_procedures
     (warehouse (lambda_handler get_rds_connection get_redshift_connection
                   copy_staging_surgeons copy_staging_robots copy_staging_procedures
                   CURRENT_DATE now_isoformat yesterday today ev w).2)
   = fact_procedures (warehouse w))
  ∧ (t = "procedures" →
     dim_surgeons
       (warehouse (lambda_handler get_rds_connection get_redshift_connection
                     copy_staging_surgeons copy_staging_robots copy_staging_procedures
                     CURRENT_DATE now_isoformat yesterday today ev w).2)
     = dim_surgeons (warehouse w)
     ∧ dim_robots
         (warehouse (lambda_handler get_rds_connection get_redshift_connection
                       copy_staging_surgeons copy_staging_robots
                       copy_staging_procedures
                       CURRENT_DATE now_isoformat yesterday today ev w).2)
       = dim_robots (warehouse w))
  ∧ (t ≠ "full" → t ≠ "dimensions" → t ≠ "procedures" →
     (lambda_handler get_rds_connection get_redshift_connection
        copy_staging_surgeons copy_staging_robots copy_staging_procedures
        CURRENT_DATE now_isoformat yesterday today ev w).2 = w
     ∧ outcome (lambda_handler get_rds_connection get_redshift_connection
                  copy_staging_surgeons copy_staging_robots copy_staging_procedures
                  CURRENT_DATE now_isoformat yesterday today ev w).1
       = Ok (<["status" := PStr "success"]>
             (<["timestamp" := PStr now_isoformat]>
             (<["etl_type" := PStr t]>
             (<["records_loaded" := PDict ∅]> ∅))))).
Proof.
  intros Ht. split_and!.
  - intros ->. unfold lambda_handler. rewrite Ht. cbn [default orb String.eqb].
    change (("dimensions" =? "full")%string || ("dimensions" =? "dimensions")%string)
      with true. cbn iota.
    pose proof (load_surgeons_step (λ a b, fact_procedures b = fact_procedures a)
                  (λ _, eq_refl) (λ _ _, eq_refl) w) as H1.
    destruct (load_dimension_surgeons _ _ _ _ _) as [[n1|e1] w1]; [|apply H1].
    pose proof (load_robots_step (λ a b, fact_procedures b = fact_procedures a)
                  (λ _, eq_refl) (λ _ _, eq_refl) w1) as H2.
    destruct (load_dimension_robots _ _ _ _ _) as [[n2|e2] w2]; cbn in *; congruence.
  - intros ->. unfold lambda_handler. rewrite Ht. cbn [default].
    change (("procedures" =? "full")%string || ("procedures" =? "dimensions")%string)
      with false. cbn iota.
    unfold procedures_stage.
    change (("procedures" =? "full")%string || ("procedures" =? "procedures")%string)
      with true. cbn iota.
    pose proof (load_facts_step
                  (λ a b, dim_surgeons b = dim_surgeons a
                          ∧ dim_robots b = dim_robots a)
                  (λ _, conj eq_refl eq_refl)
                  (λ _ _, conj eq_refl eq_refl)
                  (start_date ev) (end_date ev) w) as H.
    by destruct (load_fact_procedures _ _ _ _ _ _ _ _) as [[n|e] w'].
  - intros H1 H2 H3. unfold lambda_handler, procedures_stage. rewrite Ht.
    cbn [default from_option]. unfold id.
    apply String.eqb_neq in H1, H2, H3. by rewrite H1, H2, H3.
Qed.

(** A full run in which every connection opens, every extract has rows
    and every COPY succeeds is the three merges in the order surgeons,
    robots, procedure facts, each on the warehouse the one before has
    left; the result carries the row count of each INSERT. *)
Theorem full_run_is_the_three_merges (ev : event_params) (w : world)
    (staging_surgeons : list staging_surgeon) (staging_robots : list staging_robot)
    (staging_procedures : list staging_procedure) :
  etl_type ev = Some "full" ∨ etl_type ev = None →
  get_rds_connection = Ok () →
  get_redshift_connection = Ok () →
  surgeons (rds w) ≠ [] →
  copy_staging_surgeons (surgeons (rds w)) = Ok staging_surgeons →
  robots (rds w) ≠ [] →
  copy_staging_robots (robots (rds w)) = Ok staging_robots →
  select_procedures (rds w) (default yesterday (start_date ev))
                    (default today (end_date ev)) ≠ [] →
  copy_staging_procedures
    (select_procedures (rds w) (default yesterday (start_date ev))
                       (default today (end_date ev)))
  = Ok staging_procedures →
  warehouse (lambda_handler get_rds_connection get_redshift_connection
               copy_staging_surgeons copy_staging_robots copy_staging_procedures
               CURRENT_DATE now_isoformat yesterday today ev w).2
  = with_fact_procedures
      (insert_facts staging_procedures
         (after_dimensions CURRENT_DATE staging_surgeons staging_robots
                           (warehouse w))).1
      (after_dimensions CURRENT_DATE staging_surgeons staging_robots (warehouse w))
  ∧ ∃ results,
      outcome (lambda_handler get_rds_connection get_redshift_connection
                 copy_staging_surgeons copy_staging_robots copy_staging_procedures
                 CURRENT_DATE now_isoformat yesterday today ev w).1
      = Ok results
      ∧ results !! "records_loaded"
        = Some (PDict
                  (<["procedures" :=
                       PInt (insert_facts staging_procedures
                               (after_dimensions CURRENT_DATE staging_surgeons
                                  staging_robots (warehouse w))).2]>
                  (<["robots" :=
                       PInt (merge_robots CURRENT_DATE staging_robots
                               (dim_facilities (warehouse w))
                               (dim_robots (warehouse w))).2]>
                  (<["surgeons" :=
                       PInt (merge_surgeons CURRENT_DATE staging_surgeons
                               (dim_surgeons (warehouse w))).2]> ∅)))).
Proof.
  intros Htype Hrds Hred Hs Hcs Hr Hcr Hp Hcp.
  assert (Hfull : default "full" (etl_type ev) = "full")
    by (destruct Htype as [-> | ->]; done).
  unfold lambda_handler, procedures_stage. rewrite Hfull.
  change (("full" =? "full")%string || ("full" =? "dimensions")%string) with true.
  change (("full" =? "full")%string || ("full" =? "procedures")%string) with true.
  cbn iota.
  unfold load_dimension_surgeons, export_to_s3_csv. rewrite Hrds, Hred.
  cbn [rds print].
  destruct (surgeons (rds w)) as [|s0 ss] eqn:Es; [done|]. rewrite Hcs.
  cbn [warehouse print].
  destruct (merge_surgeons CURRENT_DATE staging_surgeons (dim_surgeons (warehouse w)))
    as [dim1 n1] eqn:E1.
  unfold load_dimension_robots, export_to_s3_csv.
  cbn [rds print set_warehouse].
  destruct (robots (rds w)) as [|r0 rs] eqn:Er; [done|]. rewrite Hcr.
  cbn [warehouse print set_warehouse with_dim_surgeons dim_facilities dim_robots].
  destruct (merge_robots CURRENT_DATE staging_robots (dim_facilities (warehouse w))
                         (dim_robots (warehouse w)))
    as [dim2 n2] eqn:E2.
  unfold load_fact_procedures, export_to_s3_csv.
  cbn [rds print set_warehouse].
  destruct (select_procedures (rds w) _ _) as [|p0 ps] eqn:Ep; [done|]. rewrite Hcp.
  cbn [warehouse print set_warehouse].
  unfold after_dimensions. rewrite E1. cbn [fst with_dim_surgeons dim_facilities dim_robots].
  rewrite E2. cbn [fst snd].
  destruct (insert_facts staging_procedures _) as [facts n3] eqn:E3.
  cbn [fst snd warehouse print set_warehouse outcome].
  split; [done|].
  eexists. split; [done|].
  unfold set_records_loaded.
  rewrite lookup_insert_ne, lookup_insert_ne, lookup_insert_ne, lookup_insert_eq by done.
  rewrite lookup_insert_eq. rewrite lookup_insert_eq. rewrite lookup_insert_eq.
  done.
Qed.

End Handler.

Local Open Scope Z_scope.

(** Day one: the surgeon is new. *)
Lemma new_surgeon_gets_one_current_row_witness :
  staged_surgeons "SURG-0001" RdsExamples.day_one
  = [RdsExamples.surgeon "SURG-0001" "Dr. Smith" 5]
  ∧ ∃ key,
      current_surgeons "SURG-0001" (merge_surgeons 19800 RdsExamples.day_one []).1
      = [new_surgeon key (RdsExamples.surgeon "SURG-0001" "Dr. Smith" 5)].
Proof.
  split; [reflexivity|].
  destruct (new_surgeon_gets_one_current_row 19800 RdsExamples.day_one []
              "SURG-0001" (RdsExamples.surgeon "SURG-0001" "Dr. Smith" 5)
              eq_refl eq_refl) as (key & Hkey & _).
  exists key. exact Hkey.
Defined.

(** The empty store, with a COPY that would fail. *)
Lemma empty_extract_loads_nothing_witness :
  surgeons (rds RdsRunExamples.idle_world) = []
  ∧ (load_dimension_surgeons (Ok ()) (Ok ()) (λ _, Raise RdsExamples.copy_failure)
       19801 RdsRunExamples.idle_world).1 = Ok 0
  ∧ warehouse (load_dimension_surgeons (Ok ()) (Ok ())
                 (λ _, Raise RdsExamples.copy_failure)
                 19801 RdsRunExamples.idle_world).2
    = warehouse RdsRunExamples.idle_world.
Proof.
  split; [reflexivity|].
  destruct (empty_extract_loads_nothing (Ok ()) (Ok ())
              (λ _, Raise RdsExamples.copy_failure)
              (λ _, Raise RdsExamples.copy_failure)
              (λ _, Raise RdsExamples.copy_failure)
              19801 (RdsExamples.midnight 5) (RdsExamples.midnight 6)
              RdsRunExamples.idle_world eq_refl eq_refl) as (Hs & _ & _).
  exact (Hs eq_refl).
Defined.

(** The COPY of the robot file fails. *)
Lemma failed_load_changes_nothing_witness :
  (load_dimension_robots (Ok ()) (Ok ()) (λ _, Raise RdsExamples.copy_failure)
     19800 RdsExamples.fresh_world).1 = Raise RdsExamples.copy_failure
  ∧ warehouse (load_dimension_robots (Ok ()) (Ok ())
                 (λ _, Raise RdsExamples.copy_failure)
                 19800 RdsExamples.fresh_world).2
    = warehouse RdsExamples.fresh_world.
Proof.
  split; [reflexivity|].
  destruct (failed_load_changes_nothing (Ok ()) (Ok ()) Ok
              (λ _, Raise RdsExamples.copy_failure) Ok
              19800 (RdsExamples.midnight 5) (RdsExamples.midnight 6)
              RdsExamples.fresh_world RdsExamples.copy_failure) as (_ & Hr & _).
  exact (Hr eq_refl).
Defined.

(** An unknown [etl_type]: nothing happens, even with a warehouse that
    cannot be reached. *)
Lemma etl_type_selects_the_loads_witness :
  etl_type RdsRunExamples.incremental_run = Some "incremental"
  ∧ (lambda_handler (Ok ()) (Raise TelemetryExamples.unreachable) Ok Ok Ok
       19800 "2024-03-06T01:00:00" (RdsExamples.midnight 5) (RdsExamples.midnight 6)
       RdsRunExamples.incremental_run RdsExamples.fresh_world).2
    = RdsExamples.fresh_world.
Proof.
  split; [reflexivity|].
  destruct (etl_type_selects_the_loads (Ok ()) (Raise TelemetryExamples.unreachable)
              Ok Ok Ok 19800 "2024-03-06T01:00:00"
              (RdsExamples.midnight 5) (RdsExamples.midnight 6)
              RdsRunExamples.incremental_run RdsExamples.fresh_world
              "incremental" eq_refl) as (_ & _ & Hnone).
  destruct Hnone as [Hw _]; [discriminate|discriminate|discriminate|].
  exact Hw.
Defined.

(** The robot of the examples, merged into the table that holds it. *)
Lemma robot_merge_keeps_invariant_witness :
  NoDup (s_robot_id <$> RdsExamples.one_robot)
  ∧ facilities_unambiguous RdsExamples.facilities
  ∧ robots_invariant RdsExamples.robots_loaded_once
  ∧ robots_invariant
      (merge_robots 19801 RdsExamples.one_robot RdsExamples.facilities
                    RdsExamples.robots_loaded_once).1.
Proof.
  assert (H1 : NoDup (s_robot_id <$> RdsExamples.one_robot)).
  { cbn. apply NoDup_singleton. }
  assert (H2 : facilities_unambiguous RdsExamples.facilities).
  { intros id. unfold current_facilities. cbn.
    destruct (bool_decide _); cbn; lia. }
  assert (H3 : robots_invariant RdsExamples.robots_loaded_once).
  { intros id Hid. cbn in Hid. apply list_elem_of_singleton in Hid.
    by injection Hid as ->. }
  split_and!; try done.
  exact (robot_merge_keeps_invariant 19801 RdsExamples.one_robot
           RdsExamples.facilities RdsExamples.robots_loaded_once H1 H2 H3).
Defined.

(** The store of the examples: the surgeon and the robot of the
    procedure are staged in the run that loads it. *)
Lemma facts_of_staged_dimensions_have_keys_witness :
  ∃ x,
    x ∈ select_facts RdsExamples.staged_procedures
          (after_dimensions 19800 RdsExamples.day_one RdsExamples.one_robot
                            RdsExamples.fresh_warehouse)
    ∧ is_Some (fp_surgeon_key (new_fact 1 x))
    ∧ is_Some (fp_robot_key (new_fact 1 x)).
Proof.
  destruct (select_facts RdsExamples.staged_procedures
              (after_dimensions 19800 RdsExamples.day_one RdsExamples.one_robot
                                RdsExamples.fresh_warehouse))
    as [|x xs] eqn:Hsel; [vm_compute in Hsel; discriminate Hsel|].
  assert (Hx : x ∈ select_facts RdsExamples.staged_procedures
                     (after_dimensions 19800 RdsExamples.day_one
                        RdsExamples.one_robot RdsExamples.fresh_warehouse))
    by (rewrite Hsel; apply list_elem_of_here).
  exists x. split; [apply list_elem_of_here|].
  destruct (facts_of_staged_dimensions_have_keys 19800 RdsExamples.day_one
              RdsExamples.one_robot RdsExamples.staged_procedures
              RdsExamples.fresh_warehouse x Hx) as [Hsurgeon Hrobot].
  vm_compute in Hsel. injection Hsel as <- _.
  split.
  - apply Hsurgeon; [apply list_elem_of_here|by eexists].
  - apply Hrobot; [apply list_elem_of_here|by eexists].
Defined.

(** The full run of the examples. *)
Lemma full_run_is_the_three_merges_witness :
  warehouse RdsExamples.invoke_full.2
  = with_fact_procedures
      (insert_facts RdsExamples.staged_procedures
         (after_dimensions 19800 RdsExamples.day_one RdsExamples.one_robot
                           RdsExamples.fresh_warehouse)).1
      (after_dimensions 19800 RdsExamples.day_one RdsExamples.one_robot
                        RdsExamples.fresh_warehouse).
Proof.
  assert (H1 : surgeons (rds RdsExamples.fresh_world) ≠ []) by discriminate.
  assert (H2 : robots (rds RdsExamples.fresh_world) ≠ []) by discriminate.
  assert (H3 : select_procedures (rds RdsExamples.fresh_world)
                 (default (RdsExamples.midnight 5) (start_date RdsExamples.full_run))
                 (default (RdsExamples.midnight 6) (end_date RdsExamples.full_run))
               ≠ []).
  { vm_compute. discriminate. }
  destruct (full_run_is_the_three_merges (Ok ()) (Ok ()) Ok Ok Ok 19800
              "2024-03-06T01:00:00" (RdsExamples.midnight 5) (RdsExamples.midnight 6)
              RdsExamples.full_run RdsExamples.fresh_world
              RdsExamples.day_one RdsExamples.one_robot RdsExamples.staged_procedures
              (or_introl eq_refl) eq_refl eq_refl H1 eq_refl H2 eq_refl H3 eq_refl)
    as [Hwh _].
  exact Hwh.
Defined.

(** The renamed surgeon: the first merge closes her row, the second merge
    changes nothing. *)
Lemma surgeon_merge_again_witness :
  merge_surgeons 19901 RdsExamples.renamed
    (merge_surgeons 19900 RdsExamples.renamed RdsExamples.after_day_one).1
  = ((merge_surgeons 19900 RdsExamples.renamed RdsExamples.after_day_one).1, 0).
Proof.
  apply (surgeon_merge_again 19900 RdsExamples.renamed 19901
           RdsExamples.after_day_one).
  - intros s Hs. apply list_elem_of_singleton in Hs as ->. cbn. eauto.
  - cbn. apply NoDup_singleton.
  - intros d s Hd Hs _ _ _.
    apply list_elem_of_singleton in Hs as ->.
    apply list_elem_of_singleton in Hd as ->.
    reflexivity.
Defined.

End RdsRunFacts.

(** * The procedure query and the keys of the facts *)

Module ProcedureQueryFacts.

Import Sql ListFacts SqlFacts Warehouse RdsEtl RdsRun RdsEtlFacts.

Local Open Scope Z_scope.

Lemma bind_to_nil {A B} (l : list A) : l ≫= (λ _, @nil B) = [].
Proof. induction l as [|a l IH]; [done|]. by rewrite bind_cons, IH. Qed.

(** The query, procedure by procedure: the rows of the joins when the
    procedure starts in the window, nothing otherwise. *)
Lemma select_procedures_by_procedure (src : source) (start_date end_date : datetime) :
  select_procedures src start_date end_date
  = surgical_procedures src
    ≫= (λ p, if in_window start_date end_date p then joined src p else []).
Proof.
  unfold select_procedures. apply list_bind_ext; [|done]. intros p.
  unfold in_window, joined.
  destruct (holds (sql_and _ _)); [done|].
  etrans; [|apply (bind_to_nil
                     (left_join (λ r, sql_eq (p_robot_id p) (sr_robot_id r))
                                (surgical_robots src)))].
  apply list_bind_ext; [|done]. intros r. apply bind_to_nil.
Qed.

Lemma in_window_iff (start_date end_date : datetime) (p : surgical_procedure) :
  in_window start_date end_date p = true
  ↔ ∃ t, p_start_time p = Some t
         ∧ ts_ord start_date ≤ ts_ord t < ts_ord end_date.
Proof.
  unfold in_window, ts_ge, ts_lt. rewrite holds_and, andb_true_iff.
  destruct (p_start_time p) as [t|]; cbn.
  - destruct (Z.leb_spec (ts_ord start_date) (ts_ord t)),
             (Z.ltb_spec (ts_ord t) (ts_ord end_date)); split;
      try (intros [? ?]; done); try (intros (t' & [= <-] & ?); lia).
    intros _. exists t. split; [done|lia].
  - split; [by intros [? ?]|by intros (t & ? & _)].
Qed.

Lemma joined_not_nil (src : source) (p : surgical_procedure) :
  ∃ r o, procedure_row p r o ∈ joined src p.
Proof.
  unfold joined.
  destruct (left_join (λ r, sql_eq (p_robot_id p) (sr_robot_id r))
                      (surgical_robots src)) as [|r rs] eqn:Hr;
    [by apply left_join_not_nil in Hr|].
  destruct (left_join (λ o, sql_eq (p_procedure_id p) (o_procedure_id o))
                      (procedure_outcomes src)) as [|o os] eqn:Ho;
    [by apply left_join_not_nil in Ho|].
  exists r, o. rewrite bind_cons. apply elem_of_app. left.
  rewrite bind_cons. apply elem_of_app. left. apply list_elem_of_here.
Qed.

(** The window of the procedure query is half open: every staged row
    comes from a procedure whose start time is not NULL, not before
    [start_date] and before [end_date]; and every such procedure is
    staged, whether or not it has a robot row or an outcome row. *)
Theorem procedure_window_is_half_open (src : source)
    (start_date end_date : datetime) :
  (∀ row, row ∈ select_procedures src start_date end_date →
          ∃ p r o t,
            p ∈ surgical_procedures src
            ∧ p_start_time p = Some t
            ∧ ts_ord start_date ≤ ts_ord t < ts_ord end_date
            ∧ row = procedure_row p r o)
  ∧ (∀ p t, p ∈ surgical_procedures src →
            p_start_time p = Some t →
            ts_ord start_date ≤ ts_ord t < ts_ord end_date →
            ∃ r o, procedure_row p r o ∈ select_procedures src start_date end_date).
Proof.
  split.
  - intros row Hrow. by apply elem_of_select_procedures.
  - intros p t Hp Ht Hwin. rewrite select_procedures_by_procedure.
    destruct (joined_not_nil src p) as (r & o & Hrow).
    exists r, o. apply list_elem_of_bind. exists p. split; [|done].
    rewrite (proj2 (in_window_iff start_date end_date p)); [done|eauto].
Qed.

(** Two consecutive windows stage, together, exactly the rows of the
    window they make up, each as often: runs over consecutive days
    neither skip a procedure nor stage one twice. *)
Theorem consecutive_windows_partition (src : source) (a b c : datetime) :
  ts_ord a ≤ ts_ord b ≤ ts_ord c →
  select_procedures src a c
  ≡ₚ select_procedures src a b ++ select_procedures src b c.
Proof.
  intros Hab. rewrite !select_procedures_by_procedure.
  induction (surgical_procedures src) as [|p l IH]; [done|].
  rewrite !bind_cons, IH.
  assert (Hcases :
    (in_window a c p = false ∧ in_window a b p = false ∧ in_window b c p = false)
    ∨ (in_window a c p = true ∧ in_window a b p = true ∧ in_window b c p = false)
    ∨ (in_window a c p = true ∧ in_window a b p = false ∧ in_window b c p = true)).
  { unfold in_window, ts_ge, ts_lt. rewrite !holds_and.
    destruct (p_start_time p) as [t|]; cbn; [|by left].
    destruct (Z.leb_spec (ts_ord a) (ts_ord t)), (Z.ltb_spec (ts_ord t) (ts_ord c)),
             (Z.ltb_spec (ts_ord t) (ts_ord b)), (Z.leb_spec (ts_ord b) (ts_ord t));
      cbn; auto; lia. }
  destruct Hcases as [(-> & -> & ->)|[(-> & -> & ->)|(-> & -> & ->)]]; cbn [app].
  - done.
  - by rewrite <- app_assoc.
  - apply Permutation_app_swap_app.
Qed.

(** A lookup on a column with distinct values matches at most one row. *)
Lemma unique_match {R} (key : R → option string) (x : option string) (t : list R) :
  NoDup (key <$> t) →
  (length (List.filter (λ r, holds (sql_eq x (key r))) t) ≤ 1)%nat.
Proof.
  intros Hnd. destruct x as [id|].
  - rewrite (filter_ext _ (λ r, bool_decide (key r = Some id)))
      by (intros r; apply holds_eq_some).
    destruct (decide (Some id ∈ key <$> t)) as [Hin|Hnotin].
    + destruct (filter_unique_key key t (Some id) Hnd Hin) as [r ->]. done.
    + rewrite filter_none; [cbn; lia|]. intros r Hr.
      apply bool_decide_eq_false_2. intros Hk. apply Hnotin.
      apply list_elem_of_fmap. by exists r.
  - rewrite filter_none; [cbn; lia|]. intros r _. apply holds_eq_none_l.
Qed.

(** When procedure ids are distinct in [surgical_procedures], robot ids
    in [surgical_robots] and procedure ids in [procedure_outcomes], the
    query stages every procedure id at most once. *)
Theorem staged_procedures_are_distinct (src : source)
    (start_date end_date : datetime) :
  NoDup (p_procedure_id <$> surgical_procedures src) →
  NoDup (sr_robot_id <$> surgical_robots src) →
  NoDup (o_procedure_id <$> procedure_outcomes src) →
  NoDup (sp_procedure_id <$> select_procedures src start_date end_date).
Proof.
  intros Hp Hr Ho. rewrite select_procedures_by_procedure.
  apply (NoDup_bind_keys p_procedure_id); [| |done].
  - intros p. destruct (in_window _ _ p); [|cbn; lia].
    unfold joined.
    destruct (length_one _ (left_join_one _ _
                (unique_match sr_robot_id (p_robot_id p) _ Hr))) as [r ->].
    destruct (length_one _ (left_join_one _ _
                (unique_match o_procedure_id (p_procedure_id p) _ Ho))) as [o ->].
    done.
  - intros p row Hrow. destruct (in_window _ _ p); [|by apply elem_of_nil in Hrow].
    unfold joined in Hrow.
    apply list_elem_of_bind in Hrow as (r & Hrow & _).
    apply list_elem_of_bind in Hrow as (o & Hrow & _).
    by apply list_elem_of_singleton in Hrow as ->.
Qed.

(** The keys of a timestamp can be read back: the time key gives the hour
    and the minute and drops the seconds, the date key gives the year,
    the month and the day; the telemetry transform and the procedure
    query build the same time key. *)
Theorem time_and_date_keys_decode (t : datetime) :
  0 ≤ hour t < 24 → 0 ≤ minute t < 60 →
  1 ≤ month t ≤ 12 → 1 ≤ day t ≤ 31 →
  (time_key t / 10000 = hour t
   ∧ time_key t `mod` 10000 / 100 = minute t
   ∧ time_key t `mod` 100 = 0)
  ∧ (date_key t / 10000 = year t
     ∧ date_key t `mod` 10000 / 100 = month t
     ∧ date_key t `mod` 100 = day t)
  ∧ S3Telemetry.time_key t = time_key t.
Proof.
  intros Hh Hm Hmo Hd. unfold time_key, date_key, S3Telemetry.time_key.
  split_and!; try done.
  - symmetry. apply Z.div_unique with (minute t * 100); lia.
  - replace (hour t * 10000 + minute t * 100) with (minute t * 100 + hour t * 10000)
      by lia.
    rewrite Z.mod_add by lia. rewrite Z.mod_small by lia.
    apply Z.div_mul. lia.
  - replace (hour t * 10000 + minute t * 100)
      with (0 + (hour t * 100 + minute t) * 100) by lia.
    by rewrite Z.mod_add.
  - symmetry. apply Z.div_unique with (month t * 100 + day t); lia.
  - replace (year t * 10000 + month t * 100 + day t)
      with (month t * 100 + day t + year t * 10000) by lia.
    rewrite Z.mod_add by lia. rewrite Z.mod_small by lia.
    symmetry. apply Z.div_unique with (day t); lia.
  - replace (year t * 10000 + month t * 100 + day t)
      with (day t + (year t * 100 + month t) * 100) by lia.
    rewrite Z.mod_add by lia. apply Z.mod_small. lia.
Qed.

(** The store of the examples and the fifth of March. *)
Lemma procedure_window_is_half_open_witness :
  RdsExamples.staged_0001
  ∈ select_procedures RdsExamples.store (RdsExamples.midnight 5)
      (RdsExamples.midnight 6)
  ∧ ∃ p r o t,
      p ∈ surgical_procedures RdsExamples.store
      ∧ p_start_time p = Some t
      ∧ ts_ord (RdsExamples.midnight 5) ≤ ts_ord t < ts_ord (RdsExamples.midnight 6)
      ∧ RdsExamples.staged_0001 = procedure_row p r o.
Proof.
  assert (H : RdsExamples.staged_0001
              ∈ select_procedures RdsExamples.store (RdsExamples.midnight 5)
                  (RdsExamples.midnight 6)).
  { vm_compute. apply list_elem_of_here. }
  split; [exact H|].
  exact (proj1 (procedure_window_is_half_open RdsExamples.store
                  (RdsExamples.midnight 5) (RdsExamples.midnight 6))
               RdsExamples.staged_0001 H).
Defined.

(** The fourth and the fifth of March. *)
Lemma consecutive_windows_partition_witness :
  select_procedures RdsExamples.store (RdsExamples.midnight 4) (RdsExamples.midnight 6)
  ≡ₚ select_procedures RdsExamples.store (RdsExamples.midnight 4)
       (RdsExamples.midnight 5)
     ++ select_procedures RdsExamples.store (RdsExamples.midnight 5)
          (RdsExamples.midnight 6).
Proof.
  apply consecutive_windows_partition. vm_compute. split; discriminate.
Defined.

(** The store of the examples. *)
Lemma staged_procedures_are_distinct_witness :
  NoDup (sp_procedure_id <$> RdsExamples.staged_procedures).
Proof.
  apply staged_procedures_are_distinct.
  - cbn. apply NoDup_singleton.
  - cbn. apply NoDup_singleton.
  - cbn. apply NoDup_nil_2.
Defined.

(** 14:37 on the fifth of March 2024. *)
Lemma time_and_date_keys_decode_witness :
  time_key (RdsExamples.at_time 14 37) / 10000 = 14
  ∧ date_key (RdsExamples.at_time 14 37) `mod` 100 = 5.
Proof.
  destruct (time_and_date_keys_decode (RdsExamples.at_time 14 37))
    as ((Hh & _) & (_ & _ & Hd) & _); cbn; try lia.
  split; [exact Hh|exact Hd].
Defined.

End ProcedureQueryFacts.

(** * The two programs on one warehouse *)

Module PlatformRunFacts.

Import Sql ListFacts SqlFacts Warehouse RdsRun TelemetryRun.

(** The UPDATE of a merge keeps the surrogate keys of the table. *)
Lemma surgeon_keys_after_update (CURRENT_DATE : date)
    (staging : list RdsEtl.staging_surgeon) (dim : list dim_surgeon_row) :
  sg_surgeon_key <$> RdsEtl.update_surgeons CURRENT_DATE staging dim
  = sg_surgeon_key <$> dim.
Proof.
  unfold RdsEtl.update_surgeons. rewrite <- list_fmap_compose.
  apply list_fmap_ext. intros i d _. cbn. by destruct (holds _).
Qed.

Lemma robot_keys_after_update (CURRENT_DATE : date)
    (staging : list RdsEtl.staging_robot) (dim : list dim_robot_row) :
  r_robot_key <$> RdsEtl.update_robots CURRENT_DATE staging dim
  = r_robot_key <$> dim.
Proof.
  unfold RdsEtl.update_robots. rewrite <- list_fmap_compose.
  apply list_fmap_ext. intros i d _. cbn. by destruct (holds _).
Qed.

Lemma merge_surgeons_keeps_references (CURRENT_DATE : date)
    (staging : list RdsEtl.staging_surgeon) (wh : Warehouse.state) :
  telemetry_refers wh ∧ facts_refer wh →
  telemetry_refers
    (with_dim_surgeons
       (RdsEtl.merge_surgeons CURRENT_DATE staging (dim_surgeons wh)).1 wh)
  ∧ facts_refer
      (with_dim_surgeons
         (RdsEtl.merge_surgeons CURRENT_DATE staging (dim_surgeons wh)).1 wh).
Proof.
  intros [Ht Hf]. split; [done|].
  intros fp Hfp. destruct (Hf fp Hfp) as (Hr & Hs & Hfac).
  split_and!; [done| |done].
  intros k Hk. unfold RdsEtl.merge_surgeons. cbn.
  rewrite fmap_app, surgeon_keys_after_update. apply elem_of_app. left. by apply Hs.
Qed.

Lemma merge_robots_keeps_references (CURRENT_DATE : date)
    (staging : list RdsEtl.staging_robot) (wh : Warehouse.state) :
  telemetry_refers wh ∧ facts_refer wh →
  telemetry_refers
    (with_dim_robots
       (RdsEtl.merge_robots CURRENT_DATE staging (dim_facilities wh)
                            (dim_robots wh)).1 wh)
  ∧ facts_refer
      (with_dim_robots
         (RdsEtl.merge_robots CURRENT_DATE staging (dim_facilities wh)
                              (dim_robots wh)).1 wh).
Proof.
  intros [Ht Hf]. split; [done|].
  intros fp Hfp. destruct (Hf fp Hfp) as (Hr & Hs & Hfac).
  split_and!; [|done|done].
  intros k Hk. unfold RdsEtl.merge_robots. cbn.
  rewrite fmap_app, robot_keys_after_update. apply elem_of_app. left. by apply Hr.
Qed.

Lemma insert_facts_keeps_references (staging : list RdsEtl.staging_procedure)
    (wh : Warehouse.state) :
  telemetry_refers wh ∧ facts_refer wh →
  telemetry_refers (with_fact_procedures (RdsEtl.insert_facts staging wh).1 wh)
  ∧ facts_refer (with_fact_procedures (RdsEtl.insert_facts staging wh).1 wh).
Proof.
  intros [Ht Hf]. split.
  - intros row Hrow. destruct (Ht row Hrow) as (fp & Hfp & Hkey).
    exists fp. split; [|done]. unfold RdsEtl.insert_facts. cbn.
    apply elem_of_app. by left.
  - intros fp Hfp. unfold RdsEtl.insert_facts in Hfp. cbn in Hfp.
    apply elem_of_app in Hfp as [Hold|Hnew]; [by apply Hf|].
    apply with_keys_source in Hnew as (key & x & Hx & ->).
    apply RdsEtlFacts.elem_of_select_facts in Hx as [_ Hx].
    apply RdsEtlFacts.elem_of_resolve in Hx as (_ & _ & Hr & Hs & Hfac).
    cbn. split_and!.
    + intros k Hk. destruct (RdsEtl.robot x) as [r|]; [|done].
      injection Hk as <-. apply left_join_some in Hr as [Hr _].
      apply list_elem_of_fmap. by exists r.
    + intros k Hk. destruct (RdsEtl.surgeon x) as [sg|]; [|done].
      injection Hk as <-. apply left_join_some in Hs as [Hs _].
      apply list_elem_of_fmap. by exists sg.
    + intros k Hk. destruct (RdsEtl.facility x) as [f|]; [|done].
      injection Hk as <-. apply left_join_some in Hfac as [Hfac _].
      apply list_elem_of_fmap. by exists f.
Qed.

(** Referential integrity is an invariant of the warehouse under both
    handlers, however an invocation ends: when every telemetry fact
    carries the key of a procedure fact, and every dimension key of a
    procedure fact is the key of a row of its dimension, the same holds
    after an invocation of the relational load and after an invocation
    of the telemetry load. *)
Theorem references_are_kept
    (get_rds_connection get_redshift_connection : result unit)
    (copy_staging_surgeons :
       list RdsEtl.staging_surgeon → result (list RdsEtl.staging_surgeon))
    (copy_staging_robots :
       list RdsEtl.staging_robot → result (list RdsEtl.staging_robot))
    (copy_staging_procedures :
       list RdsEtl.staging_procedure → result (list RdsEtl.staging_procedure))
    (CURRENT_DATE : date) (now_isoformat : string) (yesterday today : datetime)
    (fromisoformat : string → option datetime)
    (copy_staging_telemetry :
       list S3Telemetry.flat_record → result (list S3Telemetry.staging_telemetry_row))
    (now_yyyymmdd : string) :
  (∀ (ev : RdsEtl.event_params) (w : RdsEtl.world),
     telemetry_refers (RdsEtl.warehouse w) ∧ facts_refer (RdsEtl.warehouse w) →
     telemetry_refers
       (RdsEtl.warehouse
          (RdsEtl.lambda_handler get_rds_connection get_redshift_connection
             copy_staging_surgeons copy_staging_robots copy_staging_procedures
             CURRENT_DATE now_isoformat yesterday today ev w).2)
     ∧ facts_refer
         (RdsEtl.warehouse
            (RdsEtl.lambda_handler get_rds_connection get_redshift_connection
               copy_staging_surgeons copy_staging_robots copy_staging_procedures
               CURRENT_DATE now_isoformat yesterday today ev w).2))
  ∧ (∀ (event : gmap string string) (w : S3Telemetry.world),
       telemetry_refers (S3Telemetry.warehouse w)
       ∧ facts_refer (S3Telemetry.warehouse w) →
       telemetry_refers
         (S3Telemetry.warehouse
            (S3Telemetry.lambda_handler fromisoformat get_redshift_connection
               copy_staging_telemetry now_isoformat now_yyyymmdd event w).2)
       ∧ facts_refer
           (S3Telemetry.warehouse
              (S3Telemetry.lambda_handler fromisoformat get_redshift_connection
                 copy_staging_telemetry now_isoformat now_yyyymmdd event w).2)).
Proof.
  split.
  - intros ev w.
    apply (RdsRunFacts.handler_steps get_rds_connection get_redshift_connection
             copy_staging_surgeons copy_staging_robots copy_staging_procedures
             CURRENT_DATE now_isoformat yesterday today
             (λ a b, telemetry_refers a ∧ facts_refer a
                     → telemetry_refers b ∧ facts_refer b)).
    + done.
    + intros a b c Hab Hbc Ha. by apply Hbc, Hab.
    + intros staging wh. apply merge_surgeons_keeps_references.
    + intros staging wh. apply merge_robots_keeps_references.
    + intros staging wh. apply insert_facts_keeps_references.
  - intros event w [Ht Hf].
    destruct (TelemetryRunFacts.handler_world fromisoformat get_redshift_connection
                copy_staging_telemetry now_isoformat now_yyyymmdd event w)
      as (-> & _).
    split.
    + by apply TelemetryRunFacts.run_keeps_references.
    + destruct (TelemetryRunFacts.run_outcome fromisoformat get_redshift_connection
                  copy_staging_telemetry
                  (default "telemetry/" (event !! "s3_prefix")) w) as [_ ->].
      destruct (records_of_run _ _ _); [done|].
      destruct get_redshift_connection; [|done].
      by destruct (copy_staging_telemetry _).
Qed.

(** The full run of the examples, from a warehouse without facts. *)
Lemma references_are_kept_witness :
  (telemetry_refers RdsExamples.fresh_warehouse
   ∧ facts_refer RdsExamples.fresh_warehouse)
  ∧ facts_refer (RdsEtl.warehouse RdsExamples.invoke_full.2)
  ∧ fact_procedures (RdsEtl.warehouse RdsExamples.invoke_full.2) ≠ [].
Proof.
  assert (H : telemetry_refers RdsExamples.fresh_warehouse
              ∧ facts_refer RdsExamples.fresh_warehouse).
  { split; intros x Hx; by apply elem_of_nil in Hx. }
  split; [exact H|]. split; [|vm_compute; discriminate].
  destruct (references_are_kept (Ok ()) (Ok ()) Ok Ok Ok 19800%Z
              "2024-03-06T01:00:00" (RdsExamples.midnight 5) (RdsExamples.midnight 6)
              Iso.parse TelemetryExamples.copy_rows "20240306") as [Hrds _].
  exact (proj2 (Hrds RdsExamples.full_run RdsExamples.fresh_world H)).
Defined.

(** The full run of the examples returns a result. *)
Lemma etl_handler_returns_success_witness :
  ∃ results,
    RdsEtl.outcome RdsExamples.invoke_full.1 = Ok results
    ∧ results !! "status" = Some (PStr "success").
Proof.
  destruct (RdsEtl.outcome RdsExamples.invoke_full.1) as [results|e] eqn:H.
  - exists results. split; [reflexivity|].
    exact (PlatformFacts.etl_handler_returns_success (Ok ()) (Ok ()) Ok Ok Ok
             19800%Z "2024-03-06T01:00:00" (RdsExamples.midnight 5)
             (RdsExamples.midnight 6) RdsExamples.full_run RdsExamples.fresh_world
             results H).
  - vm_compute in H. discriminate H.
Defined.

End PlatformRunFacts.

(** * The extraction queries *)

Module ExtractionFacts.

Import Sql ListFacts SqlFacts Warehouse RdsEtl Extraction.

Local Open Scope Z_scope.

Lemma remove_dups_NoDup {A} `{EqDecision A} (l : list A) :
  NoDup l → remove_dups l = l.
Proof.
  induction 1 as [|a l Hnotin Hnd IH]; [done|]. cbn.
  destruct (decide_rel elem_of a l); [done|]. by rewrite IH.
Qed.

(** [MIN]: a value of the column, not after any other; NULL only when
    the column holds nothing else. *)
Lemma min_time_spec (ts : list (option datetime)) :
  match min_time ts with
  | Some m => Some m ∈ ts ∧ ∀ t, Some t ∈ ts → ts_ord m ≤ ts_ord t
  | None => ∀ t, Some t ∉ ts
  end.
Proof.
  induction ts as [|[t|] ts IH]; cbn.
  - intros t Ht. by apply elem_of_nil in Ht.
  - fold (min_time ts). destruct (min_time ts) as [m|].
    + destruct IH as [Hin Hmin]. destruct (Z.ltb_spec (ts_ord t) (ts_ord m)).
      * split; [apply list_elem_of_here|].
        intros t' [[= ->]|Ht']%elem_of_cons; [lia|]. specialize (Hmin t' Ht'). lia.
      * split; [by apply list_elem_of_further|].
        intros t' [[= ->]|Ht']%elem_of_cons; [lia|]. by apply Hmin.
    + split; [apply list_elem_of_here|].
      intros t' [[= ->]|Ht']%elem_of_cons; [lia|]. by destruct (IH t').
  - fold (min_time ts). destruct (min_time ts) as [m|].
    + destruct IH as [Hin Hmin]. split; [by apply list_elem_of_further|].
      intros t' [?|Ht']%elem_of_cons; [done|]. by apply Hmin.
    + intros t' [?|Ht']%elem_of_cons; [done|]. by destruct (IH t').
Qed.

Section SurgeonQuery.

Variable years_since : datetime → Z.
Variable to_date : datetime → date.
Variable procedures : list surgeon_procedure.

Lemma elem_of_surgeon_groups (g : string * option string) :
  g ∈ surgeon_groups procedures
  ↔ ∃ p, p ∈ procedures ∧ q_surgeon_id p = Some g.1 ∧ q_surgeon_name p = g.2.
Proof.
  unfold surgeon_groups. rewrite elem_of_remove_dups, list_elem_of_omap.
  destruct g as [id name]. cbn. split.
  - intros (p & Hp & Hg). destruct (q_surgeon_id p) as [id'|] eqn:Hid; [|done].
    cbn in Hg. injection Hg as Ha Hb. subst. eauto.
  - intros (p & Hp & Hid & Hname). exists p. split; [done|].
    by rewrite Hid, Hname.
Qed.

Lemma surgeon_row_inj (g g' : string * option string) :
  surgeon_row years_since to_date procedures g
  = surgeon_row years_since to_date procedures g' → g = g'.
Proof.
  destruct g as [id name], g' as [id' name']. unfold surgeon_row. cbn.
  intros H. injection H as Hid Hname _ _. by subst.
Qed.

(** The DISTINCT removes nothing: the groups differ in the two columns
    they are made of. *)
Lemma surgeon_query_rows :
  surgeon_query years_since to_date procedures
  = surgeon_row years_since to_date procedures <$> surgeon_groups procedures.
Proof.
  unfold surgeon_query. apply remove_dups_NoDup.
  apply NoDup_fmap_2_strong.
  - intros g g' _ _. apply surgeon_row_inj.
  - apply NoDup_remove_dups.
Qed.

(** The surgeon query stages one row for each pair of a surgeon id and a
    name that occurs in a procedure with a surgeon id, and no other row;
    its date columns come from the earliest start time of the pair.  So
    the staged surgeon ids are distinct exactly when no surgeon id is
    recorded under two names: a surgeon whose name is spelled in two
    ways is staged twice. *)
Theorem surgeon_query_stages_each_spelling :
  (∀ s, s ∈ surgeon_query years_since to_date procedures
        ↔ ∃ p, p ∈ procedures
               ∧ ∃ id, q_surgeon_id p = Some id
                       ∧ s = surgeon_row years_since to_date procedures
                               (id, q_surgeon_name p))
  ∧ NoDup ((λ s, (s_surgeon_id s, s_surgeon_name s))
             <$> surgeon_query years_since to_date procedures)
  ∧ (NoDup (s_surgeon_id <$> surgeon_query years_since to_date procedures)
     ↔ ∀ p1 p2, p1 ∈ procedures → p2 ∈ procedures →
                is_Some (q_surgeon_id p1) →
                q_surgeon_id p1 = q_surgeon_id p2 →
                q_surgeon_name p1 = q_surgeon_name p2)
  ∧ (∀ g, match min_time (q_start_time <$> surgeon_group g procedures) with
          | Some first =>
              (∃ p, p ∈ surgeon_group g procedures ∧ q_start_time p = Some first)
              ∧ ∀ p t, p ∈ surgeon_group g procedures → q_start_time p = Some t →
                       ts_ord first ≤ ts_ord t
          | None => ∀ p, p ∈ surgeon_group g procedures → q_start_time p = None
          end).
Proof.
  rewrite surgeon_query_rows. split_and!.
  - intros s. rewrite list_elem_of_fmap. split.
    + intros (g & -> & (p & Hp & Hid & Hname)%elem_of_surgeon_groups).
      exists p. split; [done|]. exists g.1. split; [done|].
      rewrite Hname. by destruct g.
    + intros (p & Hp & id & Hid & ->). exists (id, q_surgeon_name p).
      split; [done|]. apply elem_of_surgeon_groups. eauto.
  - rewrite <- list_fmap_compose. apply NoDup_fmap_2_strong.
    + intros [id name] [id' name'] _ _. cbn. congruence.
    + apply NoDup_remove_dups.
  - rewrite <- list_fmap_compose. split.
    + intros Hnd p1 p2 Hp1 Hp2 [id Hid] Heq.
      assert (H1 : (id, q_surgeon_name p1) ∈ surgeon_groups procedures)
        by (apply elem_of_surgeon_groups; eauto).
      assert (H2 : (id, q_surgeon_name p2) ∈ surgeon_groups procedures)
        by (apply elem_of_surgeon_groups; exists p2; split_and!; cbn; congruence).
      pose proof (NoDup_key_inj _ _ _ _ Hnd H1 H2 eq_refl) as Hg.
      by injection Hg.
    + intros Hfun. apply NoDup_fmap_2_strong; [|apply NoDup_remove_dups].
      intros [id name] [id' name']
             (p1 & Hp1 & Hid1 & Hn1)%elem_of_surgeon_groups
             (p2 & Hp2 & Hid2 & Hn2)%elem_of_surgeon_groups.
      cbn in *. intros [= <-]. f_equal. rewrite <- Hn1, <- Hn2.
      apply Hfun; try done; congruence.
  - intros g.
    pose proof (min_time_spec (q_start_time <$> surgeon_group g procedures)) as H.
    destruct (min_time _) as [first|].
    + destruct H as [(p & Hfirst & Hp)%list_elem_of_fmap Hmin]. split; [eauto|].
      intros p' t Hp' Ht. apply Hmin. apply list_elem_of_fmap. eauto.
    + intros p Hp. destruct (q_start_time p) as [t|] eqn:Ht; [|done].
      destruct (H t). apply list_elem_of_fmap. eauto.
Qed.

End SurgeonQuery.

Section RobotQuery.

Variable hours : Z → decimal.
Variable robots : list robot_record.
Variable procedures : list surgical_procedure.

Lemma own_group (g : robot_record) :
  NoDup robots → g ∈ robots →
  robot_group robots procedures g
  = left_join (λ p, sql_eq (rr_robot_id g) (p_robot_id p)) procedures.
Proof.
  intros Hnd Hg. unfold robot_group.
  destruct (filter_unique_key id robots g) as [r Hr].
  - by rewrite list_fmap_id.
  - by rewrite list_fmap_id.
  - assert (Hin : r ∈ List.filter (λ a, bool_decide (id a = g)) robots)
      by (rewrite Hr; apply list_elem_of_here).
    apply elem_of_filter_bool in Hin as [_ Heq%bool_decide_eq_true].
    cbn in Heq. subst r.
    rewrite (filter_ext _ (λ a, bool_decide (id a = g))) by done.
    rewrite Hr, bind_singleton. done.
Qed.

Lemma count_of_left_join (g : robot_record) :
  count_procedure_id
    (left_join (λ p, sql_eq (rr_robot_id g) (p_robot_id p)) procedures)
  = Z.of_nat (length (procedures_of g procedures)).
Proof.
  unfold count_procedure_id, procedures_of, left_join. f_equal.
  rewrite <- (filter_filter
                (λ p, bool_decide (is_Some (p_procedure_id p)))
                (λ p, holds (sql_eq (rr_robot_id g) (p_robot_id p)))).
  destruct (List.filter (λ p, holds (sql_eq (rr_robot_id g) (p_robot_id p)))
                        procedures) as [|p m]; [done|].
  rewrite filter_fmap, length_fmap. done.
Qed.

Lemma sum_of_left_join (g : robot_record) :
  sum_duration_minutes
    (left_join (λ p, sql_eq (rr_robot_id g) (p_robot_id p)) procedures)
  = foldr Z.add 0
      (omap p_duration_minutes
         (List.filter (λ p, holds (sql_eq (rr_robot_id g) (p_robot_id p)))
                      procedures)).
Proof.
  unfold sum_duration_minutes, left_join.
  destruct (List.filter (λ p, holds (sql_eq (rr_robot_id g) (p_robot_id p)))
                        procedures) as [|p m]; [done|].
  f_equal. generalize (p :: m). intros l.
  induction l as [|a l IH]; [done|]. cbn. destruct (p_duration_minutes a); cbn;
    by rewrite IH.
Qed.

(** When robot ids are distinct in [surgical_robots], the robot query
    stages one row for each robot, with distinct robot ids; the row of a
    robot counts its procedures that carry a procedure id (0 when it has
    none) and adds up their durations, NULL durations left out (0 when
    there is none); the effective date is the install date. *)
Theorem robot_query_counts_procedures :
  NoDup (rr_robot_id <$> robots) →
  NoDup (s_robot_id <$> robot_query hours robots procedures)
  ∧ length (robot_query hours robots procedures) = length robots
  ∧ ∀ r, r ∈ robots →
         ∃ s, s ∈ robot_query hours robots procedures
              ∧ s_robot_id s = rr_robot_id r
              ∧ s_total_procedures_count s
                = Some (Z.of_nat (length (procedures_of r procedures)))
              ∧ s_total_operating_hours s
                = Some (hours
                          (foldr Z.add 0
                             (omap p_duration_minutes
                                (List.filter
                                   (λ p, holds (sql_eq (rr_robot_id r) (p_robot_id p)))
                                   procedures))))
              ∧ s_robot_effective_date s = rr_install_date r.
Proof.
  intros Hids. assert (Hnd : NoDup robots) by by apply NoDup_fmap_1 in Hids.
  unfold robot_query. rewrite (remove_dups_NoDup robots Hnd). split_and!.
  - by rewrite <- list_fmap_compose.
  - by rewrite length_fmap.
  - intros r Hr. exists (robot_row hours robots procedures r). split_and!.
    + apply list_elem_of_fmap. eauto.
    + done.
    + cbn. by rewrite own_group, count_of_left_join.
    + cbn. by rewrite own_group, sum_of_left_join.
    + done.
Qed.

End RobotQuery.

(** The surgeon recorded under two spellings is staged twice. *)
Lemma surgeon_query_stages_each_spelling_witness :
  length (surgeon_query ExtractionExamples.years_to_2025 ExtractionExamples.march_date
            ExtractionExamples.three_procedures) = 2%nat
  ∧ ¬ NoDup (s_surgeon_id
               <$> surgeon_query ExtractionExamples.years_to_2025
                     ExtractionExamples.march_date
                     ExtractionExamples.three_procedures).
Proof.
  split; [reflexivity|].
  intros Hnd.
  destruct (surgeon_query_stages_each_spelling ExtractionExamples.years_to_2025
              ExtractionExamples.march_date ExtractionExamples.three_procedures)
    as (_ & _ & Hiff & _).
  pose proof (proj1 Hiff Hnd
                {| q_surgeon_id := Some "SURG-0001";
                   q_surgeon_name := Some "Dr. Smith";
                   q_start_time := Some (RdsExamples.at_time 14 37) |}
                {| q_surgeon_id := Some "SURG-0001";
                   q_surgeon_name := Some "Dr Smith";
                   q_start_time := Some (RdsExamples.at_time 9 0) |}) as H.
  cbn in H. discriminate H.
  - apply list_elem_of_here.
  - apply list_elem_of_further, list_elem_of_here.
  - eauto.
  - reflexivity.
Defined.

(** Two robots and the procedure of the examples. *)
Lemma robot_query_counts_procedures_witness :
  NoDup (rr_robot_id <$> ExtractionExamples.two_robots)
  ∧ (s_total_procedures_count
       <$> robot_query ExtractionExamples.hundredths ExtractionExamples.two_robots
             (surgical_procedures RdsExamples.store))
    = [Some 1; Some 0]
  ∧ length (robot_query ExtractionExamples.hundredths ExtractionExamples.two_robots
              (surgical_procedures RdsExamples.store)) = 2%nat.
Proof.
  assert (H : NoDup (rr_robot_id <$> ExtractionExamples.two_robots)).
  { refine (bool_decide_unpack _ _). vm_compute. reflexivity. }
  split; [exact H|]. split; [reflexivity|].
  destruct (robot_query_counts_procedures ExtractionExamples.hundredths
              ExtractionExamples.two_robots (surgical_procedures RdsExamples.store) H)
    as (_ & Hlen & _).
  exact Hlen.
Defined.

End ExtractionFacts.
